(** * JASP engine: the engine state machine of [JASP-Engine/engine.cpp]

    A shallow embedding of class [Engine]: its two state machines
    ([engineState] and the per-analysis [Status]), the message dispatch
    [receiveMessages], the handlers it calls, [runAnalysis] and the
    reentrant [callback]; then [initialize], the main loop [run] and
    [setColumnDataAsNominalOrOrdinal].

    The engine is single threaded and stateful.  Every member function is
    embedded as a function in a state-and-exception monad over the record
    [Engine]; a C++ exception that leaves the function is the outcome
    [Throw], which keeps the state reached when it was thrown.

    What lies outside [engine.cpp] (the R bridge, the shared-memory
    dataset, the column encoder, jsoncpp's reader and writer) is collected
    in the record [Externals]; the engine is verified for every
    implementation of it.  The embedding is of the build in which the
    macros [PRINT_ENGINE_MESSAGES] and [JASP_COLUMN_ENCODE_ALL] are not
    defined.

    A request is embedded as it is after decoding: a record of optional
    fields, each of the type the protocol gives it.  Documents that the
    engine only inspects or passes on (options, image options, results of
    the runtime) are [Json] values. *)

From Stdlib Require Import String ZArith List Bool Lia DecimalString.
Import ListNotations.
Local Open Scope string_scope.
Local Open Scope Z_scope.

Set Implicit Arguments.
Set Warnings "-register-all".

(** ** Enumerations *)

(** Modelled from the spec: the declaration of [engineState] (engine.h and
    the enum utilities) is not part of the sources; its enumerators are the
    ones the spec lists in its data model; [engine.cpp] names all of them
    but [uninitialized]. *)
Module engineState.
Inductive t : Set :=
| uninitialized | initializing | idle | analysis | filter | rCode
| computeColumn | moduleRequest | pauseRequested | paused | resuming
| stopRequested | stopped | logCfg | settings.

Definition eqb (a b : t) : bool :=
  match a, b with
  | uninitialized, uninitialized | initializing, initializing
  | idle, idle | analysis, analysis | filter, filter | rCode, rCode
  | computeColumn, computeColumn | moduleRequest, moduleRequest
  | pauseRequested, pauseRequested | paused, paused
  | resuming, resuming | stopRequested, stopRequested
  | stopped, stopped | logCfg, logCfg | settings, settings => true
  | _, _ => false
  end.
End engineState.

Definition engineStateToString (s : engineState.t) : string :=
  match s with
  | engineState.uninitialized => "uninitialized"
  | engineState.initializing => "initializing"
  | engineState.idle => "idle"
  | engineState.analysis => "analysis"
  | engineState.filter => "filter"
  | engineState.rCode => "rCode"
  | engineState.computeColumn => "computeColumn"
  | engineState.moduleRequest => "moduleRequest"
  | engineState.pauseRequested => "pauseRequested"
  | engineState.paused => "paused"
  | engineState.resuming => "resuming"
  | engineState.stopRequested => "stopRequested"
  | engineState.stopped => "stopped"
  | engineState.logCfg => "logCfg"
  | engineState.settings => "settings"
  end.

Definition all_engineStates : list engineState.t :=
  [ engineState.uninitialized; engineState.initializing; engineState.idle;
    engineState.analysis; engineState.filter; engineState.rCode;
    engineState.computeColumn; engineState.moduleRequest;
    engineState.pauseRequested; engineState.paused; engineState.resuming;
    engineState.stopRequested; engineState.stopped; engineState.logCfg;
    engineState.settings ].

(** Modelled from the spec: [engineStateFromString] is generated with the
    enum and is not part of the sources.  A name of an enumerator gives
    that enumerator; any other string is not a value of the enum, which the
    spec makes a fatal error ([None] here, raised by the caller). *)
Definition engineStateFromString (s : string) : option engineState.t :=
  find (fun st => String.eqb (engineStateToString st) s) all_engineStates.

(** The request types for which [receiveMessages] has a handler. *)
Definition handledRequestTypes : list string :=
  ["analysis"; "filter"; "rCode"; "computeColumn"; "pauseRequested";
   "resuming"; "moduleRequest"; "stopRequested"; "logCfg"; "settings"].

(** Modelled from the spec: the per-analysis status enum ([Status] in
    [engine.cpp]); the enumerators of the spec's data model and [stopped],
    which [PollMessagesFunctionForJaspResults] names. *)
Module Status.
Inductive t : Set :=
| empty | toInit | initing | inited | toRun | running | changed
| aborted | stopped | complete | saveImg | editImg | rewriteImgs
| error | exception.

Definition eqb (a b : t) : bool :=
  match a, b with
  | empty, empty | toInit, toInit | initing, initing | inited, inited
  | toRun, toRun | running, running | changed, changed
  | aborted, aborted | stopped, stopped | complete, complete
  | saveImg, saveImg | editImg, editImg | rewriteImgs, rewriteImgs
  | error, error | exception, exception => true
  | _, _ => false
  end.
End Status.

Definition engineAnalysisStatusToString (s : Status.t) : string :=
  match s with
  | Status.empty => "empty" | Status.toInit => "toInit"
  | Status.initing => "initing" | Status.inited => "inited"
  | Status.toRun => "toRun" | Status.running => "running"
  | Status.changed => "changed" | Status.aborted => "aborted"
  | Status.stopped => "stopped" | Status.complete => "complete"
  | Status.saveImg => "saveImg" | Status.editImg => "editImg"
  | Status.rewriteImgs => "rewriteImgs" | Status.error => "error"
  | Status.exception => "exception"
  end.

(** Modelled from the spec: the declaration of [performType] is not part
    of the sources.  The five values handled by name in
    [receiveAnalysisMessage] are the ones the spec lists; [unrecognized]
    stands for every other value, which the [switch] sends to [default]. *)
Module performType.
Inductive t : Set :=
| init | run | saveImg | editImg | rewriteImgs | unrecognized.

Definition eqb (a b : t) : bool :=
  match a, b with
  | init, init | run, run | saveImg, saveImg | editImg, editImg
  | rewriteImgs, rewriteImgs | unrecognized, unrecognized => true
  | _, _ => false
  end.
End performType.

Definition performTypeFromString (s : string) : performType.t :=
  if String.eqb s "init" then performType.init
  else if String.eqb s "run" then performType.run
  else if String.eqb s "saveImg" then performType.saveImg
  else if String.eqb s "editImg" then performType.editImg
  else if String.eqb s "rewriteImgs" then performType.rewriteImgs
  else performType.unrecognized.

(** Modelled from the spec: [columnType], with the four representations a
    computed column can take; [unknown] is every other value. *)
Module columnType.
Inductive t : Set := scale | ordinal | nominal | nominalText | unknown.
End columnType.

Definition columnTypeFromString (s : string) : columnType.t :=
  if String.eqb s "scale" then columnType.scale
  else if String.eqb s "ordinal" then columnType.ordinal
  else if String.eqb s "nominal" then columnType.nominal
  else if String.eqb s "nominalText" then columnType.nominalText
  else columnType.unknown.

(** Modelled from the spec: [analysisResultStatus]; the status names of an
    analysis response.  A name the spec does not list is kept as it is. *)
Module analysisResultStatus.
Inductive t : Set :=
| inited | running | complete | fatalError | imagesRewritten
| other (name : string).
End analysisResultStatus.

Definition analysisResultStatusToString (s : analysisResultStatus.t) : string :=
  match s with
  | analysisResultStatus.inited => "inited"
  | analysisResultStatus.running => "running"
  | analysisResultStatus.complete => "complete"
  | analysisResultStatus.fatalError => "fatalError"
  | analysisResultStatus.imagesRewritten => "imagesRewritten"
  | analysisResultStatus.other name => name
  end.

Definition analysisResultStatusFromString (s : string) : analysisResultStatus.t :=
  if String.eqb s "inited" then analysisResultStatus.inited
  else if String.eqb s "running" then analysisResultStatus.running
  else if String.eqb s "complete" then analysisResultStatus.complete
  else if String.eqb s "fatalError" then analysisResultStatus.fatalError
  else if String.eqb s "imagesRewritten" then analysisResultStatus.imagesRewritten
  else analysisResultStatus.other s.

(** Decimal rendering of an [int], as [operator<<] and jsoncpp print it. *)
Definition string_of_Z (z : Z) : string :=
  NilZero.string_of_int (Z.to_int z).

(** ** JSON values

    [Json::Value] of jsoncpp, for the documents the engine only passes on
    or inspects: options, image options, results. *)
Inductive Json : Set :=
| JNull
| JBool (b : bool)
| JInt (z : Z)
| JString (s : string)
| JArray (items : list Json)
| JObject (members : list (string * Json)).

Module JsonValue.
Definition isNull (j : Json) : bool :=
  match j with JNull => true | _ => false end.
Definition isObject (j : Json) : bool :=
  match j with JObject _ => true | _ => false end.
Definition isArray (j : Json) : bool :=
  match j with JArray _ => true | _ => false end.
Definition isString (j : Json) : bool :=
  match j with JString _ => true | _ => false end.

Fixpoint lookup (key : string) (ms : list (string * Json)) : option Json :=
  match ms with
  | [] => None
  | (k, v) :: rest => if String.eqb k key then Some v else lookup key rest
  end.

(** [value.get(key, defaultValue)]. *)
Definition get (j : Json) (key : string) (defaultValue : Json) : Json :=
  match j with
  | JObject ms =>
      match lookup key ms with Some v => v | None => defaultValue end
  | _ => defaultValue
  end.

(** [value[key]] read: the member, or null. *)
Definition at_ (j : Json) (key : string) : Json := get j key JNull.

Fixpoint assign (key : string) (v : Json) (ms : list (string * Json))
  : list (string * Json) :=
  match ms with
  | [] => [(key, v)]
  | (k, old) :: rest =>
      if String.eqb k key then (k, v) :: rest
      else (k, old) :: assign key v rest
  end.

(** [value[key] = v]: a null value becomes an object first. *)
Definition set (j : Json) (key : string) (v : Json) : Json :=
  match j with
  | JObject ms => JObject (assign key v ms)
  | _ => JObject [(key, v)]
  end.

(** [asString], [asInt], [asBool]: the conversions of jsoncpp on the
    values it converts.  Where jsoncpp has no conversion (an array or an
    object; a string asked as a number or a flag) the model gives the
    empty string, zero and false. *)
Definition asString (j : Json) : string :=
  match j with
  | JString s => s
  | JBool true => "true"
  | JBool false => "false"
  | JInt z => string_of_Z z
  | _ => ""
  end.

Definition asInt (j : Json) : Z :=
  match j with
  | JInt z => z
  | JBool true => 1
  | _ => 0
  end.

Definition asBool (j : Json) : bool :=
  match j with
  | JBool b => b
  | JInt z => negb (Z.eqb z 0)
  | _ => false
  end.
End JsonValue.

(** ** Requests

    A decoded request envelope.  Every field of the protocol is optional;
    a field that is present holds a value of the type the protocol gives
    it, so [jsonRequest.get(key, d).asT()] is [get (field r) d]. *)
Record Request : Set := mkRequest {
  rq_typeRequest : option string;
  (* analysis *)
  rq_id : option Z;
  rq_perform : option string;
  rq_name : option string;
  rq_title : option string;
  rq_dataKey : option Json;
  rq_resultsMeta : option Json;
  rq_stateKey : option Json;
  rq_revision : option Z;
  rq_image : option Json;
  rq_rfile : option string;
  rq_dynamicModuleCall : option string;
  rq_requiresInit : option bool;
  rq_jaspResults : option bool;
  rq_options : option Json;
  (* filter *)
  rq_filter : option string;
  rq_generatedFilter : option string;
  rq_requestId : option Z;
  (* rCode *)
  rq_rCode : option string;
  rq_whiteListed : option bool;
  rq_returnLog : option bool;
  (* computeColumn *)
  rq_columnName : option string;
  rq_computeCode : option string;
  rq_columnType : option string;
  (* moduleRequest *)
  rq_moduleRequest : option string;
  rq_moduleCode : option string;
  rq_moduleName : option string;
  (* settings *)
  rq_ppi : option Z;
  rq_developerMode : option bool;
  rq_imageBackground : option string;
  rq_languageCode : option string
}.

(** The value of a field, or the default of the [get] that reads it. *)
Definition get {A : Type} (field : option A) (defaultValue : A) : A :=
  match field with Some v => v | None => defaultValue end.

(** The request [r] with another [requestId], or another [whiteListed]
    field. *)
Definition withRequestId (v : option Z) (r : Request) : Request :=
  {| rq_typeRequest := rq_typeRequest r;
     rq_id := rq_id r;
     rq_perform := rq_perform r;
     rq_name := rq_name r;
     rq_title := rq_title r;
     rq_dataKey := rq_dataKey r;
     rq_resultsMeta := rq_resultsMeta r;
     rq_stateKey := rq_stateKey r;
     rq_revision := rq_revision r;
     rq_image := rq_image r;
     rq_rfile := rq_rfile r;
     rq_dynamicModuleCall := rq_dynamicModuleCall r;
     rq_requiresInit := rq_requiresInit r;
     rq_jaspResults := rq_jaspResults r;
     rq_options := rq_options r;
     rq_filter := rq_filter r;
     rq_generatedFilter := rq_generatedFilter r;
     rq_requestId := v;
     rq_rCode := rq_rCode r;
     rq_whiteListed := rq_whiteListed r;
     rq_returnLog := rq_returnLog r;
     rq_columnName := rq_columnName r;
     rq_computeCode := rq_computeCode r;
     rq_columnType := rq_columnType r;
     rq_moduleRequest := rq_moduleRequest r;
     rq_moduleCode := rq_moduleCode r;
     rq_moduleName := rq_moduleName r;
     rq_ppi := rq_ppi r;
     rq_developerMode := rq_developerMode r;
     rq_imageBackground := rq_imageBackground r;
     rq_languageCode := rq_languageCode r |}.

Definition withWhiteListed (v : option bool) (r : Request) : Request :=
  {| rq_typeRequest := rq_typeRequest r;
     rq_id := rq_id r;
     rq_perform := rq_perform r;
     rq_name := rq_name r;
     rq_title := rq_title r;
     rq_dataKey := rq_dataKey r;
     rq_resultsMeta := rq_resultsMeta r;
     rq_stateKey := rq_stateKey r;
     rq_revision := rq_revision r;
     rq_image := rq_image r;
     rq_rfile := rq_rfile r;
     rq_dynamicModuleCall := rq_dynamicModuleCall r;
     rq_requiresInit := rq_requiresInit r;
     rq_jaspResults := rq_jaspResults r;
     rq_options := rq_options r;
     rq_filter := rq_filter r;
     rq_generatedFilter := rq_generatedFilter r;
     rq_requestId := rq_requestId r;
     rq_rCode := rq_rCode r;
     rq_whiteListed := v;
     rq_returnLog := rq_returnLog r;
     rq_columnName := rq_columnName r;
     rq_computeCode := rq_computeCode r;
     rq_columnType := rq_columnType r;
     rq_moduleRequest := rq_moduleRequest r;
     rq_moduleCode := rq_moduleCode r;
     rq_moduleName := rq_moduleName r;
     rq_ppi := rq_ppi r;
     rq_developerMode := rq_developerMode r;
     rq_imageBackground := rq_imageBackground r;
     rq_languageCode := rq_languageCode r |}.

(** What one call of [_channel->receive(data, timeout)] delivers: nothing
    ([None] in the inbox), the empty string, or a request document. *)
Inductive Data : Set :=
| EmptyData
| Document (jsonRequest : Request).

(** ** The compute runtime during an analysis

    [rbridge_run] and [rbridge_runModuleCall] block until the analysis
    returns; meanwhile the runtime calls back into the engine.  A [Script]
    is one such call seen from the engine: the calls back it makes, each
    continued with what the engine answered, and the result string it
    returns in the end.

    [RCallback] is a call of the callback handed to [rbridge_run],
    [RSend] and [RPoll] are calls of [SendFunctionForJaspresults] and
    [PollMessagesFunctionForJaspResults], registered with [rbridge_init],
    and [RProvideFile] is a call of one of the file name sources
    registered by the constructor.  [RReturn] carries what the call did to
    the world. *)
Inductive FileRequest : Set :=
| StateFile
| JaspResultsFile
| SpecificFile (specificName : string)
| TempFile (extension : string).

Inductive Script (World : Type) : Type :=
| RReturn (result : string) (after : World -> World)
| RCallback (results : string) (progress : Z) (k : string -> Script World)
| RSend (msg : string) (k : Script World)
| RPoll (k : bool -> Script World)
| RProvideFile (f : FileRequest) (k : string -> Script World).

Arguments RReturn {World} result after.

(** Modelled from the spec: [TempFiles] (JASP-Common/tempfiles.h) is not
    part of the sources.  It keeps the temp files together with the
    analysis id each is attributed to: [retrieveList] gives the files
    attributed to an id, [deleteList] discards the listed files. *)
Module TempFiles.
Definition t : Set := list (Z * string).

Definition retrieveList (id : Z) (tf : t) : list string :=
  map snd (filter (fun f => Z.eqb (fst f) id) tf).

Definition deleteList (files : list string) (tf : t) : t :=
  filter (fun f => negb (existsb (String.eqb (snd f)) files)) tf.
End TempFiles.

(** ** External collaborators *)
Record Externals : Type := mkExternals {
  World : Type;
  (* jsoncpp writer and reader; Utils; stringUtils *)
  toStyledString : Json -> string;
  Json_Reader_parse : string -> bool * Json;
  convertEscapedUnicodeToUTF8 : string -> string;
  stripRComments : string -> string;
  (* rbridge and jaspRCPP; [inl what] is a thrown filterException *)
  rbridge_applyFilter : string -> string -> World -> (string + list bool) * World;
  jaspRCPP_getLastErrorMsg : World -> string;
  rbridge_evalRCodeWhiteListed : string -> World -> string * World;
  jaspRCPP_evalRCode : string -> World -> string * World;
  jaspRCPP_evalRCodeCommander : string -> World -> string * World;
  jaspRCPP_runScript : string -> World -> World;
  rbridge_detachRCodeEnv : string -> World -> World;
  rbridge_setLANG : string -> World -> World;
  freeRBridgeColumns : World -> World;
  jaspRCPP_saveImage : string -> string -> Z -> Z -> Z -> string -> World -> string * World;
  jaspRCPP_editImage : string -> Z -> string -> World -> string * World;
  jaspRCPP_rewriteImages : Z -> string -> World -> World;
  rbridge_runModuleCall :
    string -> string -> string -> string -> string -> string -> string ->
    Z -> Z -> Z -> string -> bool -> World -> Script World;
  rbridge_run :
    string -> string -> string -> bool -> string -> string -> string ->
    string -> Z -> Z -> string -> Z -> string -> bool -> bool ->
    World -> Script World;
  (* TempFiles::create and TempFiles::createSpecific: the path of the new
     file and the bookkeeping with the file attributed to the id *)
  TempFiles_create : string -> Z -> TempFiles.t -> string * TempFiles.t;
  TempFiles_createSpecific : string -> Z -> TempFiles.t -> string * TempFiles.t;
  (* shared memory, dataset, column encoder, log *)
  provideDataSet : World -> bool;
  DataSet_getColumnNames : World -> list string;
  SharedMemory_unloadDataSet : World -> World;
  ColumnEncoder_setCurrentColumnNames : list string -> World -> World;
  ColumnEncoder_encodeAll : string -> World -> string;
  ColumnEncoder_decodeAll : string -> World -> string;
  Log_parseLogCfgMsg : Request -> World -> World
}.

(** ** Engine state *)

(** The fields of the Pending Analysis Request, written together by
    [receiveAnalysisMessage]. *)
Record Snapshot : Set := mkSnapshot {
  _analysisName : string;
  _analysisTitle : string;
  _analysisDataKey : string;
  _analysisResultsMeta : string;
  _analysisStateKey : string;
  _analysisRevision : Z;
  _imageOptions : Json;
  _analysisRFile : string;
  _dynamicModuleCall : string;
  _analysisRequiresInit : bool;
  _analysisJaspResults : bool;
  _analysisOptions : string
}.

Record Settings : Set := mkSettings {
  _ppi : Z;
  _developerMode : bool;
  _imageBackground : string;
  _langR : string
}.

(** The exceptions that leave the functions below: [std::runtime_error],
    the exception of a string that names no enumerator, and the
    [std::out_of_range] of [std::map::at]. *)
Inductive exn : Set :=
| runtime_error (what : string)
| missingEnumVal (enumName value : string)
| out_of_range (what : string).

(** The outcome of running a member function: it returns [a] in state
    [e], or an exception leaves it in state [e]. *)
Inductive Outcome (E A : Type) : Type :=
| Ret (a : A) (e : E)
| Throw (x : exn) (e : E).

Arguments Ret {E A} a e.
Arguments Throw {E A} x e.

Definition state_of {E A} (o : Outcome E A) : E :=
  match o with Ret _ e => e | Throw _ e => e end.

Definition returns {E A} (o : Outcome E A) : bool :=
  match o with Ret _ _ => true | Throw _ _ => false end.

(** * The engine *)
Section Engine.

Variable X : Externals.

(** The members of [Engine] that the functions below read or write, the
    two ends of [_channel], the lines written to [Log::log()], the
    temp-file bookkeeping and the outside world. *)
Record Engine : Type := mkEngine {
  _slaveNo : Z;
  _engineState : engineState.t;
  _analysisStatus : Status.t;
  _analysisId : Z;
  pending : Snapshot;
  settings : Settings;
  _progress : Z;
  _currentAnalysisKnowsAboutChange : bool;
  _analysisResultsString : string;
  _analysisResults : Json;
  channel_in : list (option Data);
  channel_out : list string;
  log : list string;
  tempFiles : TempFiles.t;
  world : World X
}.

Definition set_engineState (v : engineState.t) (e : Engine) : Engine :=
  {| _slaveNo := _slaveNo e;
     _engineState := v;
     _analysisStatus := _analysisStatus e;
     _analysisId := _analysisId e;
     pending := pending e;
     settings := settings e;
     _progress := _progress e;
     _currentAnalysisKnowsAboutChange := _currentAnalysisKnowsAboutChange e;
     _analysisResultsString := _analysisResultsString e;
     _analysisResults := _analysisResults e;
     channel_in := channel_in e;
     channel_out := channel_out e;
     log := log e;
     tempFiles := tempFiles e;
     world := world e |}.

Definition set_analysisStatus (v : Status.t) (e : Engine) : Engine :=
  {| _slaveNo := _slaveNo e;
     _engineState := _engineState e;
     _analysisStatus := v;
     _analysisId := _analysisId e;
     pending := pending e;
     settings := settings e;
     _progress := _progress e;
     _currentAnalysisKnowsAboutChange := _currentAnalysisKnowsAboutChange e;
     _analysisResultsString := _analysisResultsString e;
     _analysisResults := _analysisResults e;
     channel_in := channel_in e;
     channel_out := channel_out e;
     log := log e;
     tempFiles := tempFiles e;
     world := world e |}.

Definition set_analysisId (v : Z) (e : Engine) : Engine :=
  {| _slaveNo := _slaveNo e;
     _engineState := _engineState e;
     _analysisStatus := _analysisStatus e;
     _analysisId := v;
     pending := pending e;
     settings := settings e;
     _progress := _progress e;
     _currentAnalysisKnowsAboutChange := _currentAnalysisKnowsAboutChange e;
     _analysisResultsString := _analysisResultsString e;
     _analysisResults := _analysisResults e;
     channel_in := channel_in e;
     channel_out := channel_out e;
     log := log e;
     tempFiles := tempFiles e;
     world := world e |}.

Definition set_pending (v : Snapshot) (e : Engine) : Engine :=
  {| _slaveNo := _slaveNo e;
     _engineState := _engineState e;
     _analysisStatus := _analysisStatus e;
     _analysisId := _analysisId e;
     pending := v;
     settings := settings e;
     _progress := _progress e;
     _currentAnalysisKnowsAboutChange := _currentAnalysisKnowsAboutChange e;
     _analysisResultsString := _analysisResultsString e;
     _analysisResults := _analysisResults e;
     channel_in := channel_in e;
     channel_out := channel_out e;
     log := log e;
     tempFiles := tempFiles e;
     world := world e |}.

Definition set_settings (v : Settings) (e : Engine) : Engine :=
  {| _slaveNo := _slaveNo e;
     _engineState := _engineState e;
     _analysisStatus := _analysisStatus e;
     _analysisId := _analysisId e;
     pending := pending e;
     settings := v;
     _progress := _progress e;
     _currentAnalysisKnowsAboutChange := _currentAnalysisKnowsAboutChange e;
     _analysisResultsString := _analysisResultsString e;
     _analysisResults := _analysisResults e;
     channel_in := channel_in e;
     channel_out := channel_out e;
     log := log e;
     tempFiles := tempFiles e;
     world := world e |}.

Definition set_progress (v : Z) (e : Engine) : Engine :=
  {| _slaveNo := _slaveNo e;
     _engineState := _engineState e;
     _analysisStatus := _analysisStatus e;
     _analysisId := _analysisId e;
     pending := pending e;
     settings := settings e;
     _progress := v;
     _currentAnalysisKnowsAboutChange := _currentAnalysisKnowsAboutChange e;
     _analysisResultsString := _analysisResultsString e;
     _analysisResults := _analysisResults e;
     channel_in := channel_in e;
     channel_out := channel_out e;
     log := log e;
     tempFiles := tempFiles e;
     world := world e |}.

Definition set_currentAnalysisKnowsAboutChange (v : bool) (e : Engine) : Engine :=
  {| _slaveNo := _slaveNo e;
     _engineState := _engineState e;
     _analysisStatus := _analysisStatus e;
     _analysisId := _analysisId e;
     pending := pending e;
     settings := settings e;
     _progress := _progress e;
     _currentAnalysisKnowsAboutChange := v;
     _analysisResultsString := _analysisResultsString e;
     _analysisResults := _analysisResults e;
     channel_in := channel_in e;
     channel_out := channel_out e;
     log := log e;
     tempFiles := tempFiles e;
     world := world e |}.

Definition set_analysisResultsString (v : string) (e : Engine) : Engine :=
  {| _slaveNo := _slaveNo e;
     _engineState := _engineState e;
     _analysisStatus := _analysisStatus e;
     _analysisId := _analysisId e;
     pending := pending e;
     settings := settings e;
     _progress := _progress e;
     _currentAnalysisKnowsAboutChange := _currentAnalysisKnowsAboutChange e;
     _analysisResultsString := v;
     _analysisResults := _analysisResults e;
     channel_in := channel_in e;
     channel_out := channel_out e;
     log := log e;
     tempFiles := tempFiles e;
     world := world e |}.

Definition set_analysisResults (v : Json) (e : Engine) : Engine :=
  {| _slaveNo := _slaveNo e;
     _engineState := _engineState e;
     _analysisStatus := _analysisStatus e;
     _analysisId := _analysisId e;
     pending := pending e;
     settings := settings e;
     _progress := _progress e;
     _currentAnalysisKnowsAboutChange := _currentAnalysisKnowsAboutChange e;
     _analysisResultsString := _analysisResultsString e;
     _analysisResults := v;
     channel_in := channel_in e;
     channel_out := channel_out e;
     log := log e;
     tempFiles := tempFiles e;
     world := world e |}.

Definition set_channel_in (v : list (option Data)) (e : Engine) : Engine :=
  {| _slaveNo := _slaveNo e;
     _engineState := _engineState e;
     _analysisStatus := _analysisStatus e;
     _analysisId := _analysisId e;
     pending := pending e;
     settings := settings e;
     _progress := _progress e;
     _currentAnalysisKnowsAboutChange := _currentAnalysisKnowsAboutChange e;
     _analysisResultsString := _analysisResultsString e;
     _analysisResults := _analysisResults e;
     channel_in := v;
     channel_out := channel_out e;
     log := log e;
     tempFiles := tempFiles e;
     world := world e |}.

Definition set_channel_out (v : list string) (e : Engine) : Engine :=
  {| _slaveNo := _slaveNo e;
     _engineState := _engineState e;
     _analysisStatus := _analysisStatus e;
     _analysisId := _analysisId e;
     pending := pending e;
     settings := settings e;
     _progress := _progress e;
     _currentAnalysisKnowsAboutChange := _currentAnalysisKnowsAboutChange e;
     _analysisResultsString := _analysisResultsString e;
     _analysisResults := _analysisResults e;
     channel_in := channel_in e;
     channel_out := v;
     log := log e;
     tempFiles := tempFiles e;
     world := world e |}.

Definition set_log (v : list string) (e : Engine) : Engine :=
  {| _slaveNo := _slaveNo e;
     _engineState := _engineState e;
     _analysisStatus := _analysisStatus e;
     _analysisId := _analysisId e;
     pending := pending e;
     settings := settings e;
     _progress := _progress e;
     _currentAnalysisKnowsAboutChange := _currentAnalysisKnowsAboutChange e;
     _analysisResultsString := _analysisResultsString e;
     _analysisResults := _analysisResults e;
     channel_in := channel_in e;
     channel_out := channel_out e;
     log := v;
     tempFiles := tempFiles e;
     world := world e |}.

Definition set_tempFiles (v : TempFiles.t) (e : Engine) : Engine :=
  {| _slaveNo := _slaveNo e;
     _engineState := _engineState e;
     _analysisStatus := _analysisStatus e;
     _analysisId := _analysisId e;
     pending := pending e;
     settings := settings e;
     _progress := _progress e;
     _currentAnalysisKnowsAboutChange := _currentAnalysisKnowsAboutChange e;
     _analysisResultsString := _analysisResultsString e;
     _analysisResults := _analysisResults e;
     channel_in := channel_in e;
     channel_out := channel_out e;
     log := log e;
     tempFiles := v;
     world := world e |}.

Definition set_world (v : World X) (e : Engine) : Engine :=
  {| _slaveNo := _slaveNo e;
     _engineState := _engineState e;
     _analysisStatus := _analysisStatus e;
     _analysisId := _analysisId e;
     pending := pending e;
     settings := settings e;
     _progress := _progress e;
     _currentAnalysisKnowsAboutChange := _currentAnalysisKnowsAboutChange e;
     _analysisResultsString := _analysisResultsString e;
     _analysisResults := _analysisResults e;
     channel_in := channel_in e;
     channel_out := channel_out e;
     log := log e;
     tempFiles := tempFiles e;
     world := v |}.

(** ** The monad of member functions *)
Definition M (A : Type) : Type := Engine -> Outcome Engine A.

Definition ret {A} (a : A) : M A := fun e => Ret a e.

Definition bind {A B} (m : M A) (k : A -> M B) : M B :=
  fun e => match m e with
           | Ret a e' => k a e'
           | Throw x e' => Throw x e'
           end.

Definition throw {A} (x : exn) : M A := fun e => Throw x e.

Definition gets {A} (f : Engine -> A) : M A := fun e => Ret (f e) e.

Definition modify (f : Engine -> Engine) : M unit := fun e => Ret tt (f e).

Notation "x <- m ;; k" := (bind m (fun x => k))
  (at level 61, m at next level, right associativity).
Notation "m ;; k" := (bind m (fun _ => k))
  (at level 61, right associativity).

(** A call of an external function that returns a value and changes the
    world, and one that only changes it. *)
Definition call {A} (f : World X -> A * World X) : M A :=
  fun e => let r := f (world e) in Ret (fst r) (set_world (snd r) e).

Definition call_ (f : World X -> World X) : M unit :=
  modify (fun e => set_world (f (world e)) e).

(** [Log::log() << line]. *)
Definition Log_log (line : string) : M unit :=
  modify (fun e => set_log (log e ++ [line])%list e).

(** [_channel->send(message)] and [_channel->receive(data, timeout)]. *)
Definition channel_send (message : string) : M unit :=
  modify (fun e => set_channel_out (channel_out e ++ [message])%list e).

Definition channel_receive (timeout : Z) : M (option Data) :=
  fun e => match channel_in e with
           | [] => Ret None e
           | d :: rest => Ret d (set_channel_in rest e)
           end.

(** What [Engine::sendString] hands to [_channel->send] for [message]. *)
Definition onTheWire (message : string) : string :=
  let message := convertEscapedUnicodeToUTF8 X message in
  let parsed := Json_Reader_parse X message in
  if fst parsed then toStyledString X (snd parsed) else message.

(** [Engine::sendString]. *)
Definition sendString (message : string) : M unit :=
  channel_send (onTheWire message).

(** The message with which a response object leaves the engine:
    [sendString(response.toStyledString())]. *)
Definition sent (response : Json) : string :=
  onTheWire (toStyledString X response).

(** ** Filter *)

(** [Engine::sendFilterResult]. *)
Definition sendFilterResult (filterRequestId : Z) (filterResult : list bool)
    (warning : string) : M unit :=
  let filterResponse := JObject [] in
  let filterResponse :=
    JsonValue.set filterResponse "typeRequest"
      (JString (engineStateToString engineState.filter)) in
  let filterResponse :=
    JsonValue.set filterResponse "filterResult" (JArray (map JBool filterResult)) in
  let filterResponse :=
    JsonValue.set filterResponse "requestId" (JInt filterRequestId) in
  let filterResponse :=
    if negb (String.eqb warning "")
    then JsonValue.set filterResponse "filterError" (JString warning)
    else filterResponse in
  sendString (toStyledString X filterResponse).

(** The response object built by [Engine::sendFilterError]. *)
Definition filterErrorResponse (filterRequestId : Z) (errorMessage : string)
    : Json :=
  let filterResponse := JObject [] in
  let filterResponse :=
    JsonValue.set filterResponse "typeRequest"
      (JString (engineStateToString engineState.filter)) in
  let filterResponse :=
    JsonValue.set filterResponse "filterError" (JString errorMessage) in
  JsonValue.set filterResponse "requestId" (JInt filterRequestId).

(** [Engine::sendFilterError]. *)
Definition sendFilterError (filterRequestId : Z) (errorMessage : string)
    : M unit :=
  sendString (toStyledString X (filterErrorResponse filterRequestId errorMessage)).

(** [Engine::runFilter]: the [try] block is the [inr] branch, the
    [catch (filterException & e)] block the [inl] branch. *)
Definition runFilter (filter generatedFilter : string) (filterRequestId : Z)
    : M unit :=
  let strippedFilter := stripRComments X filter in
  r <- call (rbridge_applyFilter X strippedFilter generatedFilter) ;;
  match r with
  | inr filterResult =>
      RPossibleWarning <- gets (fun e => jaspRCPP_getLastErrorMsg X (world e)) ;;
      sendFilterResult filterRequestId filterResult RPossibleWarning
  | inl what =>
      sendFilterError filterRequestId
        (if (0 <? Z.of_nat (String.length what))
         then what
         else "Something went wrong with the filter but it is unclear what.")
  end ;;
  modify (set_engineState engineState.idle).

(** [Engine::receiveFilterMessage]. *)
Definition receiveFilterMessage (jsonRequest : Request) : M unit :=
  st <- gets _engineState ;;
  (if negb (engineState.eqb st engineState.idle)
   then Log_log ("Unexpected filter message, current state is not idle ("
                 ++ engineStateToString st ++ ")")
   else ret tt) ;;
  modify (set_engineState engineState.filter) ;;
  let filter := get (rq_filter jsonRequest) "" in
  let generatedFilter := get (rq_generatedFilter jsonRequest) "" in
  let filterRequestId := get (rq_requestId jsonRequest) (-1) in
  runFilter filter generatedFilter filterRequestId.

(** ** R code *)

(** The response object built by [Engine::sendRCodeResult]. *)
Definition rCodeResultResponse (RError rCodeResult : string)
    (rCodeRequestId : Z) : Json :=
  let rCodeResponse := JObject [] in
  let rCodeResponse :=
    if (0 <? Z.of_nat (String.length RError))
    then JsonValue.set rCodeResponse "rCodeError" (JString RError)
    else rCodeResponse in
  let rCodeResponse :=
    JsonValue.set rCodeResponse "typeRequest"
      (JString (engineStateToString engineState.rCode)) in
  let rCodeResponse :=
    JsonValue.set rCodeResponse "rCodeResult" (JString rCodeResult) in
  JsonValue.set rCodeResponse "requestId" (JInt rCodeRequestId).

(** [Engine::sendRCodeResult]. *)
Definition sendRCodeResult (rCodeResult : string) (rCodeRequestId : Z)
    : M unit :=
  RError <- gets (fun e => jaspRCPP_getLastErrorMsg X (world e)) ;;
  sendString (toStyledString X (rCodeResultResponse RError rCodeResult rCodeRequestId)).

(** The response object built by [Engine::sendRCodeError]. *)
Definition rCodeErrorResponse (RError : string) (rCodeRequestId : Z) : Json :=
  let rCodeResponse := JObject [] in
  let rCodeResponse :=
    JsonValue.set rCodeResponse "typeRequest"
      (JString (engineStateToString engineState.rCode)) in
  let rCodeResponse :=
    JsonValue.set rCodeResponse "rCodeError"
      (JString (if (Z.of_nat (String.length RError) =? 0)
                then "R Code failed for unknown reason. Check that R function returns a string."
                else RError)) in
  JsonValue.set rCodeResponse "requestId" (JInt rCodeRequestId).

(** [Engine::sendRCodeError]. *)
Definition sendRCodeError (rCodeRequestId : Z) : M unit :=
  Log_log "R Code yielded error" ;;
  RError <- gets (fun e => jaspRCPP_getLastErrorMsg X (world e)) ;;
  sendString (toStyledString X (rCodeErrorResponse RError rCodeRequestId)).

(** [Engine::runRCode]. *)
Definition runRCode (rCode : string) (rCodeRequestId : Z) (whiteListed : bool)
    : M unit :=
  rCodeResult <-
    (if whiteListed then call (rbridge_evalRCodeWhiteListed X rCode)
     else call (jaspRCPP_evalRCode X rCode)) ;;
  (if String.eqb rCodeResult "null" then sendRCodeError rCodeRequestId
   else sendRCodeResult rCodeResult rCodeRequestId) ;;
  modify (set_engineState engineState.idle).

(** [Engine::runRCodeCommander]. *)
Definition runRCodeCommander (rCode : string) : M unit :=
  thereIsSomeData <- gets (fun e => provideDataSet X (world e)) ;;
  let rCmdDataName := "data" in
  let rCmdFiltered := "filteredData" in
  rCode <-
    (if thereIsSomeData : bool
     then
       rCode <- gets (fun e => ColumnEncoder_encodeAll X rCode (world e)) ;;
       call_ (jaspRCPP_runScript X (rCmdDataName ++ "<- .readFullDatasetToEnd();")) ;;
       call_ (jaspRCPP_runScript X (rCmdFiltered ++ "<- .readFullFilteredDatasetToEnd();")) ;;
       ret rCode
     else ret rCode) ;;
  rCodeResult <- call (jaspRCPP_evalRCodeCommander X rCode) ;;
  rCodeResult <-
    (if thereIsSomeData : bool
     then
       call_ (rbridge_detachRCodeEnv X rCmdFiltered) ;;
       call_ (rbridge_detachRCodeEnv X rCmdDataName) ;;
       gets (fun e => ColumnEncoder_decodeAll X rCodeResult (world e))
     else ret rCodeResult) ;;
  sendRCodeResult rCodeResult (-1) ;;
  modify (set_engineState engineState.idle).

(** [Engine::receiveRCodeMessage]. *)
Definition receiveRCodeMessage (jsonRequest : Request) : M unit :=
  st <- gets _engineState ;;
  (if negb (engineState.eqb st engineState.idle)
   then Log_log ("Unexpected rCode message, current state is not idle ("
                 ++ engineStateToString st ++ ")")
   else ret tt) ;;
  modify (set_engineState engineState.rCode) ;;
  let rCode := get (rq_rCode jsonRequest) "" in
  let rCodeRequestId := get (rq_requestId jsonRequest) (-1) in
  let whiteListed := get (rq_whiteListed jsonRequest) true in
  let returnLog := get (rq_returnLog jsonRequest) false in
  if returnLog then runRCodeCommander rCode
  else runRCode rCode rCodeRequestId whiteListed.

(** ** Computed columns *)

(** The table [setColumnFunction] of [runComputeColumn]; [None] where
    [std::map::at] throws. *)
Definition setColumnFunction (t : columnType.t) : option string :=
  match t with
  | columnType.scale => Some ".setColumnDataAsScale"
  | columnType.ordinal => Some ".setColumnDataAsOrdinal"
  | columnType.nominal => Some ".setColumnDataAsNominal"
  | columnType.nominalText => Some ".setColumnDataAsNominalText"
  | columnType.unknown => None
  end.

Definition newline : string := String (Ascii.ascii_of_nat 10) EmptyString.

(** [Engine::runComputeColumn]. *)
Definition runComputeColumn (computeColumnName computeColumnCode : string)
    (computeColumnType : columnType.t) : M unit :=
  Log_log "Engine::runComputeColumn()" ;;
  match setColumnFunction computeColumnType with
  | None => throw (out_of_range "map::at")
  | Some setColumn =>
      let computeColumnCodeComplete :=
        "local({;calcedVals <- {" ++ computeColumnCode ++ "};" ++ newline
        ++ "return(toString(" ++ setColumn ++ "('" ++ computeColumnName
        ++ "', calcedVals)));})" in
      computeColumnResultStr <-
        call (rbridge_evalRCodeWhiteListed X computeColumnCodeComplete) ;;
      lastError <- gets (fun e => jaspRCPP_getLastErrorMsg X (world e)) ;;
      let computeColumnResponse := JObject [] in
      let computeColumnResponse :=
        JsonValue.set computeColumnResponse "typeRequest"
          (JString (engineStateToString engineState.computeColumn)) in
      let computeColumnResponse :=
        JsonValue.set computeColumnResponse "result" (JString computeColumnResultStr) in
      let computeColumnResponse :=
        JsonValue.set computeColumnResponse "error" (JString lastError) in
      let computeColumnResponse :=
        JsonValue.set computeColumnResponse "columnName" (JString computeColumnName) in
      sendString (toStyledString X computeColumnResponse) ;;
      modify (set_engineState engineState.idle)
  end.

(** [Engine::receiveComputeColumnMessage]. *)
Definition receiveComputeColumnMessage (jsonRequest : Request) : M unit :=
  st <- gets _engineState ;;
  (if negb (engineState.eqb st engineState.idle)
   then Log_log ("Unexpected compute column message, current state is not idle ("
                 ++ engineStateToString st ++ ")")
   else ret tt) ;;
  modify (set_engineState engineState.computeColumn) ;;
  let computeColumnName := get (rq_columnName jsonRequest) "" in
  let computeColumnCode := get (rq_computeCode jsonRequest) "" in
  let computeColumnType :=
    columnTypeFromString (get (rq_columnType jsonRequest) "") in
  runComputeColumn computeColumnName computeColumnCode computeColumnType.

(** ** Module requests *)

(** [Engine::receiveModuleRequestMessage]. *)
Definition receiveModuleRequestMessage (jsonRequest : Request) : M unit :=
  modify (set_engineState engineState.moduleRequest) ;;
  let moduleRequest := get (rq_moduleRequest jsonRequest) "" in
  let moduleCode := get (rq_moduleCode jsonRequest) "" in
  let moduleName := get (rq_moduleName jsonRequest) "" in
  result <- call (jaspRCPP_evalRCode X moduleCode) ;;
  let succes := String.eqb result "succes!" in
  lastError <- gets (fun e => jaspRCPP_getLastErrorMsg X (world e)) ;;
  let jsonAnswer := JObject [] in
  let jsonAnswer := JsonValue.set jsonAnswer "moduleRequest" (JString moduleRequest) in
  let jsonAnswer := JsonValue.set jsonAnswer "moduleName" (JString moduleName) in
  let jsonAnswer := JsonValue.set jsonAnswer "succes" (JBool succes) in
  let jsonAnswer := JsonValue.set jsonAnswer "error" (JString lastError) in
  let jsonAnswer :=
    JsonValue.set jsonAnswer "typeRequest"
      (JString (engineStateToString engineState.moduleRequest)) in
  sendString (toStyledString X jsonAnswer) ;;
  modify (set_engineState engineState.idle).

(** ** Analysis requests *)

(** The status [receiveAnalysisMessage] gives an analysis that is running
    when a request for the same id arrives (line 437). *)
Definition statusForRunningAnalysis (jaspResults : bool)
    (perform : performType.t) : Status.t :=
  if performType.eqb perform performType.init
     || (jaspResults && performType.eqb perform performType.run)
  then Status.changed else Status.aborted.

(** The [switch (perform)] of [receiveAnalysisMessage]. *)
Definition statusForNewAnalysis (perform : performType.t) : Status.t :=
  match perform with
  | performType.init => Status.toInit
  | performType.run => Status.toRun
  | performType.saveImg => Status.saveImg
  | performType.editImg => Status.editImg
  | performType.rewriteImgs => Status.rewriteImgs
  | _ => Status.error
  end.

(** The condition under which [receiveAnalysisMessage] reads the fields
    of the request (lines 459-464). *)
Definition capturesRequest (s : Status.t) : bool :=
  Status.eqb s Status.toInit || Status.eqb s Status.toRun
  || Status.eqb s Status.changed || Status.eqb s Status.saveImg
  || Status.eqb s Status.editImg || Status.eqb s Status.rewriteImgs.

(** The assignments of lines 466-484, but for [_engineState]. *)
Definition captureSnapshot (jsonRequest : Request) : Snapshot :=
  let dynamicModuleCall := get (rq_dynamicModuleCall jsonRequest) "" in
  {| _analysisName := get (rq_name jsonRequest) "";
     _analysisTitle := get (rq_title jsonRequest) "";
     _analysisDataKey := toStyledString X (get (rq_dataKey jsonRequest) JNull);
     _analysisResultsMeta := toStyledString X (get (rq_resultsMeta jsonRequest) JNull);
     _analysisStateKey := toStyledString X (get (rq_stateKey jsonRequest) JNull);
     _analysisRevision := get (rq_revision jsonRequest) (-1);
     _imageOptions := get (rq_image jsonRequest) JNull;
     _analysisRFile := get (rq_rfile jsonRequest) "";
     _dynamicModuleCall := dynamicModuleCall;
     _analysisRequiresInit :=
       match rq_requiresInit jsonRequest with
       | None => true
       | Some _ => get (rq_requiresInit jsonRequest) true
       end;
     _analysisJaspResults :=
       negb (String.eqb dynamicModuleCall "")
       || get (rq_jaspResults jsonRequest) false;
     _analysisOptions := toStyledString X (get (rq_options jsonRequest) JNull) |}.

(** [Engine::receiveAnalysisMessage]. *)
Definition receiveAnalysisMessage (jsonRequest : Request) : M unit :=
  st <- gets _engineState ;;
  (if negb (engineState.eqb st engineState.idle)
      && negb (engineState.eqb st engineState.analysis)
   then throw (runtime_error
                 ("Unexpected analysis message, current state is not idle or analysis ("
                  ++ engineStateToString st ++ ")"))
   else ret tt) ;;
  let analysisId := get (rq_id jsonRequest) (-1) in
  let perform := performTypeFromString (get (rq_perform jsonRequest) "run") in
  modify (fun e =>
    if (analysisId =? _analysisId e)
       && Status.eqb (_analysisStatus e) Status.running
    then set_analysisStatus
           (statusForRunningAnalysis (_analysisJaspResults (pending e)) perform) e
    else set_analysisStatus (statusForNewAnalysis perform)
           (set_analysisId analysisId e)) ;;
  status <- gets _analysisStatus ;;
  if capturesRequest status
  then modify (fun e =>
         set_engineState engineState.analysis
           (set_pending (captureSnapshot jsonRequest) e))
  else ret tt.

(** The names the [switch] of [receiveAnalysisMessage] handles. *)
Definition handledPerforms : list string :=
  ["init"; "run"; "saveImg"; "editImg"; "rewriteImgs"].

(** Lines 436-453 of [receiveAnalysisMessage]: the status, and the id,
    after the request has been looked at. *)
Definition retargeted (jsonRequest : Request) (e : Engine) : Engine :=
  let analysisId := get (rq_id jsonRequest) (-1) in
  let perform := performTypeFromString (get (rq_perform jsonRequest) "run") in
  if (analysisId =? _analysisId e)
     && Status.eqb (_analysisStatus e) Status.running
  then set_analysisStatus
         (statusForRunningAnalysis (_analysisJaspResults (pending e)) perform) e
  else set_analysisStatus (statusForNewAnalysis perform)
         (set_analysisId analysisId e).

(** The states in which [receiveAnalysisMessage] accepts a request
    (line 426). *)
Definition acceptsAnalysis (e : Engine) : Prop :=
  _engineState e = engineState.idle \/ _engineState e = engineState.analysis.

(** ** Sending analysis results *)

(** [Engine::getStatusToAnalysisStatus]. *)
Definition getStatusToAnalysisStatus (e : Engine) : analysisResultStatus.t :=
  match _analysisStatus e with
  | Status.inited => analysisResultStatus.inited
  | Status.running | Status.changed => analysisResultStatus.running
  | Status.complete => analysisResultStatus.complete
  | _ => analysisResultStatus.fatalError
  end.

(** The response object built by [Engine::sendAnalysisResults]. *)
Definition analysisResponse (e : Engine) : Json :=
  let response := JObject [] in
  let response :=
    JsonValue.set response "typeRequest"
      (JString (engineStateToString engineState.analysis)) in
  let response := JsonValue.set response "id" (JInt (_analysisId e)) in
  let response :=
    JsonValue.set response "name" (JString (_analysisName (pending e))) in
  let response :=
    JsonValue.set response "revision" (JInt (_analysisRevision (pending e))) in
  let response := JsonValue.set response "progress" (JInt (_progress e)) in
  let sensibleResultsStatus :=
    JsonValue.isObject (_analysisResults e)
    && negb (JsonValue.isNull (JsonValue.get (_analysisResults e) "status" JNull)) in
  let resultStatus :=
    if negb sensibleResultsStatus then getStatusToAnalysisStatus e
    else analysisResultStatusFromString
           (JsonValue.asString (JsonValue.at_ (_analysisResults e) "status")) in
  let response :=
    JsonValue.set response "results"
      (JsonValue.get (_analysisResults e) "results" (_analysisResults e)) in
  JsonValue.set response "status"
    (JString (analysisResultStatusToString resultStatus)).

(** [Engine::sendAnalysisResults]. *)
Definition sendAnalysisResults : M unit :=
  response <- gets analysisResponse ;;
  sendString (toStyledString X response).

(** [Utils::remove(target, toRemove)]. *)
Definition Utils_remove (target toRemove : list string) : list string :=
  filter (fun f => negb (existsb (String.eqb f) toRemove)) target.

(** [Engine::removeNonKeepFiles]. *)
Definition removeNonKeepFiles (filesToKeepValue : Json) : M unit :=
  let filesToKeep :=
    match filesToKeepValue with
    | JArray items =>
        flat_map (fun fileToKeepValue =>
                    match fileToKeepValue with
                    | JString s => [s]
                    | _ => []
                    end) items
    | JString s => [s]
    | _ => []
    end in
  modify (fun e =>
    let tempFilesFromLastTime :=
      TempFiles.retrieveList (_analysisId e) (tempFiles e) in
    let tempFilesFromLastTime := Utils_remove tempFilesFromLastTime filesToKeep in
    set_tempFiles (TempFiles.deleteList tempFilesFromLastTime (tempFiles e)) e).

(** [Json::Reader().parse(document, _analysisResults, false)]. *)
Definition parseAnalysisResults (document : string) : M unit :=
  modify (set_analysisResults (snd (Json_Reader_parse X document))).

(** [Engine::saveImage]. *)
Definition saveImage : M unit :=
  imageOptions <- gets (fun e => _imageOptions (pending e)) ;;
  ppi <- gets (fun e => _ppi (settings e)) ;;
  imageBackground <- gets (fun e => _imageBackground (settings e)) ;;
  let height := JsonValue.asInt (JsonValue.get imageOptions "height" JNull) in
  let width := JsonValue.asInt (JsonValue.get imageOptions "width" JNull) in
  let data := JsonValue.asString (JsonValue.get imageOptions "data" JNull) in
  let type := JsonValue.asString (JsonValue.get imageOptions "type" JNull) in
  result <- call (jaspRCPP_saveImage X data type height width ppi imageBackground) ;;
  parseAnalysisResults result ;;
  modify (set_analysisStatus Status.complete) ;;
  modify (fun e =>
    let results := JsonValue.at_ (_analysisResults e) "results" in
    set_analysisResults
      (JsonValue.set (_analysisResults e) "results"
         (JsonValue.set results "inputOptions" imageOptions)) e) ;;
  modify (set_progress (-1)) ;;
  sendAnalysisResults ;;
  modify (set_analysisStatus Status.empty) ;;
  modify (set_engineState engineState.idle).

(** [Engine::editImage]. *)
Definition editImage : M unit :=
  imageOptions <- gets (fun e => _imageOptions (pending e)) ;;
  ppi <- gets (fun e => _ppi (settings e)) ;;
  imageBackground <- gets (fun e => _imageBackground (settings e)) ;;
  let optionsJson := toStyledString X imageOptions in
  result <- call (jaspRCPP_editImage X optionsJson ppi imageBackground) ;;
  parseAnalysisResults result ;;
  modify (set_analysisStatus Status.complete) ;;
  modify (set_progress (-1)) ;;
  sendAnalysisResults ;;
  modify (set_analysisStatus Status.empty) ;;
  modify (set_engineState engineState.idle).

(** [Engine::rewriteImages]. *)
Definition rewriteImages : M unit :=
  ppi <- gets (fun e => _ppi (settings e)) ;;
  imageBackground <- gets (fun e => _imageBackground (settings e)) ;;
  call_ (jaspRCPP_rewriteImages X ppi imageBackground) ;;
  modify (set_analysisStatus Status.complete) ;;
  modify (set_analysisResults
            (JsonValue.set JNull "status"
               (JString (analysisResultStatusToString
                           analysisResultStatus.imagesRewritten)))) ;;
  modify (set_progress (-1)) ;;
  sendAnalysisResults ;;
  modify (set_analysisStatus Status.empty) ;;
  modify (set_engineState engineState.idle).

(** ** Pause, stop, resume, log configuration, settings *)

Definition unexpectedDataSynch (st : engineState.t) : exn :=
  runtime_error ("Unexpected data synch during " ++ engineStateToString st
                 ++ " somehow, you should not expect to see this exception ever.").

(** The object that [sendEngineStopped], [sendEnginePaused] and
    [sendEngineResumed] send. *)
Definition stateResponse (st : engineState.t) : Json :=
  JsonValue.set (JObject []) "typeRequest" (JString (engineStateToString st)).

(** [Engine::sendEngineStopped]. *)
Definition sendEngineStopped : M unit :=
  st <- gets _engineState ;;
  sendString (toStyledString X (stateResponse st)).

(** [Engine::sendEnginePaused]. *)
Definition sendEnginePaused : M unit :=
  sendString (toStyledString X (stateResponse engineState.paused)).

(** [Engine::sendEngineResumed]. *)
Definition sendEngineResumed : M unit :=
  sendString (toStyledString X (stateResponse engineState.resuming)).

(** [Engine::stopEngine]. *)
Definition stopEngine : M unit :=
  Log_log "Engine::stopEngine() received, closing engine." ;;
  st <- gets _engineState ;;
  match st with
  | engineState.analysis => modify (set_analysisStatus Status.aborted)
  | engineState.filter | engineState.computeColumn =>
      throw (unexpectedDataSynch st)
  | _ => ret tt
  end ;;
  modify (set_engineState engineState.stopped) ;;
  call_ (freeRBridgeColumns X) ;;
  call_ (SharedMemory_unloadDataSet X) ;;
  sendEngineStopped.

(** [Engine::pauseEngine]. *)
Definition pauseEngine : M unit :=
  Log_log "Engine paused" ;;
  st <- gets _engineState ;;
  match st with
  | engineState.analysis => modify (set_analysisStatus Status.aborted)
  | engineState.filter | engineState.computeColumn =>
      throw (unexpectedDataSynch st)
  | _ => ret tt
  end ;;
  modify (set_engineState engineState.paused) ;;
  call_ (freeRBridgeColumns X) ;;
  call_ (SharedMemory_unloadDataSet X) ;;
  sendEnginePaused.

(** [Engine::absorbSettings]. *)
Definition absorbSettings (jsonRequest : Request) : M unit :=
  modify (fun e =>
    let s := settings e in
    set_settings
      {| _ppi := get (rq_ppi jsonRequest) (_ppi s);
         _developerMode := get (rq_developerMode jsonRequest) (_developerMode s);
         _imageBackground := get (rq_imageBackground jsonRequest) (_imageBackground s);
         _langR := get (rq_languageCode jsonRequest) (_langR s) |} e) ;;
  langR <- gets (fun e => _langR (settings e)) ;;
  call_ (rbridge_setLANG X langR).

(** [Engine::resumeEngine]. *)
Definition resumeEngine (jsonRequest : Request) : M unit :=
  Log_log "Engine resuming, absorbing settings and rescanning columnNames for en/decoding" ;;
  call_ (fun w =>
    ColumnEncoder_setCurrentColumnNames X
      (if negb (provideDataSet X w) then [] else DataSet_getColumnNames X w) w) ;;
  absorbSettings jsonRequest ;;
  modify (set_engineState engineState.idle) ;;
  sendEngineResumed.

(** [Engine::receiveLogCfg]. *)
Definition receiveLogCfg (jsonRequest : Request) : M unit :=
  Log_log "Log Config received" ;;
  call_ (Log_parseLogCfgMsg X jsonRequest) ;;
  sendString (toStyledString X (stateResponse engineState.logCfg)) ;;
  modify (set_engineState engineState.idle).

(** [Engine::receiveSettings]. *)
Definition receiveSettings (jsonRequest : Request) : M unit :=
  Log_log "Settings received" ;;
  absorbSettings jsonRequest ;;
  sendString (toStyledString X (stateResponse engineState.settings)) ;;
  modify (set_engineState engineState.idle).

(** ** Message dispatch *)

(** [Engine::receiveMessages]. *)
Definition receiveMessages (timeout : Z) : M bool :=
  received <- channel_receive timeout ;;
  match received with
  | None => ret false
  | Some EmptyData => ret false
  | Some (Document jsonRequest) =>
      sendString "" ;;
      let typeSend := get (rq_typeRequest jsonRequest) "" in
      if String.eqb typeSend "" then ret false
      else
        match engineStateFromString typeSend with
        | None => throw (missingEnumVal "engineState" typeSend)
        | Some typeRequest =>
            match typeRequest with
            | engineState.analysis =>
                receiveAnalysisMessage jsonRequest ;; ret true
            | engineState.filter =>
                receiveFilterMessage jsonRequest ;; ret false
            | engineState.rCode =>
                receiveRCodeMessage jsonRequest ;; ret false
            | engineState.computeColumn =>
                receiveComputeColumnMessage jsonRequest ;; ret false
            | engineState.pauseRequested => pauseEngine ;; ret false
            | engineState.resuming => resumeEngine jsonRequest ;; ret false
            | engineState.moduleRequest =>
                receiveModuleRequestMessage jsonRequest ;; ret false
            | engineState.stopRequested => stopEngine ;; ret false
            | engineState.logCfg => receiveLogCfg jsonRequest ;; ret false
            | engineState.settings => receiveSettings jsonRequest ;; ret false
            | _ =>
                throw (runtime_error
                         ("Engine::receiveMessages begs you to add your new engineState "
                          ++ engineStateToString typeRequest ++ " to it!"))
            end
        end
  end.

(** ** The reentrant callback *)

Definition dquote : string := String (Ascii.ascii_of_nat 34) EmptyString.

(** The three directives a callback returns to the runtime. *)
Definition directive_aborted : string :=
  "{ " ++ dquote ++ "status" ++ dquote ++ " : " ++ dquote ++ "aborted" ++ dquote ++ " }".

Definition directive_changed (options : string) : string :=
  "{ " ++ dquote ++ "status" ++ dquote ++ " : " ++ dquote ++ "changed" ++ dquote
  ++ ", " ++ dquote ++ "options" ++ dquote ++ " : " ++ options ++ " }".

Definition directive_ok : string :=
  "{ " ++ dquote ++ "status" ++ dquote ++ " : " ++ dquote ++ "ok" ++ dquote ++ " }".

(** Lines 762-798 of [Engine::callback]: what is done once the channel
    has been polled. *)
Definition directiveAfterPoll (results : string) (progress : Z) : M string :=
  status <- gets _analysisStatus ;;
  if Status.eqb status Status.aborted || Status.eqb status Status.toInit
     || Status.eqb status Status.toRun
  then ret directive_aborted
  else
    modify (fun e =>
      if Status.eqb (_analysisStatus e) Status.changed
         && _currentAnalysisKnowsAboutChange e
      then set_currentAnalysisKnowsAboutChange false
             (set_analysisStatus Status.running e)
      else e) ;;
    status <- gets _analysisStatus ;;
    (if negb (String.eqb results "null")
     then
       modify (set_analysisResultsString results) ;;
       parseAnalysisResults results ;;
       modify (set_progress progress) ;;
       sendAnalysisResults
     else if (progress >=? 0) && Status.eqb status Status.running
     then
       modify (set_analysisResultsString "") ;;
       modify (set_analysisResults JNull) ;;
       modify (set_progress progress) ;;
       sendAnalysisResults
     else ret tt) ;;
    status <- gets _analysisStatus ;;
    if Status.eqb status Status.changed
    then
      modify (set_currentAnalysisKnowsAboutChange true) ;;
      options <- gets (fun e => _analysisOptions (pending e)) ;;
      ret (directive_changed options)
    else if Status.eqb status Status.aborted then ret directive_aborted
    else ret directive_ok.

(** [Engine::callback]. *)
Definition callback (results : string) (progress : Z) : M string :=
  receiveMessages 0 ;;
  directiveAfterPoll results progress.

(** Modelled from the spec: [Engine::paused()] is declared in engine.h,
    which is not part of the sources; the engine is paused when its state
    is [paused]. *)
Definition paused (e : Engine) : bool :=
  engineState.eqb (_engineState e) engineState.paused.

(** [SendFunctionForJaspresults]. *)
Definition SendFunctionForJaspresults (msg : string) : M unit :=
  sendString msg.

(** [PollMessagesFunctionForJaspResults]. *)
Definition PollMessagesFunctionForJaspResults : M bool :=
  received <- receiveMessages 0 ;;
  if received : bool
  then
    isPaused <- gets paused ;;
    if isPaused : bool then ret true
    else
      status <- gets _analysisStatus ;;
      match status with
      | Status.changed | Status.aborted | Status.stopped =>
          slaveNo <- gets _slaveNo ;;
          Log_log ("Analysis status changed for engine #" ++ string_of_Z slaveNo
                   ++ " to: " ++ engineAnalysisStatusToString status) ;;
          ret true
      | _ => ret false
      end
  else ret false.

(** [provideStateFileName], [provideJaspResultsFileName],
    [provideSpecificFileName] and [provideTempFileName]. *)
Definition provideFileName (f : FileRequest) : M string :=
  fun e =>
    let r :=
      match f with
      | StateFile =>
          TempFiles_createSpecific X "state" (_analysisId e) (tempFiles e)
      | JaspResultsFile =>
          TempFiles_createSpecific X "jaspResults.json" (_analysisId e)
            (tempFiles e)
      | SpecificFile specificName =>
          TempFiles_createSpecific X specificName (_analysisId e) (tempFiles e)
      | TempFile extension =>
          TempFiles_create X extension (_analysisId e) (tempFiles e)
      end in
    Ret (fst r) (set_tempFiles (snd r) e).

(** One blocking call into the runtime: every call back of the script is
    answered by the engine function it is bound to. *)
Fixpoint runScript (s : Script (World X)) : M string :=
  match s with
  | RReturn result after => call_ after ;; ret result
  | RCallback results progress k =>
      fun e => match callback results progress e with
               | Ret directive e' => runScript (k directive) e'
               | Throw x e' => Throw x e'
               end
  | RSend msg k =>
      fun e => match SendFunctionForJaspresults msg e with
               | Ret _ e' => runScript k e'
               | Throw x e' => Throw x e'
               end
  | RPoll k =>
      fun e => match PollMessagesFunctionForJaspResults e with
               | Ret stop e' => runScript (k stop) e'
               | Throw x e' => Throw x e'
               end
  | RProvideFile f k =>
      fun e => match provideFileName f e with
               | Ret path e' => runScript (k path) e'
               | Throw x e' => Throw x e'
               end
  end.

(** ** Running an analysis *)

(** Lines 583-615 of [Engine::runAnalysis]: what is done once the runtime
    has returned. *)
Definition afterRuntimeReturned : M unit :=
  status <- gets _analysisStatus ;;
  knowsAboutChange <- gets _currentAnalysisKnowsAboutChange ;;
  analysisResultsString <- gets _analysisResultsString ;;
  jaspResults <- gets (fun e => _analysisJaspResults (pending e)) ;;
  if Status.eqb status Status.toInit || Status.eqb status Status.aborted
     || Status.eqb status Status.error || Status.eqb status Status.exception
  then ret tt
  else if Status.eqb status Status.changed
          && (Bool.eqb knowsAboutChange false
              || String.eqb analysisResultsString "null")
  then
    modify (set_analysisStatus Status.toInit) ;;
    (if String.eqb analysisResultsString "null"
     then modify (fun e =>
            set_tempFiles
              (TempFiles.deleteList
                 (TempFiles.retrieveList (_analysisId e) (tempFiles e))
                 (tempFiles e)) e)
     else ret tt)
  else
    parseAnalysisResults analysisResultsString ;;
    (if negb jaspResults
     then
       modify (set_analysisStatus
                 (if Status.eqb status Status.initing then Status.inited
                  else Status.complete)) ;;
       modify (set_progress (-1)) ;;
       sendAnalysisResults
     else ret tt) ;;
    modify (set_engineState engineState.idle) ;;
    modify (set_analysisStatus Status.empty) ;;
    analysisResults <- gets _analysisResults ;;
    removeNonKeepFiles
      (if JsonValue.isObject analysisResults
       then JsonValue.get analysisResults "keep" JNull
       else JNull).

(** The call of line 576-578: which entry point of the runtime is taken,
    with which arguments. *)
Definition runtimeCall (perform : string) (e : Engine) : Script (World X) :=
  let p := pending e in
  let s := settings e in
  if negb (String.eqb (_dynamicModuleCall p) "")
  then rbridge_runModuleCall X (_analysisName p) (_analysisTitle p)
         (_dynamicModuleCall p) (_analysisDataKey p) (_analysisOptions p)
         (_analysisStateKey p) perform (_ppi s) (_analysisId e)
         (_analysisRevision p) (_imageBackground s) (_developerMode s) (world e)
  else rbridge_run X (_analysisName p) (_analysisTitle p) (_analysisRFile p)
         (_analysisRequiresInit p) (_analysisDataKey p) (_analysisOptions p)
         (_analysisResultsMeta p) (_analysisStateKey p) (_analysisId e)
         (_analysisRevision p) perform (_ppi s) (_imageBackground s)
         (_analysisJaspResults p) (_developerMode s) (world e).

(** Lines 565-578 of [Engine::runAnalysis]: the analysis is handed to the
    runtime, which returns; [_analysisResultsString] then holds what it
    returned. *)
Definition runtimeReturns : M unit :=
  modify (fun e =>
    if Status.eqb (_analysisStatus e) Status.toInit
       && negb (_analysisJaspResults (pending e))
    then set_analysisStatus Status.initing e
    else set_analysisStatus Status.running e) ;;
  status <- gets _analysisStatus ;;
  let perform := if Status.eqb status Status.initing then "init" else "run" in
  modify (set_currentAnalysisKnowsAboutChange false) ;;
  Log_log "Analysis will be run now." ;;
  script <- gets (runtimeCall perform) ;;
  result <- runScript script ;;
  modify (set_analysisResultsString result).

(** Lines 580-615 of [Engine::runAnalysis]: what is done with the state
    in which the runtime has returned. *)
Definition onRuntimeReturn : M unit :=
  jaspResults <- gets (fun e => _analysisJaspResults (pending e)) ;;
  status <- gets _analysisStatus ;;
  (if negb jaspResults
      && (Status.eqb status Status.initing || Status.eqb status Status.running)
   then receiveMessages 0 ;; ret tt
   else ret tt) ;;
  afterRuntimeReturned.

(** [Engine::runAnalysis]. *)
Definition runAnalysis : M unit :=
  title <- gets (fun e => _analysisTitle (pending e)) ;;
  id <- gets _analysisId ;;
  revision <- gets (fun e => _analysisRevision (pending e)) ;;
  Log_log ("Engine::runAnalysis() " ++ title ++ " (" ++ string_of_Z id
           ++ ") revision: " ++ string_of_Z revision) ;;
  status <- gets _analysisStatus ;;
  if Status.eqb status Status.saveImg then saveImage
  else if Status.eqb status Status.editImg then editImage
  else if Status.eqb status Status.rewriteImgs then rewriteImages
  else if Status.eqb status Status.empty || Status.eqb status Status.aborted
  then
    modify (set_analysisStatus Status.empty) ;;
    modify (set_engineState engineState.idle) ;;
    Log_log "Engine::state <= idle because it does not need to be run now (empty || aborted)"
  else
    runtimeReturns ;;
    onRuntimeReturn.

(** ** Vocabulary of the statements *)

(** The state in which [receiveMessages] calls a handler: the document
    has been taken from the channel and the send buffer cleared. *)
Definition dispatched (rest : list (option Data)) (e : Engine) : Engine :=
  set_channel_out (channel_out e ++ [onTheWire ""])%list (set_channel_in rest e).

(** The line that [receiveFilterMessage], [receiveRCodeMessage] and
    [receiveComputeColumnMessage] log for a message that arrives in a
    state that is not idle, and the idle state in which that line has
    been logged. *)
Definition unexpectedMessage (kind : string) (e : Engine) : string :=
  "Unexpected " ++ kind ++ " message, current state is not idle ("
  ++ engineStateToString (_engineState e) ++ ")".

Definition idleHavingLogged (line : string) (e : Engine) : Engine :=
  set_log (log e ++ [line])%list (set_engineState engineState.idle e).

(** The state in which [receiveRCodeMessage] calls [runRCode] or
    [runRCodeCommander]. *)
Definition enteredRCode (e : Engine) : Engine :=
  set_engineState engineState.rCode
    (if negb (engineState.eqb (_engineState e) engineState.idle)
     then set_log (log e ++ [unexpectedMessage "rCode" e])%list e
     else e).

(** What [runAnalysis] writes to the log on entry. *)
Definition runAnalysisLogLine (e : Engine) : string :=
  "Engine::runAnalysis() " ++ _analysisTitle (pending e) ++ " ("
  ++ string_of_Z (_analysisId e) ++ ") revision: "
  ++ string_of_Z (_analysisRevision (pending e)).

(** [runAnalysis] hands the analysis to the runtime: the status is none
    of those lines 553-563 deal with. *)
Definition handsToRuntime (e : Engine) : bool :=
  negb (Status.eqb (_analysisStatus e) Status.saveImg
        || Status.eqb (_analysisStatus e) Status.editImg
        || Status.eqb (_analysisStatus e) Status.rewriteImgs
        || Status.eqb (_analysisStatus e) Status.empty
        || Status.eqb (_analysisStatus e) Status.aborted).

(** The outcome of [runAnalysis] up to the return of the runtime. *)
Definition atRuntimeReturn (e : Engine) : Outcome Engine unit :=
  runtimeReturns (set_log (log e ++ [runAnalysisLogLine e])%list e).

(** ** What a member function leaves alone

    The snapshot and the unread part of the channel are written by few
    functions.  [frames m] says that [m] leaves both as they are, whether
    it returns or throws. *)
Definition frame (e : Engine) : Snapshot * list (option Data) :=
  (pending e, channel_in e).

Definition frames {A} (m : M A) : Prop :=
  forall e, frame (state_of (m e)) = frame e.

(** The snapshot [p] is [p0], or it was captured from an analysis
    request of the inbox [inbox0]. *)
Definition snapshotFrom (p0 : Snapshot) (inbox0 : list (option Data))
    (p : Snapshot) : Prop :=
  p = p0
  \/ exists jsonRequest,
       In (Some (Document jsonRequest)) inbox0
       /\ rq_typeRequest jsonRequest = Some "analysis"
       /\ p = captureSnapshot jsonRequest.

(** The engine has read a part of [inbox0] and its snapshot comes from
    [p0] and what it has read. *)
Definition readFrom (p0 : Snapshot) (inbox0 : list (option Data))
    (e : Engine) : Prop :=
  snapshotFrom p0 inbox0 (pending e)
  /\ exists done, inbox0 = (done ++ channel_in e)%list.

Definition stable (p0 : Snapshot) (inbox0 : list (option Data)) {A}
    (m : M A) : Prop :=
  forall e, readFrom p0 inbox0 e -> readFrom p0 inbox0 (state_of (m e)).

End Engine.

(** * A small runtime to run the engine on

    An implementation of [Externals] on which the engine can be evaluated:
    the world is the list of the R calls made so far, most recent first;
    the writer prints a compact document and the reader accepts nothing,
    so that a message goes over the channel as it was written. *)
Module Toy.

Definition Calls : Type := list string.

Fixpoint write (j : Json) : string :=
  match j with
  | JNull => "null"
  | JBool true => "true"
  | JBool false => "false"
  | JInt z => string_of_Z z
  | JString s => "'" ++ s ++ "'"
  | JArray items =>
      "[" ++ (fix all (l : list Json) : string :=
                match l with
                | [] => ""
                | x :: rest => write x ++ "," ++ all rest
                end) items ++ "]"
  | JObject members =>
      "{" ++ (fix all (l : list (string * Json)) : string :=
                match l with
                | [] => ""
                | (k, v) :: rest => k ++ ":" ++ write v ++ "," ++ all rest
                end) members ++ "}"
  end.

(** The filter [stop()] throws a filterException; any other filter
    keeps every row of a dataset of two rows. *)
Definition applyFilter (filter generatedFilter : string) (w : Calls)
    : (string + list bool) * Calls :=
  if String.eqb filter "stop()" then (inl "stop() called", ("filter" :: w)%list)
  else (inr [true; true], ("filter" :: w)%list).

Definition eval (code : string) (w : Calls) : string * Calls :=
  (code, (code :: w)%list).

(** A new temp file gets the given name below the directory of its
    analysis. *)
Definition createFile (name : string) (id : Z) (tf : TempFiles.t)
    : string * TempFiles.t :=
  let path := "resources/" ++ string_of_Z id ++ "/" ++ name in
  (path, (tf ++ [(id, path)])%list).

Definition externals (script : Script Calls) : Externals :=
  {| World := Calls;
     toStyledString := write;
     Json_Reader_parse := fun _ => (false, JNull);
     convertEscapedUnicodeToUTF8 := fun s => s;
     stripRComments := fun s => s;
     rbridge_applyFilter := applyFilter;
     jaspRCPP_getLastErrorMsg := fun _ => "";
     rbridge_evalRCodeWhiteListed := eval;
     jaspRCPP_evalRCode := eval;
     jaspRCPP_evalRCodeCommander := eval;
     jaspRCPP_runScript := fun code w => (code :: w)%list;
     rbridge_detachRCodeEnv := fun name w => (name :: w)%list;
     rbridge_setLANG := fun _ w => w;
     freeRBridgeColumns := fun w => w;
     jaspRCPP_saveImage := fun data _ _ _ _ _ w => (data, w);
     jaspRCPP_editImage := fun options _ _ w => (options, w);
     jaspRCPP_rewriteImages := fun _ _ w => w;
     TempFiles_create := createFile;
     TempFiles_createSpecific := createFile;
     rbridge_runModuleCall := fun _ _ _ _ _ _ _ _ _ _ _ _ _ => script;
     rbridge_run := fun _ _ _ _ _ _ _ _ _ _ _ _ _ _ _ _ => script;
     provideDataSet := fun _ => false;
     DataSet_getColumnNames := fun _ => [];
     SharedMemory_unloadDataSet := fun w => w;
     ColumnEncoder_setCurrentColumnNames := fun _ w => w;
     ColumnEncoder_encodeAll := fun s _ => s;
     ColumnEncoder_decodeAll := fun s _ => s;
     Log_parseLogCfgMsg := fun _ w => w |}.

(** A runtime whose analyses return an empty result without calling
    back. *)
Definition quiet : Externals := externals (RReturn "{}" (fun w => w)).

Definition noSnapshot : Snapshot :=
  {| _analysisName := ""; _analysisTitle := ""; _analysisDataKey := "";
     _analysisResultsMeta := ""; _analysisStateKey := "";
     _analysisRevision := 0; _imageOptions := JNull; _analysisRFile := "";
     _dynamicModuleCall := ""; _analysisRequiresInit := true;
     _analysisJaspResults := false; _analysisOptions := "" |}.

(** The engine after [initialize]: idle, no analysis, nothing received
    or sent. *)
Definition idleEngine (script : Script Calls) : Engine (externals script) :=
  @mkEngine (externals script)
    0                       (* _slaveNo *)
    engineState.idle        (* _engineState *)
    Status.empty            (* _analysisStatus *)
    (-1)                    (* _analysisId *)
    noSnapshot              (* pending *)
    {| _ppi := 96; _developerMode := false;
       _imageBackground := "white"; _langR := "en" |}
    (-1)                    (* _progress *)
    false                   (* _currentAnalysisKnowsAboutChange *)
    ""                      (* _analysisResultsString *)
    JNull                   (* _analysisResults *)
    []                      (* channel_in *)
    []                      (* channel_out *)
    []                      (* log *)
    []                      (* tempFiles *)
    ([] : Calls)            (* world *).

(** An analysis request with the given id, perform, name and
    [jaspResults] field. *)
Definition analysisRequest (id : Z) (perform name : string)
    (jaspResults : option bool) : Request :=
  mkRequest (Some "analysis") (Some id) (Some perform) (Some name) None
    None None None None None None None None jaspResults None None None None
    None None None None None None None None None None None None None.

(** A request that has only its [typeRequest]. *)
Definition bareRequest (typeRequest : string) : Request :=
  mkRequest (Some typeRequest) None None None None None None None None None
    None None None None None None None None None None None None None None
    None None None None None None None.

Definition filterRequest (filter : string) (requestId : Z) : Request :=
  mkRequest (Some "filter") None None None None None None None None None
    None None None None None (Some filter) None (Some requestId) None None
    None None None None None None None None None None None.

Definition rCodeRequest (rCode : string) (requestId : option Z)
    (whiteListed returnLog : option bool) : Request :=
  mkRequest (Some "rCode") None None None None None None None None None
    None None None None None None None requestId (Some rCode) whiteListed
    returnLog None None None None None None None None None None.

Definition moduleRequest (moduleCode : string) : Request :=
  mkRequest (Some "moduleRequest") None None None None None None None None
    None None None None None None None None None None None None None None
    None (Some "install") (Some moduleCode) (Some "module") None None None
    None.

(** ** States and runs used as examples *)

Definition quietScript : Script Calls := RReturn "{}" (fun w => w).

Definition idle : Engine quiet := idleEngine quietScript.

(** The engine with analysis [id] handed to the runtime, its snapshot
    captured from [jsonRequest]. *)
Definition runningEngine (script : Script Calls) (id : Z)
    (jsonRequest : Request) : Engine (externals script) :=
  set_engineState engineState.analysis
    (set_analysisStatus Status.running
       (set_analysisId id
          (set_pending (captureSnapshot (externals script) jsonRequest)
             (idleEngine script)))).

(** Analysis 1 as first requested, with jaspResults, and a later request
    for it that has another name and no jaspResults field. *)
Definition requestA : Request := analysisRequest 1 "run" "A" (Some true).
Definition requestB : Request := analysisRequest 1 "run" "B" None.

(** Another later request for it, with another name and jaspResults. *)
Definition requestC : Request := analysisRequest 1 "run" "C" (Some true).

(** Analysis 1 is running; the status is changed and the runtime has
    been told by an earlier callback. *)
Definition toldOfChange : Engine quiet :=
  set_currentAnalysisKnowsAboutChange true
    (set_analysisStatus Status.changed (runningEngine quietScript 1 requestA)).

(** The same, but the runtime has not been told. *)
Definition notToldOfChange : Engine quiet :=
  set_analysisStatus Status.changed (runningEngine quietScript 1 requestA).

(** A runtime that polls once through the jaspResults poll function and
    then returns [result]. *)
Definition pollThenReturn (result : string) : Script Calls :=
  RPoll (fun _ => RReturn result (fun w => w)).

(** Analysis 1 has been captured from [requestA] and is to be run by a
    runtime that polls once; [requestC] is on the channel and one temp
    file is attributed to the analysis. *)
Definition aboutToRun (result : string)
    : Engine (externals (pollThenReturn result)) :=
  set_tempFiles [(1, "resources/1/plot.png")]
    (set_channel_in [Some (Document requestC)]
       (set_analysisStatus Status.toRun
          (runningEngine (pollThenReturn result) 1 requestA))).

(** A runtime that calls back once, without a payload, and returns. *)
Definition callbackThenReturn : Script Calls :=
  RCallback "null" (-1) (fun _ => RReturn "{}" (fun w => w)).

(** The idle engine with [requestA] and then [requestB] on the channel,
    on a runtime that calls back once. *)
Definition twoRequests : Engine (externals callbackThenReturn) :=
  set_channel_in [Some (Document requestA); Some (Document requestB)]
    (idleEngine callbackThenReturn).

(** The engine with a document on the channel. *)
Definition received (jsonRequest : Request) (e : Engine quiet)
    : Engine quiet :=
  set_channel_in [Some (Document jsonRequest)] e.

(** A request for another analysis, without jaspResults. *)
Definition requestD : Request := analysisRequest 2 "run" "D" None.

(** Analysis 1, which uses jaspResults, is to be run by a runtime that
    calls back once; a request to pause is on the channel. *)
Definition pausedDuringRun : Engine (externals callbackThenReturn) :=
  set_channel_in [Some (Document (bareRequest "pauseRequested"))]
    (set_analysisStatus Status.toRun
       (runningEngine callbackThenReturn 1 requestA)).

(** Analysis 1 is to be run, without and with jaspResults, and nothing
    is on the channel. *)
Definition classicToRun : Engine quiet :=
  set_analysisStatus Status.toRun (runningEngine quietScript 1 requestB).

Definition jaspResultsToRun : Engine quiet :=
  set_analysisStatus Status.toRun (runningEngine quietScript 1 requestA).

(** Analysis 1 is to be run by a runtime that polls once; the request
    for analysis 2 is on the channel. *)
Definition overtaken : Engine (externals (pollThenReturn "{}")) :=
  set_channel_in [Some (Document requestD)]
    (set_analysisStatus Status.toRun
       (runningEngine (pollThenReturn "{}") 1 requestA)).

(** An image of analysis 1 is to be saved. *)
Definition imageToSave : Engine quiet :=
  set_analysisStatus Status.saveImg (runningEngine quietScript 1 requestA).

End Toy.

(** * The rest of the engine

    [Engine::initialize], the main loop [Engine::run] and the functions
    with which the runtime writes a computed column back to the dataset. *)

(** ** [std::stoi]

    The conversion [setColumnDataAsNominalOrOrdinal] applies to the label
    of a level: white space is skipped, a sign is read, then decimal
    digits; no digit is an invalid argument, a value outside of [int] is
    out of range.  The count is that of the characters read. *)
Definition INT_MIN : Z := -2147483648.
Definition INT_MAX : Z := 2147483647.

Definition isspace (c : Ascii.ascii) : bool :=
  let n := Ascii.nat_of_ascii c in
  Nat.eqb n 32 || (Nat.leb 9 n && Nat.leb n 13).

Definition digitValue (c : Ascii.ascii) : option Z :=
  let n := Ascii.nat_of_ascii c in
  if Nat.leb 48 n && Nat.leb n 57 then Some (Z.of_nat (n - 48)) else None.

Fixpoint skipSpace (s : string) : string :=
  match s with
  | String c rest => if isspace c then skipSpace rest else s
  | EmptyString => EmptyString
  end.

(** The digits at the front of [s]: their value after [acc], and how
    many there are after [count]. *)
Fixpoint readDigits (s : string) (acc : Z) (count : nat) : Z * nat :=
  match s with
  | String c rest =>
      match digitValue c with
      | Some d => readDigits rest (10 * acc + d) (S count)
      | None => (acc, count)
      end
  | EmptyString => (acc, count)
  end.

Inductive stoi_result : Set :=
| stoi_invalid_argument
| stoi_out_of_range
| stoi_value (value : Z) (convertedChars : nat).

Definition stoi (str : string) : stoi_result :=
  let afterSpace := skipSpace str in
  let spaces := (String.length str - String.length afterSpace)%nat in
  let minus := Ascii.ascii_of_nat 45 in
  let plus := Ascii.ascii_of_nat 43 in
  let signed :=
    match afterSpace with
    | String c rest =>
        if Ascii.eqb c minus then (true, 1%nat, rest)
        else if Ascii.eqb c plus then (false, 1%nat, rest)
        else (false, 0%nat, afterSpace)
    | EmptyString => (false, 0%nat, afterSpace)
    end in
  let negative := fst (fst signed) in
  let signChars := snd (fst signed) in
  let read := readDigits (snd signed) 0 0 in
  if Nat.eqb (snd read) 0 then stoi_invalid_argument
  else
    let value := if negative then - fst read else fst read in
    if (value <? INT_MIN) || (INT_MAX <? value) then stoi_out_of_range
    else stoi_value value (spaces + signChars + snd read).

(** ** [std::map<int, int>]: assignment through [operator[]], and the
    read through [operator[]] that gives 0 for a key that is not there. *)
Fixpoint mapAssign (key value : Z) (m : list (Z * Z)) : list (Z * Z) :=
  match m with
  | [] => [(key, value)]
  | (k, v) :: rest =>
      if Z.eqb k key then (k, value) :: rest
      else (k, v) :: mapAssign key value rest
  end.

Fixpoint mapAt (m : list (Z * Z)) (key : Z) : Z :=
  match m with
  | [] => 0
  | (k, v) :: rest => if Z.eqb k key then v else mapAt rest key
  end.

(** The first loop of [setColumnDataAsNominalOrOrdinal] (lines 821-832):
    the levels whose label is a number, with that number.  [None] is the
    out-of-range exception of [std::stoi], which the loop does not
    catch. *)
Fixpoint collectUniqueInts (levels : list (Z * string))
    (uniqueInts : list (Z * Z)) : option (list (Z * Z)) :=
  match levels with
  | [] => Some uniqueInts
  | (key, label) :: rest =>
      match stoi label with
      | stoi_invalid_argument => collectUniqueInts rest uniqueInts
      | stoi_out_of_range => None
      | stoi_value asInt convertedChars =>
          if Nat.eqb convertedChars (String.length label)
          then collectUniqueInts rest (mapAssign key asInt uniqueInts)
          else collectUniqueInts rest uniqueInts
      end
  end.

(** The second loop (lines 836-838). *)
Definition replaceByUniqueInts (uniqueInts : list (Z * Z)) (data : list Z)
    : list Z :=
  map (fun dat => if negb (Z.eqb dat INT_MIN) then mapAt uniqueInts dat else dat)
    data.

(** ** The process and the dataset *)
Record Process (X : Externals) : Type := mkProcess {
  ProcessInfo_isParentRunning : World X -> bool;
  rbridge_init : World X -> World X;
  rbridge_check : World X -> string * World X;
  (* whether JASP_DEBUG or __linux__ is defined *)
  checksRBridge : bool;
  (* [None] is a thrown columnNotFound *)
  Columns_findIndexByName : string -> World X -> option nat;
  overwriteDataWithOrdinal : string -> list Z -> World X -> bool * World X;
  overwriteDataWithNominal : string -> list Z -> World X -> bool * World X;
  overwriteDataWithOrdinalLevels :
    string -> list Z -> list (Z * string) -> World X -> bool * World X;
  overwriteDataWithNominalLevels :
    string -> list Z -> list (Z * string) -> World X -> bool * World X
}.

Section Lifecycle.

Variable X : Externals.
Variable P : Process X.

Local Notation "x <- m ;; k" := (bind m (fun x => k))
  (at level 61, m at next level, right associativity).
Local Notation "m ;; k" := (bind m (fun _ => k))
  (at level 61, right associativity).

(** [Engine::isColumnNameOk]. *)
Definition isColumnNameOk (columnName : string) (e : Engine X) : bool :=
  if String.eqb columnName "" || negb (provideDataSet X (world e)) then false
  else
    match Columns_findIndexByName P columnName (world e) with
    | Some _ => true
    | None => false
    end.

(** [Engine::setColumnDataAsNominalOrOrdinal].  The vector [data] is
    passed by reference: the function returns what it returns together
    with the vector as it leaves it. *)
Definition setColumnDataAsNominalOrOrdinal (isOrdinal : bool)
    (columnName : string) (data : list Z) (levels : list (Z * string))
    : M X (bool * list Z) :=
  match collectUniqueInts levels [] with
  | None => throw (out_of_range "stoi")
  | Some uniqueInts =>
      if Nat.eqb (length uniqueInts) (length levels)
      then
        let data := replaceByUniqueInts uniqueInts data in
        written <-
          (if isOrdinal
           then call (overwriteDataWithOrdinal P columnName data)
           else call (overwriteDataWithNominal P columnName data)) ;;
        ret (written, data)
      else
        written <-
          (if isOrdinal
           then call (overwriteDataWithOrdinalLevels P columnName data levels)
           else call (overwriteDataWithNominalLevels P columnName data levels)) ;;
        ret (written, data)
  end.

(** [Engine::initialize]. *)
Definition initialize : M X unit :=
  Log_log "Engine::initialize()" ;;
  call_ (rbridge_init P) ;;
  Log_log "rbridge_init completed" ;;
  slaveNo <- gets (@_slaveNo X) ;;
  (if checksRBridge P && (slaveNo =? 0)
   then
     checked <- call (rbridge_check P) ;;
     Log_log checked ;;
     Log_log "rbridge_check completed"
   else ret tt) ;;
  call_ (fun w =>
    ColumnEncoder_setCurrentColumnNames X
      (if negb (provideDataSet X w) then [] else DataSet_getColumnNames X w) w) ;;
  modify (set_engineState engineState.idle) ;;
  @sendEngineResumed X ;;
  Log_log "Engine::initialize() done".

(** The first half of a turn of the loop of [Engine::run] (lines
    139-142), up to the [switch]. *)
Definition runTurnReceive : M X bool :=
  st <- gets (@_engineState X) ;;
  (if engineState.eqb st engineState.initializing then initialize else ret tt) ;;
  receiveMessages 100.

(** One turn of the loop of [Engine::run] (lines 139-161).
    [previousState] is the static variable of that name; the turn returns
    its new value. *)
Definition runTurn (previousState : engineState.t) : M X engineState.t :=
  runTurnReceive ;;
  st <- gets (@_engineState X) ;;
  match st with
  | engineState.idle => ret tt
  | engineState.analysis => @runAnalysis X
  | engineState.paused | engineState.stopped => ret tt
  | engineState.resuming =>
      throw (runtime_error ("Enginestate " ++ engineStateToString st
                            ++ " should NOT be set as currentState!"))
  | _ =>
      Log_log ("Engine got stuck in engineState " ++ engineStateToString st
               ++ " which is not supposed to happen...")
  end ;;
  call_ (freeRBridgeColumns X) ;;
  st <- gets (@_engineState X) ;;
  (if negb (engineState.eqb previousState st)
   then Log_log ("current Engine state == " ++ engineStateToString st)
   else ret tt) ;;
  ret st.

(** The condition of the loop (line 137). *)
Definition keepsRunning (e : Engine X) : bool :=
  negb (engineState.eqb (_engineState e) engineState.stopped)
  && ProcessInfo_isParentRunning P (world e).

(** The loop of [Engine::run], for at most [turns] turns: it returns true
    when the loop was left, false when the turns were used up. *)
Fixpoint runLoop (turns : nat) (previousState : engineState.t) : M X bool :=
  fun e =>
    if keepsRunning e
    then
      match turns with
      | O => Ret false e
      | S turns' =>
          match runTurn previousState e with
          | Ret previousState' e' => runLoop turns' previousState' e'
          | Throw x e' => Throw x e'
          end
      end
    else Ret true e.

(** [Engine::run], for at most [turns] turns of its loop. *)
Definition run (turns : nat) : M X bool :=
  sendString "" ;;
  left <- runLoop turns engineState.idle ;;
  st <- gets (@_engineState X) ;;
  (if (left : bool) && engineState.eqb st engineState.stopped
   then Log_log "Engine leaving mainloop after having been asked to stop."
   else ret tt) ;;
  ret left.

End Lifecycle.

(** A process for the small runtime: the parent runs for as long as no R
    call named quit has been made, there is no dataset to write to. *)
Module ToyProcess.

Definition process (script : Script Toy.Calls) : Process (Toy.externals script) :=
  {| ProcessInfo_isParentRunning :=
       fun w : World (Toy.externals script) =>
         negb (existsb (String.eqb "quit") (w : Toy.Calls));
     rbridge_init := fun w => w;
     rbridge_check := fun w => ("rbridge works", w);
     checksRBridge := true;
     Columns_findIndexByName := fun _ _ => None;
     overwriteDataWithOrdinal := fun _ _ w => (true, w);
     overwriteDataWithNominal := fun _ _ w => (true, w);
     overwriteDataWithOrdinalLevels := fun _ _ _ w => (true, w);
     overwriteDataWithNominalLevels := fun _ _ _ w => (true, w) |}.

Definition quiet : Process Toy.quiet := process Toy.quietScript.

(** The engine as [main] starts it. *)
Definition starting : Engine Toy.quiet :=
  set_engineState engineState.initializing Toy.idle.

End ToyProcess.

(** ** Vocabulary of the further statements *)
Section Conditions.

Variable X : Externals.

(** [m] leaves [f] of the state as it is, whether it returns or throws. *)
Definition keeps {T A : Type} (f : Engine X -> T) (m : M X A) : Prop :=
  forall e, f (state_of (m e)) = f e.

(** When [m] returns, [Q] holds of the state. *)
Definition ensures {A : Type} (Q : Engine X -> Prop) (m : M X A) : Prop :=
  forall e, returns (m e) = true -> Q (state_of (m e)).

(** When [m] is run in a state of which [Q] holds and returns, [Q] holds
    again. *)
Definition maintains {A : Type} (Q : Engine X -> Prop) (m : M X A) : Prop :=
  forall e, Q e -> returns (m e) = true -> Q (state_of (m e)).

(** The engine states in which the loop of [run] has nothing to report:
    those its [switch] names without throwing or logging. *)
Definition resting (e : Engine X) : Prop :=
  In (_engineState e)
    [engineState.idle; engineState.analysis; engineState.paused;
     engineState.stopped].

(** What belongs to the analysis that is run, besides its snapshot. *)
Definition analysisData (e : Engine X)
    : TempFiles.t * Z * string * Json * bool :=
  (tempFiles e, _progress e, _analysisResultsString e, _analysisResults e,
   _currentAnalysisKnowsAboutChange e).

(** The strings of [filesToKeepValue] that [removeNonKeepFiles] keeps. *)
Definition filesToKeep (filesToKeepValue : Json) : list string :=
  match filesToKeepValue with
  | JArray items =>
      flat_map (fun fileToKeepValue =>
                  match fileToKeepValue with
                  | JString s => [s]
                  | _ => []
                  end) items
  | JString s => [s]
  | _ => []
  end.

(** The state in which [runAnalysis] answers an analysis that does not use
    jaspResults (lines 601-606): the results are parsed from the result
    string, the status is inited after an init and complete otherwise, the
    progress is -1. *)
Definition answered (e : Engine X) : Engine X :=
  set_progress (-1)
    (set_analysisStatus
       (if Status.eqb (_analysisStatus e) Status.initing then Status.inited
        else Status.complete)
       (set_analysisResults
          (snd (Json_Reader_parse X (_analysisResultsString e))) e)).

(** The temp files that are left when those of the analysis that the
    parsed results do not ask to keep are removed (line 613). *)
Definition prunedTempFiles (e : Engine X) : TempFiles.t :=
  let analysisResults := snd (Json_Reader_parse X (_analysisResultsString e)) in
  let keep :=
    filesToKeep
      (if JsonValue.isObject analysisResults
       then JsonValue.get analysisResults "keep" JNull
       else JNull) in
  TempFiles.deleteList
    (Utils_remove (TempFiles.retrieveList (_analysisId e) (tempFiles e)) keep)
    (tempFiles e).

(** A document on which [operator[]] can be used: an object, or null. *)
Definition objectOrNull (j : Json) : bool :=
  JsonValue.isObject j || JsonValue.isNull j.

(** The document parsed from what [jaspRCPP_saveImage] returns for the
    image options of the snapshot (lines 620-626). *)
Definition savedImage (e : Engine X) : Json :=
  let imageOptions := _imageOptions (pending e) in
  snd (Json_Reader_parse X
         (fst (jaspRCPP_saveImage X
                 (JsonValue.asString (JsonValue.get imageOptions "data" JNull))
                 (JsonValue.asString (JsonValue.get imageOptions "type" JNull))
                 (JsonValue.asInt (JsonValue.get imageOptions "height" JNull))
                 (JsonValue.asInt (JsonValue.get imageOptions "width" JNull))
                 (_ppi (settings e)) (_imageBackground (settings e))
                 (world e)))).

(** The settings after [absorbSettings] has read [jsonRequest]. *)
Definition absorbed (jsonRequest : Request) (s : Settings) : Settings :=
  {| _ppi := get (rq_ppi jsonRequest) (_ppi s);
     _developerMode := get (rq_developerMode jsonRequest) (_developerMode s);
     _imageBackground :=
       get (rq_imageBackground jsonRequest) (_imageBackground s);
     _langR := get (rq_languageCode jsonRequest) (_langR s) |}.

(** What [initialize] and the loop of [run] leave alone: the analysis,
    its snapshot and the settings. *)
Definition analysisAndSettings (e : Engine X)
    : Status.t * Z * Snapshot * Settings
      * (TempFiles.t * Z * string * Json * bool) :=
  (_analysisStatus e, _analysisId e, pending e, settings e, analysisData e).

(** The label of a level is a number: [std::stoi] converts it as a
    whole. *)
Definition isNumber (label : string) : Prop :=
  exists asInt, stoi label = stoi_value asInt (String.length label).

(** The number [std::stoi] reads from [label]. *)
Definition integerOf (label : string) : Z :=
  match stoi label with
  | stoi_value asInt _ => asInt
  | _ => 0
  end.

(** The label that [levels] gives to the value [key]. *)
Fixpoint labelOf (levels : list (Z * string)) (key : Z) : option string :=
  match levels with
  | [] => None
  | (k, label) :: rest => if Z.eqb k key then Some label else labelOf rest key
  end.

(** A value of a column whose labels are numbers, recoded to the number
    of its label: the missing value is kept, a value without a label
    becomes 0. *)
Definition recoded (levels : list (Z * string)) (dat : Z) : Z :=
  if Z.eqb dat INT_MIN then dat
  else
    match labelOf levels dat with
    | Some label => integerOf label
    | None => 0
    end.

(** The state whose name the response to a request of type
    [typeRequest] carries. *)
Definition responseType (typeRequest : engineState.t) : engineState.t :=
  match typeRequest with
  | engineState.pauseRequested => engineState.paused
  | engineState.stopRequested => engineState.stopped
  | _ => typeRequest
  end.

(** When [m] returns it has sent one message, a response object whose
    [typeRequest] is [typeRequest]. *)
Definition answersOnce {A : Type} (typeRequest : string) (m : M X A) : Prop :=
  forall e,
    returns (m e) = true ->
    exists response,
      channel_out (state_of (m e))
      = (channel_out e ++ [sent X response])%list
      /\ JsonValue.get response "typeRequest" JNull = JString typeRequest.

(** The document at the head of the channel asks for [typeRequest]. *)
Definition asksFor (typeRequest : string) (e : Engine X) : Prop :=
  exists jsonRequest rest,
    channel_in e = Some (Document jsonRequest) :: rest
    /\ rq_typeRequest jsonRequest = Some typeRequest.

End Conditions.

(** * Properties *)

(** ** The enumerations *)

Lemma engineState_eqb_eq (a b : engineState.t) :
  engineState.eqb a b = true <-> a = b.
Proof. destruct a, b; simpl; split; intro H; congruence. Qed.

Lemma Status_eqb_eq (a b : Status.t) : Status.eqb a b = true <-> a = b.
Proof. destruct a, b; simpl; split; intro H; congruence. Qed.

Lemma engineStateFromString_Some (s : string) (st : engineState.t) :
  engineStateFromString s = Some st -> engineStateToString st = s.
Proof.
  unfold engineStateFromString. intro H.
  apply find_some in H. destruct H as [_ H].
  now apply String.eqb_eq in H.
Qed.

Lemma performTypeFromString_unrecognized (p : string) :
  ~ In p handledPerforms ->
  performTypeFromString p = performType.unrecognized.
Proof.
  intro H. unfold performTypeFromString.
  repeat match goal with
  | |- context [String.eqb p ?s] =>
      destruct (String.eqb_spec p s) as [-> | _];
      [ exfalso; apply H; simpl; tauto | ]
  end.
  reflexivity.
Qed.

Section Properties.

Variable X : Externals.
Implicit Types (e : Engine X) (jsonRequest : Request).

(** ** Analysis requests *)

(** What an accepted analysis request leaves behind. *)
Lemma receiveAnalysisMessage_accepted jsonRequest e :
  acceptsAnalysis e ->
  receiveAnalysisMessage jsonRequest e =
  Ret tt (let e1 := retargeted jsonRequest e in
          if capturesRequest (_analysisStatus e1)
          then set_engineState engineState.analysis
                 (set_pending (captureSnapshot X jsonRequest) e1)
          else e1).
Proof.
  intro Hacc.
  unfold receiveAnalysisMessage, bind, gets, modify, ret, throw.
  assert (Hg : negb (engineState.eqb (_engineState e) engineState.idle)
               && negb (engineState.eqb (_engineState e) engineState.analysis)
               = false)
    by (destruct Hacc as [-> | ->]; reflexivity).
  rewrite Hg. cbv zeta. fold (retargeted jsonRequest e).
  destruct (capturesRequest (_analysisStatus (retargeted jsonRequest e)));
    reflexivity.
Qed.

(** An analysis request that arrives in another state than idle or
    analysis is refused with an exception, and nothing is changed. *)
Lemma receiveAnalysisMessage_refused jsonRequest e :
  ~ acceptsAnalysis e ->
  exists what, receiveAnalysisMessage jsonRequest e = Throw (runtime_error what) e.
Proof.
  intro Hacc.
  unfold receiveAnalysisMessage, bind, gets, modify, ret, throw.
  destruct (_engineState e) eqn:Hst; simpl;
    try (eexists; reflexivity);
    exfalso; apply Hacc; unfold acceptsAnalysis; rewrite Hst; tauto.
Qed.

Lemma retargeted_status_capture jsonRequest e :
  _analysisStatus
    (let e1 := retargeted jsonRequest e in
     if capturesRequest (_analysisStatus e1)
     then set_engineState engineState.analysis
            (set_pending (captureSnapshot X jsonRequest) e1)
     else e1)
  = _analysisStatus (retargeted jsonRequest e).
Proof.
  cbv zeta.
  destruct (capturesRequest (_analysisStatus (retargeted jsonRequest e)));
    reflexivity.
Qed.

(** C1. An analysis request that the engine accepts (its state is idle
    or analysis) always returns.  If its id is the active id and the
    status is running, the new status is changed when perform is init, or
    when perform is run and the running analysis uses jaspResults, and
    aborted for every other perform.  Otherwise the engine adopts the id
    of the request, and perform init, run, saveImg, editImg, rewriteImgs
    give the status toInit, toRun, saveImg, editImg, rewriteImgs, and any
    other perform the status error. *)
Theorem receiveAnalysisMessage_status jsonRequest e :
  acceptsAnalysis e ->
  let analysisId := get (rq_id jsonRequest) (-1) in
  let perform := get (rq_perform jsonRequest) "run" in
  let sameRunning :=
    analysisId = _analysisId e /\ _analysisStatus e = Status.running in
  let notified :=
    perform = "init"
    \/ (perform = "run" /\ _analysisJaspResults (pending e) = true) in
  exists e',
    receiveAnalysisMessage jsonRequest e = Ret tt e'
    /\ (sameRunning ->
        (notified -> _analysisStatus e' = Status.changed)
        /\ (~ notified -> _analysisStatus e' = Status.aborted))
    /\ (~ sameRunning ->
        _analysisId e' = analysisId
        /\ (perform = "init" -> _analysisStatus e' = Status.toInit)
        /\ (perform = "run" -> _analysisStatus e' = Status.toRun)
        /\ (perform = "saveImg" -> _analysisStatus e' = Status.saveImg)
        /\ (perform = "editImg" -> _analysisStatus e' = Status.editImg)
        /\ (perform = "rewriteImgs" -> _analysisStatus e' = Status.rewriteImgs)
        /\ (~ In perform handledPerforms -> _analysisStatus e' = Status.error)).
Proof.
  intros Hacc analysisId perform sameRunning notified.
  eexists. split; [ apply receiveAnalysisMessage_accepted; exact Hacc | ].
  rewrite retargeted_status_capture.
  assert (Hid : forall e1 : Engine X,
             _analysisId
               (if capturesRequest (_analysisStatus e1)
                then set_engineState engineState.analysis
                       (set_pending (captureSnapshot X jsonRequest) e1)
                else e1) = _analysisId e1)
    by (intro e1; destruct (capturesRequest (_analysisStatus e1)); reflexivity).
  cbv zeta. rewrite Hid. clear Hid.
  unfold retargeted. fold analysisId. fold perform.
  destruct ((analysisId =? _analysisId e)
            && Status.eqb (_analysisStatus e) Status.running) eqn:Hsame.
  - apply andb_true_iff in Hsame. destruct Hsame as [H1 H2].
    apply Z.eqb_eq in H1. apply Status_eqb_eq in H2.
    split; [ intros _ | intro Hn; exfalso; apply Hn; split; assumption ].
    simpl. unfold statusForRunningAnalysis. split.
    + intros [Hp | [Hp Hj]]; rewrite Hp; [ reflexivity | ].
      rewrite Hj. reflexivity.
    + intro Hn.
      destruct (performType.eqb (performTypeFromString perform) performType.init
                || _analysisJaspResults (pending e)
                   && performType.eqb (performTypeFromString perform)
                        performType.run) eqn:Hb; [ | reflexivity ].
      exfalso. apply Hn. unfold notified, performTypeFromString in *.
      destruct (String.eqb_spec perform "init") as [-> | _]; [ now left | ].
      destruct (String.eqb_spec perform "run") as [-> | _].
      * right. split; [ reflexivity | ].
        simpl in Hb. now rewrite andb_true_r in Hb.
      * repeat match type of Hb with
        | context [String.eqb perform ?s] => destruct (String.eqb perform s)
        end; simpl in Hb; rewrite ?andb_false_r in Hb; discriminate.
  - split.
    + intros [H1 H2]. exfalso.
      apply Z.eqb_eq in H1. apply Status_eqb_eq in H2.
      rewrite H1, H2 in Hsame. discriminate.
    + intros _. simpl.
      repeat split; try (intros ->; reflexivity).
      intro Hn. now rewrite (performTypeFromString_unrecognized Hn).
Qed.

(** The statuses with which [receiveAnalysisMessage] reads the request. *)
Lemma capturesRequest_iff (s : Status.t) :
  capturesRequest s = true <->
  In s [Status.toInit; Status.toRun; Status.changed; Status.saveImg;
        Status.editImg; Status.rewriteImgs].
Proof.
  destruct s; simpl; split; intro H; try reflexivity; try discriminate;
    try tauto;
    repeat (destruct H as [H | H]; try discriminate); contradiction.
Qed.

(** C3, amended. An accepted analysis request replaces the whole
    snapshot by the fields of the request exactly when the resulting
    status is one of toInit, toRun, changed, saveImg, editImg,
    rewriteImgs, and leaves it as it was otherwise.  The branch of a
    request for the running analysis yields changed or aborted: the status
    aborted keeps the snapshot of the running request, and the status
    changed, which is reached in that branch only, replaces it. *)
Theorem receiveAnalysisMessage_snapshot jsonRequest e :
  acceptsAnalysis e ->
  let captured :=
    [Status.toInit; Status.toRun; Status.changed; Status.saveImg;
     Status.editImg; Status.rewriteImgs] in
  exists e',
    receiveAnalysisMessage jsonRequest e = Ret tt e'
    /\ (In (_analysisStatus e') captured ->
        pending e' = captureSnapshot X jsonRequest)
    /\ (~ In (_analysisStatus e') captured -> pending e' = pending e)
    /\ (get (rq_id jsonRequest) (-1) = _analysisId e ->
        _analysisStatus e = Status.running ->
        (_analysisStatus e' = Status.changed
         \/ _analysisStatus e' = Status.aborted)
        /\ (_analysisStatus e' = Status.aborted -> pending e' = pending e)
        /\ (_analysisStatus e' = Status.changed ->
            pending e' = captureSnapshot X jsonRequest))
    /\ (_analysisStatus e' = Status.changed ->
        get (rq_id jsonRequest) (-1) = _analysisId e
        /\ _analysisStatus e = Status.running).
Proof.
  intros Hacc captured.
  eexists. split; [ apply receiveAnalysisMessage_accepted; exact Hacc | ].
  rewrite retargeted_status_capture. cbv zeta.
  assert (Hpend : forall e1 : Engine X, pending e1 = pending e ->
            (In (_analysisStatus e1) captured ->
             pending (if capturesRequest (_analysisStatus e1)
                      then set_engineState engineState.analysis
                             (set_pending (captureSnapshot X jsonRequest) e1)
                      else e1) = captureSnapshot X jsonRequest)
            /\ (~ In (_analysisStatus e1) captured ->
                pending (if capturesRequest (_analysisStatus e1)
                         then set_engineState engineState.analysis
                                (set_pending (captureSnapshot X jsonRequest) e1)
                         else e1) = pending e)).
  { intros e1 He1. split; intro H.
    - apply capturesRequest_iff in H. rewrite H. reflexivity.
    - destruct (capturesRequest (_analysisStatus e1)) eqn:Hc.
      + exfalso. apply H. now apply capturesRequest_iff.
      + exact He1. }
  assert (Hsame : pending (retargeted jsonRequest e) = pending e).
  { unfold retargeted.
    destruct ((get (rq_id jsonRequest) (-1) =? _analysisId e)
              && Status.eqb (_analysisStatus e) Status.running);
      reflexivity. }
  destruct (Hpend _ Hsame) as [Hin Hout].
  split; [ exact Hin | ]. split; [ exact Hout | ]. split.
  - intros Hid Hst. split; [ | split; intro H ].
    + unfold retargeted. rewrite Hid, Hst, Z.eqb_refl. simpl.
      unfold statusForRunningAnalysis.
      destruct (performType.eqb _ performType.init || _); [ now left | now right ].
    + apply Hout. rewrite H. simpl. intuition discriminate.
    + apply Hin. rewrite H. simpl. tauto.
  - unfold retargeted.
    destruct ((get (rq_id jsonRequest) (-1) =? _analysisId e)
              && Status.eqb (_analysisStatus e) Status.running) eqn:Hb.
    + intros _. apply andb_true_iff in Hb. destruct Hb as [H1 H2].
      split; [ now apply Z.eqb_eq | now apply Status_eqb_eq ].
    + simpl.
      destruct (performTypeFromString (get (rq_perform jsonRequest) "run"));
        simpl; discriminate.
Qed.

(** ** Frame conditions *)

Lemma frames_ret {A} (a : A) : frames (@ret X A a).
Proof. intro e. reflexivity. Qed.

Lemma frames_throw {A} (x : exn) : frames (@throw X A x).
Proof. intro e. reflexivity. Qed.

Lemma frames_gets {A} (f : Engine X -> A) : frames (gets f).
Proof. intro e. reflexivity. Qed.

Lemma frames_modify (f : Engine X -> Engine X) :
  (forall e, frame (f e) = frame e) -> frames (modify f).
Proof. intros H e. apply H. Qed.

Lemma frames_bind {A B} (m : M X A) (k : A -> M X B) :
  frames m -> (forall a, frames (k a)) -> frames (bind m k).
Proof.
  intros Hm Hk e. unfold bind. specialize (Hm e).
  destruct (m e) as [a e' | x e']; simpl in *.
  - now rewrite Hk.
  - exact Hm.
Qed.

Lemma frames_call {A} (f : World X -> A * World X) : frames (call f).
Proof. intro e. reflexivity. Qed.

Lemma frames_call_ (f : World X -> World X) : frames (call_ f).
Proof. intro e. reflexivity. Qed.

Lemma frames_Log_log (line : string) : frames (@Log_log X line).
Proof. intro e. reflexivity. Qed.

Lemma frames_sendString (message : string) : frames (@sendString X message).
Proof. intro e. reflexivity. Qed.

Create HintDb frames.

#[local] Hint Resolve frames_ret frames_throw frames_gets frames_call
  frames_call_ frames_Log_log frames_sendString : frames.

(** One step of a frame proof: split a bind, close a primitive, or
    branch on the value a conditional looks at. *)
Ltac frames_step :=
  first
    [ apply frames_bind; [ | intro ]
    | solve [ auto with frames nocore ]
    | apply frames_modify; intro;
      repeat match goal with
             | |- context [if ?b then _ else _] => destruct b
             end; reflexivity
    | match goal with
      | |- frames (if ?b then _ else _) => destruct b
      | |- frames (match ?x with _ => _ end) => destruct x
      end ].

Ltac frames_auto := cbv zeta; repeat frames_step.

Lemma frames_sendAnalysisResults : frames (@sendAnalysisResults X).
Proof. unfold sendAnalysisResults. frames_auto. Qed.

Lemma frames_parseAnalysisResults (document : string) :
  frames (@parseAnalysisResults X document).
Proof. unfold parseAnalysisResults. frames_auto. Qed.

#[local] Hint Resolve frames_sendAnalysisResults frames_parseAnalysisResults
  : frames.

Lemma frames_receiveFilterMessage jsonRequest :
  frames (@receiveFilterMessage X jsonRequest).
Proof.
  unfold receiveFilterMessage, runFilter, sendFilterResult, sendFilterError.
  frames_auto.
Qed.

Lemma frames_receiveRCodeMessage jsonRequest :
  frames (@receiveRCodeMessage X jsonRequest).
Proof.
  unfold receiveRCodeMessage, runRCode, runRCodeCommander, sendRCodeResult,
    sendRCodeError.
  frames_auto.
Qed.

Lemma frames_receiveComputeColumnMessage jsonRequest :
  frames (@receiveComputeColumnMessage X jsonRequest).
Proof.
  unfold receiveComputeColumnMessage, runComputeColumn. frames_auto.
Qed.

Lemma frames_receiveModuleRequestMessage jsonRequest :
  frames (@receiveModuleRequestMessage X jsonRequest).
Proof. unfold receiveModuleRequestMessage. frames_auto. Qed.

Lemma frames_pauseEngine : frames (@pauseEngine X).
Proof. unfold pauseEngine, sendEnginePaused. frames_auto. Qed.

Lemma frames_stopEngine : frames (@stopEngine X).
Proof. unfold stopEngine, sendEngineStopped. frames_auto. Qed.

Lemma frames_absorbSettings jsonRequest : frames (@absorbSettings X jsonRequest).
Proof. unfold absorbSettings. frames_auto. Qed.

#[local] Hint Resolve frames_absorbSettings : frames.

Lemma frames_resumeEngine jsonRequest : frames (@resumeEngine X jsonRequest).
Proof. unfold resumeEngine, sendEngineResumed. frames_auto. Qed.

Lemma frames_receiveLogCfg jsonRequest : frames (@receiveLogCfg X jsonRequest).
Proof. unfold receiveLogCfg. frames_auto. Qed.

Lemma frames_receiveSettings jsonRequest : frames (@receiveSettings X jsonRequest).
Proof. unfold receiveSettings. frames_auto. Qed.

Lemma frames_saveImage : frames (@saveImage X).
Proof. unfold saveImage. frames_auto. Qed.

Lemma frames_editImage : frames (@editImage X).
Proof. unfold editImage. frames_auto. Qed.

Lemma frames_rewriteImages : frames (@rewriteImages X).
Proof. unfold rewriteImages. frames_auto. Qed.

Lemma frames_removeNonKeepFiles (keep : Json) :
  frames (@removeNonKeepFiles X keep).
Proof. unfold removeNonKeepFiles. frames_auto. Qed.

#[local] Hint Resolve frames_removeNonKeepFiles : frames.

Lemma frames_afterRuntimeReturned : frames (@afterRuntimeReturned X).
Proof. unfold afterRuntimeReturned. frames_auto. Qed.

Lemma frames_provideFileName (f : FileRequest) : frames (@provideFileName X f).
Proof. intro e. unfold provideFileName. destruct f; reflexivity. Qed.

(** ** Where the snapshot comes from *)

Section Stable.

Variable p0 : Snapshot.
Variable inbox0 : list (option Data).

Lemma readFrom_frame e e' :
  frame e' = frame e -> readFrom p0 inbox0 e -> readFrom p0 inbox0 e'.
Proof.
  unfold frame, readFrom. intros H [Hp Hc]. injection H as H1 H2.
  rewrite H1, H2. split; assumption.
Qed.

Lemma frames_stable {A} (m : M X A) : frames m -> stable p0 inbox0 m.
Proof. intros H e He. exact (readFrom_frame (H e) He). Qed.

Lemma stable_bind {A B} (m : M X A) (k : A -> M X B) :
  stable p0 inbox0 m -> (forall a, stable p0 inbox0 (k a)) ->
  stable p0 inbox0 (bind m k).
Proof.
  intros Hm Hk e He. unfold bind. specialize (Hm e He).
  destruct (m e) as [a e' | x e']; simpl in *.
  - now apply Hk.
  - exact Hm.
Qed.

(** An analysis request keeps the snapshot or replaces it by its own
    fields; it does not read the channel. *)
Lemma receiveAnalysisMessage_pending jsonRequest e :
  let e' := state_of (receiveAnalysisMessage jsonRequest e) in
  channel_in e' = channel_in e
  /\ (pending e' = pending e \/ pending e' = captureSnapshot X jsonRequest).
Proof.
  assert (Hdec : acceptsAnalysis e \/ ~ acceptsAnalysis e).
  { unfold acceptsAnalysis. destruct (_engineState e);
      first [ left; tauto | right; intros [H | H]; discriminate ]. }
  destruct Hdec as [Hacc | Hacc].
  - rewrite (receiveAnalysisMessage_accepted jsonRequest Hacc). cbv zeta.
    simpl state_of.
    assert (H : pending (retargeted jsonRequest e) = pending e
                /\ channel_in (retargeted jsonRequest e) = channel_in e).
    { unfold retargeted.
      destruct ((get (rq_id jsonRequest) (-1) =? _analysisId e)
                && Status.eqb (_analysisStatus e) Status.running);
        split; reflexivity. }
    destruct H as [H1 H2].
    destruct (capturesRequest (_analysisStatus (retargeted jsonRequest e)));
      simpl; split; auto.
  - destruct (receiveAnalysisMessage_refused jsonRequest Hacc) as [what ->].
    simpl. auto.
Qed.

Lemma stable_receiveMessages (timeout : Z) :
  stable p0 inbox0 (@receiveMessages X timeout).
Proof.
  intros e [Hp [done Hc]].
  unfold receiveMessages, channel_receive.
  unfold bind at 1.
  destruct (channel_in e) as [ | d rest] eqn:Hin.
  - simpl. split; [ exact Hp | exists done; now rewrite Hin ].
  - assert (He1 : readFrom p0 inbox0 (set_channel_in rest e)).
    { split; [ exact Hp | ]. exists (done ++ [d])%list. simpl.
      rewrite <- app_assoc. exact Hc. }
    assert (Hd : In d inbox0).
    { rewrite Hc. apply in_or_app. right. now left. }
    destruct d as [[ | jsonRequest] | ]; try exact He1.
    revert He1. generalize (set_channel_in rest e). clear e Hp Hc Hin.
    intros e He.
    apply (@stable_bind unit bool); [ apply frames_stable; auto with frames nocore | | exact He ].
    intros _.
    destruct (String.eqb (get (rq_typeRequest jsonRequest) "") "") eqn:Hempty;
      [ apply frames_stable; auto with frames nocore | ].
    destruct (engineStateFromString (get (rq_typeRequest jsonRequest) ""))
      as [typeRequest | ] eqn:Htype; [ | apply frames_stable; auto with frames nocore ].
    apply engineStateFromString_Some in Htype.
    destruct typeRequest; cbv iota;
      lazymatch goal with
      | |- stable _ _ (throw _) => apply frames_stable, frames_throw
      | |- stable _ _ (bind (receiveAnalysisMessage _) _) => idtac
      | |- stable _ _ (bind _ _) =>
          apply frames_stable, frames_bind; [ | intro; apply frames_ret ]
      end;
      lazymatch goal with
      | |- frames (receiveFilterMessage _) => apply frames_receiveFilterMessage
      | |- frames (receiveRCodeMessage _) => apply frames_receiveRCodeMessage
      | |- frames (receiveComputeColumnMessage _) =>
          apply frames_receiveComputeColumnMessage
      | |- frames (receiveModuleRequestMessage _) =>
          apply frames_receiveModuleRequestMessage
      | |- frames (@pauseEngine _) => apply frames_pauseEngine
      | |- frames (@stopEngine _) => apply frames_stopEngine
      | |- frames (resumeEngine _) => apply frames_resumeEngine
      | |- frames (receiveLogCfg _) => apply frames_receiveLogCfg
      | |- frames (receiveSettings _) => apply frames_receiveSettings
      | |- _ => idtac
      end.
    apply stable_bind; [ | intro; apply frames_stable; auto with frames nocore ].
    clear e He. intros e [Hp [done' Hc]].
    destruct (receiveAnalysisMessage_pending jsonRequest e) as [H1 [H2 | H2]];
      cbv zeta in *; (split; [ | exists done'; now rewrite H1 ]).
    + now rewrite H2.
    + right. exists jsonRequest. repeat split; try assumption.
      destruct (rq_typeRequest jsonRequest) as [t | ]; simpl in Htype;
        [ now subst | discriminate ].
Qed.

Lemma stable_callback (results : string) (progress : Z) :
  stable p0 inbox0 (@callback X results progress).
Proof.
  unfold callback.
  apply stable_bind; [ apply stable_receiveMessages | intros _ ].
  apply frames_stable. unfold directiveAfterPoll. frames_auto.
Qed.

Lemma stable_PollMessagesFunctionForJaspResults :
  stable p0 inbox0 (@PollMessagesFunctionForJaspResults X).
Proof.
  unfold PollMessagesFunctionForJaspResults.
  apply stable_bind; [ apply stable_receiveMessages | intros received ].
  apply frames_stable. frames_auto.
Qed.

Lemma stable_runScript (s : Script (World X)) : stable p0 inbox0 (runScript s).
Proof.
  induction s as [result after | results progress k IH | msg k IH | k IH | f k IH];
    intros e He; cbn [runScript].
  - refine (@frames_stable _ (bind (call_ after) (fun _ => ret result)) _ e He).
    frames_auto.
  - pose proof (stable_callback results progress He) as H.
    destruct (callback results progress e) as [directive e' | x e'];
      cbn [state_of] in *.
    + exact (IH directive e' H).
    + exact H.
  - pose proof (frames_stable (frames_sendString msg) He) as H.
    unfold SendFunctionForJaspresults.
    destruct (sendString msg e) as [u e' | x e']; cbn [state_of] in *.
    + exact (IH e' H).
    + exact H.
  - pose proof (stable_PollMessagesFunctionForJaspResults He) as H.
    destruct (PollMessagesFunctionForJaspResults e) as [stop e' | x e'];
      cbn [state_of] in *.
    + exact (IH stop e' H).
    + exact H.
  - pose proof (frames_stable (frames_provideFileName f) He) as H.
    destruct (provideFileName f e) as [path e' | x e']; cbn [state_of] in *.
    + exact (IH path e' H).
    + exact H.
Qed.

Lemma stable_runtimeReturns : stable p0 inbox0 (@runtimeReturns X).
Proof.
  unfold runtimeReturns.
  apply stable_bind; [ apply frames_stable; frames_auto | intros _ ].
  apply stable_bind; [ apply frames_stable; frames_auto | intros status ].
  cbv zeta.
  apply stable_bind; [ apply frames_stable; frames_auto | intros _ ].
  apply stable_bind; [ apply frames_stable; frames_auto | intros _ ].
  apply stable_bind; [ apply frames_stable; frames_auto | intros script ].
  apply stable_bind; [ apply stable_runScript | intros result ].
  apply frames_stable; frames_auto.
Qed.

Lemma stable_runAnalysis : stable p0 inbox0 (@runAnalysis X).
Proof.
  unfold runAnalysis.
  do 4 (apply stable_bind; [ apply frames_stable; frames_auto | intro ]).
  apply stable_bind; [ apply frames_stable; frames_auto | intros status ].
  destruct (Status.eqb status Status.saveImg);
    [ apply frames_stable, frames_saveImage | ].
  destruct (Status.eqb status Status.editImg);
    [ apply frames_stable, frames_editImage | ].
  destruct (Status.eqb status Status.rewriteImgs);
    [ apply frames_stable, frames_rewriteImages | ].
  destruct (Status.eqb status Status.empty || Status.eqb status Status.aborted);
    [ apply frames_stable; frames_auto | ].
  apply stable_bind; [ apply stable_runtimeReturns | intros _ ].
  apply stable_bind; [ apply frames_stable; frames_auto | intros jaspResults ].
  apply stable_bind; [ apply frames_stable; frames_auto | intros status' ].
  apply stable_bind; [ | intros _; apply frames_stable, frames_afterRuntimeReturned ].
  destruct (negb jaspResults
            && (Status.eqb status' Status.initing
                || Status.eqb status' Status.running));
    [ | apply frames_stable; frames_auto ].
  apply stable_bind; [ apply stable_receiveMessages | intro ].
  apply frames_stable; frames_auto.
Qed.

End Stable.

(** ** The jaspResults flag *)

Lemma readFrom_start e : readFrom (pending e) (channel_in e) e.
Proof. split; [ now left | now exists [] ]. Qed.

(** C9, amended. The flag of a captured request is true exactly when
    the request has a dynamicModuleCall that is not empty or a
    jaspResults field that is true.  It is written with the rest of the
    snapshot and by nothing else: an analysis request keeps the snapshot
    or replaces all of it, and after a dispatch, a callback or a whole
    [runAnalysis] the snapshot is the one the engine started with or the
    one captured from an analysis request that was on the channel.  So
    the flag at the end of a run is the flag at its start, or the flag of
    an analysis request captured during the run. *)
Theorem jaspResults_flag_captured_with_snapshot :
  (forall jsonRequest,
      _analysisJaspResults (captureSnapshot X jsonRequest) = true <->
      (exists call, rq_dynamicModuleCall jsonRequest = Some call /\ call <> "")
      \/ rq_jaspResults jsonRequest = Some true)
  /\ (forall jsonRequest e,
         let e' := state_of (receiveAnalysisMessage jsonRequest e) in
         pending e' = pending e \/ pending e' = captureSnapshot X jsonRequest)
  /\ (forall timeout e,
         snapshotFrom X (pending e) (channel_in e)
           (pending (state_of (receiveMessages timeout e))))
  /\ (forall results progress e,
         snapshotFrom X (pending e) (channel_in e)
           (pending (state_of (callback results progress e))))
  /\ (forall e,
         snapshotFrom X (pending e) (channel_in e)
           (pending (state_of (runAnalysis e))))
  /\ (forall e,
         let flag' := _analysisJaspResults (pending (state_of (runAnalysis e))) in
         flag' = _analysisJaspResults (pending e)
         \/ exists jsonRequest,
              In (Some (Document jsonRequest)) (channel_in e)
              /\ rq_typeRequest jsonRequest = Some "analysis"
              /\ flag' = _analysisJaspResults (captureSnapshot X jsonRequest)).
Proof.
  split; [ | split; [ | split; [ | split; [ | split ] ] ] ].
  - intro jsonRequest. unfold captureSnapshot. simpl.
    destruct (rq_dynamicModuleCall jsonRequest) as [call | ];
      destruct (rq_jaspResults jsonRequest) as [[ | ] | ]; simpl.
    all: try (destruct (String.eqb_spec call "") as [-> | Hne]; simpl).
    all: split; intro H; try reflexivity; try discriminate; auto.
    all: try (left; exists call; split; [ reflexivity | assumption ]).
    all: try (destruct H as [[c [Hc Hn]] | H]; try discriminate;
              injection Hc as <-; congruence).
  - intros jsonRequest e. apply receiveAnalysisMessage_pending.
  - intros timeout e.
    apply (stable_receiveMessages timeout (readFrom_start e)).
  - intros results progress e.
    apply (stable_callback results progress (readFrom_start e)).
  - intro e. apply (stable_runAnalysis (readFrom_start e)).
  - intro e. cbv zeta.
    destruct (stable_runAnalysis (readFrom_start e)) as [[H | H] _].
    + left. now rewrite H.
    + right. destruct H as [jsonRequest [Hin [Htype Heq]]].
      exists jsonRequest. repeat split; try assumption. now rewrite Heq.
Qed.

(** ** Dispatch *)

Lemma receiveMessages_document timeout jsonRequest rest e :
  channel_in e = Some (Document jsonRequest) :: rest ->
  receiveMessages timeout e =
  (let typeSend := get (rq_typeRequest jsonRequest) "" in
   if String.eqb typeSend "" then Ret false (dispatched rest e)
   else
     match engineStateFromString typeSend with
     | None => Throw (missingEnumVal "engineState" typeSend) (dispatched rest e)
     | Some typeRequest =>
         match typeRequest with
         | engineState.analysis =>
             bind (receiveAnalysisMessage jsonRequest) (fun _ => ret true)
               (dispatched rest e)
         | engineState.filter =>
             bind (receiveFilterMessage jsonRequest) (fun _ => ret false)
               (dispatched rest e)
         | engineState.rCode =>
             bind (receiveRCodeMessage jsonRequest) (fun _ => ret false)
               (dispatched rest e)
         | engineState.computeColumn =>
             bind (receiveComputeColumnMessage jsonRequest) (fun _ => ret false)
               (dispatched rest e)
         | engineState.pauseRequested =>
             bind (@pauseEngine X) (fun _ => ret false) (dispatched rest e)
         | engineState.resuming =>
             bind (resumeEngine jsonRequest) (fun _ => ret false)
               (dispatched rest e)
         | engineState.moduleRequest =>
             bind (receiveModuleRequestMessage jsonRequest) (fun _ => ret false)
               (dispatched rest e)
         | engineState.stopRequested =>
             bind (@stopEngine X) (fun _ => ret false) (dispatched rest e)
         | engineState.logCfg =>
             bind (receiveLogCfg jsonRequest) (fun _ => ret false)
               (dispatched rest e)
         | engineState.settings =>
             bind (receiveSettings jsonRequest) (fun _ => ret false)
               (dispatched rest e)
         | _ =>
             Throw (runtime_error
                      ("Engine::receiveMessages begs you to add your new engineState "
                       ++ engineStateToString typeRequest ++ " to it!"))
               (dispatched rest e)
         end
     end).
Proof.
  intro Hin. unfold receiveMessages, channel_receive.
  unfold bind at 1. rewrite Hin.
  unfold bind at 1. unfold sendString, channel_send, modify.
  fold (dispatched rest e). cbv zeta.
  destruct (String.eqb (get (rq_typeRequest jsonRequest) "") "");
    [ reflexivity | ].
  destruct (engineStateFromString (get (rq_typeRequest jsonRequest) ""))
    as [typeRequest | ]; [ | reflexivity ].
  destruct typeRequest; reflexivity.
Qed.

(** C6. A document whose typeRequest is not empty and is none of the
    handled request types makes [receiveMessages] throw, in the state in
    which a handler would have been called: none was.  A document whose
    typeRequest is absent or empty makes it return false in that same
    state, without an exception. *)
Theorem receiveMessages_unhandled_type timeout jsonRequest rest e :
  channel_in e = Some (Document jsonRequest) :: rest ->
  let typeSend := get (rq_typeRequest jsonRequest) "" in
  (typeSend <> "" -> ~ In typeSend handledRequestTypes ->
   exists x, receiveMessages timeout e = Throw x (dispatched rest e))
  /\ ((rq_typeRequest jsonRequest = None
       \/ rq_typeRequest jsonRequest = Some "") ->
      receiveMessages timeout e = Ret false (dispatched rest e)).
Proof.
  intros Hin typeSend.
  rewrite (@receiveMessages_document timeout _ _ _ Hin). fold typeSend. cbv zeta.
  split.
  - intros Hne Hnot.
    destruct (String.eqb_spec typeSend "") as [Heq | _]; [ contradiction | ].
    destruct (engineStateFromString typeSend) as [typeRequest | ] eqn:Htype;
      [ | eexists; reflexivity ].
    apply engineStateFromString_Some in Htype.
    destruct typeRequest; simpl in Htype;
      try (eexists; reflexivity);
      exfalso; apply Hnot; rewrite <- Htype; simpl; tauto.
  - intros [H | H]; unfold typeSend; rewrite H; reflexivity.
Qed.

(** ** Pause and stop *)

(** C5. When a pauseRequested or stopRequested document arrives: if the
    engine state is analysis, the status of the analysis is set to aborted,
    the engine goes to paused, respectively stopped, and sends that
    response; if the state is filter or computeColumn, an exception is
    thrown, the engine neither changes state nor status and sends no
    response; in every other state the status is left as it is, no
    exception is thrown, and the engine goes to paused, respectively
    stopped, and sends that response. *)
Theorem pause_stop_requested (stop : bool) timeout jsonRequest rest e :
  channel_in e = Some (Document jsonRequest) :: rest ->
  rq_typeRequest jsonRequest
  = Some (if stop then "stopRequested" else "pauseRequested") ->
  let target := if stop then engineState.stopped else engineState.paused in
  let o := receiveMessages timeout e in
  (_engineState e = engineState.analysis ->
   returns o = true
   /\ _analysisStatus (state_of o) = Status.aborted
   /\ _engineState (state_of o) = target
   /\ channel_out (state_of o)
      = (channel_out e ++ [onTheWire X ""; sent X (stateResponse target)])%list)
  /\ (_engineState e = engineState.filter
      \/ _engineState e = engineState.computeColumn ->
      o = Throw (unexpectedDataSynch (_engineState e)) (state_of o)
      /\ _engineState (state_of o) = _engineState e
      /\ _analysisStatus (state_of o) = _analysisStatus e
      /\ channel_out (state_of o) = (channel_out e ++ [onTheWire X ""])%list)
  /\ (_engineState e <> engineState.analysis ->
      _engineState e <> engineState.filter ->
      _engineState e <> engineState.computeColumn ->
      returns o = true
      /\ _analysisStatus (state_of o) = _analysisStatus e
      /\ _engineState (state_of o) = target
      /\ channel_out (state_of o)
         = (channel_out e ++ [onTheWire X ""; sent X (stateResponse target)])%list).
Proof.
  intros Hin Htype target o. subst o.
  rewrite (@receiveMessages_document timeout _ _ _ Hin). rewrite Htype.
  destruct stop; subst target; cbn [get]; cbv zeta;
    unfold stopEngine, pauseEngine, sendEngineStopped, sendEnginePaused,
      sendString, channel_send, Log_log, call_, bind, gets, modify, ret, throw;
    cbn -[onTheWire sent stateResponse unexpectedDataSynch app].
  all: destruct (_engineState e) eqn:Hst;
    cbn -[onTheWire sent stateResponse unexpectedDataSynch app].
  all: (split; [ intro H | split; [ intros [H | H] | intros H1 H2 H3 ] ]);
    try discriminate H; try (exfalso; congruence).
  all: repeat split; try reflexivity.
  all: try assumption.
  all: unfold sent; now rewrite <- app_assoc.
Qed.

(** ** Filter *)

(** C7. A filter request returns and leaves the engine idle, whether
    the filter was applied or threw a filterException.  When applying the
    filter throws a filterException, the engine sends the filter-error response:
    an object with typeRequest filter, the message as filterError, and
    the requestId of the request. *)
Theorem filter_error_is_reported jsonRequest e :
  let filter := get (rq_filter jsonRequest) "" in
  let generatedFilter := get (rq_generatedFilter jsonRequest) "" in
  let filterRequestId := get (rq_requestId jsonRequest) (-1) in
  let o := receiveFilterMessage jsonRequest e in
  returns o = true
  /\ _engineState (state_of o) = engineState.idle
  /\ (forall what,
        fst (rbridge_applyFilter X (stripRComments X filter) generatedFilter
               (world e)) = inl what ->
        let errorMessage :=
          if String.eqb what ""
          then "Something went wrong with the filter but it is unclear what."
          else what in
        let response := filterErrorResponse filterRequestId errorMessage in
        channel_out (state_of o) = (channel_out e ++ [sent X response])%list
        /\ JsonValue.at_ response "typeRequest" = JString "filter"
        /\ JsonValue.at_ response "filterError" = JString errorMessage
        /\ JsonValue.at_ response "requestId" = JInt filterRequestId).
Proof.
  intros filter generatedFilter filterRequestId o. subst o.
  unfold receiveFilterMessage, runFilter, sendFilterResult, sendFilterError,
    sendString, channel_send, Log_log, call, bind, gets, modify, ret.
  fold filter generatedFilter filterRequestId.
  destruct (negb (engineState.eqb (_engineState e) engineState.idle));
    cbn -[onTheWire sent filterErrorResponse JsonValue.at_ String.eqb].
  all: destruct (rbridge_applyFilter X (stripRComments X filter)
                   generatedFilter (world e)) as [[what | filterResult] w'];
    cbn -[onTheWire sent filterErrorResponse JsonValue.at_ String.eqb].
  all: (split; [ reflexivity | split; [ reflexivity | ] ]).
  all: intros what' Hw; try discriminate Hw; injection Hw as <-.
  all: destruct what; repeat split; reflexivity.
Qed.

(** ** Messages that arrive while the engine is not idle *)

(** C8, amended. A filter, rCode or computeColumn message that arrives
    while the engine is not idle is logged as unexpected and then handled
    exactly as from the idle state.  A moduleRequest message is handled
    exactly as from the idle state too, but nothing is logged for it. *)
Theorem not_idle_is_tolerated jsonRequest e :
  _engineState e <> engineState.idle ->
  receiveFilterMessage jsonRequest e
  = receiveFilterMessage jsonRequest
      (idleHavingLogged (unexpectedMessage "filter" e) e)
  /\ receiveRCodeMessage jsonRequest e
     = receiveRCodeMessage jsonRequest
         (idleHavingLogged (unexpectedMessage "rCode" e) e)
  /\ receiveComputeColumnMessage jsonRequest e
     = receiveComputeColumnMessage jsonRequest
         (idleHavingLogged (unexpectedMessage "compute column" e) e)
  /\ receiveModuleRequestMessage jsonRequest e
     = receiveModuleRequestMessage jsonRequest
         (set_engineState engineState.idle e)
  /\ log (state_of (receiveModuleRequestMessage jsonRequest e)) = log e.
Proof.
  intro Hst.
  assert (Hb : negb (engineState.eqb (_engineState e) engineState.idle) = true).
  { destruct (engineState.eqb (_engineState e) engineState.idle) eqn:Hb;
      [ | reflexivity ].
    apply engineState_eqb_eq in Hb. contradiction. }
  split; [ | split; [ | split; [ | split ] ] ].
  - unfold receiveFilterMessage. unfold bind at 1 3, gets.
    rewrite Hb. reflexivity.
  - unfold receiveRCodeMessage. unfold bind at 1 3, gets.
    rewrite Hb. reflexivity.
  - unfold receiveComputeColumnMessage. unfold bind at 1 3, gets.
    rewrite Hb. reflexivity.
  - reflexivity.
  - reflexivity.
Qed.

(** ** R code *)

Lemma receiveRCodeMessage_eq jsonRequest e :
  receiveRCodeMessage jsonRequest e =
  (if get (rq_returnLog jsonRequest) false
   then runRCodeCommander (get (rq_rCode jsonRequest) "")
   else runRCode (get (rq_rCode jsonRequest) "")
          (get (rq_requestId jsonRequest) (-1))
          (get (rq_whiteListed jsonRequest) true)) (enteredRCode e).
Proof.
  unfold receiveRCodeMessage, enteredRCode, Log_log, bind, gets, modify, ret.
  destruct (negb (engineState.eqb (_engineState e) engineState.idle));
    reflexivity.
Qed.

Lemma rCodeResultResponse_requestId RError rCodeResult rCodeRequestId :
  JsonValue.at_ (rCodeResultResponse RError rCodeResult rCodeRequestId)
    "requestId" = JInt rCodeRequestId.
Proof.
  unfold rCodeResultResponse.
  destruct (0 <? Z.of_nat (String.length RError)); reflexivity.
Qed.

Lemma rCodeErrorResponse_requestId RError rCodeRequestId :
  JsonValue.at_ (rCodeErrorResponse RError rCodeRequestId) "requestId"
  = JInt rCodeRequestId.
Proof. reflexivity. Qed.

(** C10. An rCode request with returnLog true is run by
    [runRCodeCommander]; the response it sends carries requestId -1, and
    neither the requestId nor the whiteListed field of the request has
    any effect.  With returnLog false or absent the request is run by
    [runRCode] and the response carries the requestId of the request. *)
Theorem rCode_returnLog_requestId jsonRequest e :
  let o := receiveRCodeMessage jsonRequest e in
  (rq_returnLog jsonRequest = Some true ->
   o = runRCodeCommander (get (rq_rCode jsonRequest) "") (enteredRCode e)
   /\ returns o = true
   /\ (exists response,
          channel_out (state_of o) = (channel_out e ++ [sent X response])%list
          /\ JsonValue.at_ response "requestId" = JInt (-1))
   /\ (forall requestId whiteListed,
          receiveRCodeMessage
            (withRequestId requestId (withWhiteListed whiteListed jsonRequest)) e
          = o))
  /\ (rq_returnLog jsonRequest = Some false \/ rq_returnLog jsonRequest = None ->
      o = runRCode (get (rq_rCode jsonRequest) "")
            (get (rq_requestId jsonRequest) (-1))
            (get (rq_whiteListed jsonRequest) true) (enteredRCode e)
      /\ returns o = true
      /\ (exists response,
             channel_out (state_of o) = (channel_out e ++ [sent X response])%list
             /\ JsonValue.at_ response "requestId"
                = JInt (get (rq_requestId jsonRequest) (-1)))).
Proof.
  intro o. subst o. split.
  - intro Hlog. split; [ | split; [ | split ] ].
    + rewrite receiveRCodeMessage_eq, Hlog. reflexivity.
    + rewrite receiveRCodeMessage_eq, Hlog. cbn [get].
      unfold runRCodeCommander, sendRCodeResult, sendString, channel_send,
        call, call_, bind, gets, modify, ret.
      destruct (provideDataSet X (world (enteredRCode e))); reflexivity.
    + rewrite receiveRCodeMessage_eq, Hlog. cbn [get].
      unfold runRCodeCommander, sendRCodeResult, sendString, channel_send,
        call, call_, bind, gets, modify, ret.
      destruct (provideDataSet X (world (enteredRCode e)));
        cbn -[onTheWire rCodeResultResponse JsonValue.at_ app];
        (eexists; split;
         [ unfold sent, enteredRCode;
           destruct (negb (engineState.eqb (_engineState e) engineState.idle));
           reflexivity
         | apply rCodeResultResponse_requestId ]).
    + intros requestId whiteListed.
      rewrite !receiveRCodeMessage_eq. cbn [withRequestId withWhiteListed
        rq_returnLog rq_rCode]. rewrite Hlog. reflexivity.
  - intro Hlog.
    assert (Hget : get (rq_returnLog jsonRequest) false = false)
      by (destruct Hlog as [-> | ->]; reflexivity).
    split; [ | split ].
    + rewrite receiveRCodeMessage_eq, Hget. reflexivity.
    + rewrite receiveRCodeMessage_eq, Hget.
      unfold runRCode, sendRCodeResult, sendRCodeError, sendString,
        channel_send, Log_log, call, bind, gets, modify, ret.
      destruct (get (rq_whiteListed jsonRequest) true);
        cbn -[String.eqb];
        match goal with
        | |- context [String.eqb ?a "null"] => destruct (String.eqb a "null")
        end; reflexivity.
    + rewrite receiveRCodeMessage_eq, Hget.
      unfold runRCode, sendRCodeResult, sendRCodeError, sendString,
        channel_send, Log_log, call, bind, gets, modify, ret.
      destruct (get (rq_whiteListed jsonRequest) true);
        cbn -[String.eqb onTheWire rCodeResultResponse rCodeErrorResponse
              JsonValue.at_ app];
        match goal with
        | |- context [String.eqb ?a "null"] => destruct (String.eqb a "null")
        end;
        cbn -[String.eqb onTheWire rCodeResultResponse rCodeErrorResponse
              JsonValue.at_ app];
        (eexists; split;
         [ unfold sent, enteredRCode;
           destruct (negb (engineState.eqb (_engineState e) engineState.idle));
           reflexivity
         | first [ apply rCodeResultResponse_requestId
                 | apply rCodeErrorResponse_requestId ] ]).
Qed.

(** ** The callback *)

Ltac callback_simpl Hst Hknows :=
  repeat (progress
            (cbn -[directive_changed directive_ok directive_aborted
                   String.eqb analysisResponse onTheWire Z.geb];
             rewrite ?Hst, ?Hknows)).

(** C2, amended. Once the callback has polled the channel: if the
    status is then aborted, toInit or toRun, it returns the aborted
    directive in the very state the poll left, so nothing is sent for the
    payload.  If the status is changed and the runtime has not been told
    yet, it sets the flag and returns the changed directive with the
    options of the snapshot.  If the status is changed and the runtime was
    told by an earlier callback, the status goes back to running, the flag
    is cleared and the directive is ok.  For every other status the
    directive is ok. *)
Theorem callback_directive results progress received e e1 :
  receiveMessages 0 e = Ret received e1 ->
  let o := callback results progress e in
  (In (_analysisStatus e1) [Status.aborted; Status.toInit; Status.toRun] ->
   o = Ret directive_aborted e1)
  /\ (_analysisStatus e1 = Status.changed ->
      _currentAnalysisKnowsAboutChange e1 = false ->
      exists e2,
        o = Ret (directive_changed (_analysisOptions (pending e1))) e2
        /\ _currentAnalysisKnowsAboutChange e2 = true
        /\ _analysisStatus e2 = Status.changed
        /\ pending e2 = pending e1)
  /\ (_analysisStatus e1 = Status.changed ->
      _currentAnalysisKnowsAboutChange e1 = true ->
      exists e2,
        o = Ret directive_ok e2
        /\ _currentAnalysisKnowsAboutChange e2 = false
        /\ _analysisStatus e2 = Status.running)
  /\ (~ In (_analysisStatus e1)
          [Status.aborted; Status.toInit; Status.toRun; Status.changed] ->
      exists e2,
        o = Ret directive_ok e2
        /\ _currentAnalysisKnowsAboutChange e2
           = _currentAnalysisKnowsAboutChange e1
        /\ _analysisStatus e2 = _analysisStatus e1).
Proof.
  intros Hpoll o.
  assert (Ho : o = directiveAfterPoll results progress e1)
    by (subst o; unfold callback, bind; now rewrite Hpoll).
  clearbody o. subst o.
  unfold directiveAfterPoll, sendAnalysisResults, parseAnalysisResults,
    sendString, channel_send, bind, gets, modify, ret.
  cbv beta.
  split; [ | split; [ | split ] ].
  - intro Hin. simpl in Hin.
    destruct Hin as [H | [H | [H | []]]]; rewrite <- H; reflexivity.
  - intros Hst Hknows. callback_simpl Hst Hknows.
    destruct (negb (String.eqb results "null")); callback_simpl Hst Hknows;
      [ | destruct (progress >=? 0); callback_simpl Hst Hknows ];
      eexists; repeat split; callback_simpl Hst Hknows; reflexivity.
  - intros Hst Hknows. callback_simpl Hst Hknows.
    destruct (negb (String.eqb results "null")); callback_simpl Hst Hknows;
      [ | destruct (progress >=? 0); callback_simpl Hst Hknows ];
      eexists; repeat split; callback_simpl Hst Hknows; reflexivity.
  - intro Hnot.
    destruct (_analysisStatus e1) eqn:Hst;
      try (exfalso; apply Hnot; simpl; tauto).
    all: callback_simpl Hst Hst.
    all: destruct (negb (String.eqb results "null")); callback_simpl Hst Hst;
      [ | destruct (progress >=? 0); callback_simpl Hst Hst ];
      eexists; repeat split; callback_simpl Hst Hst; reflexivity.
Qed.

(** ** Return of the runtime *)

Lemma runAnalysis_handsToRuntime e :
  handsToRuntime e = true ->
  runAnalysis e =
  match atRuntimeReturn e with
  | Ret _ e1 => onRuntimeReturn e1
  | Throw x e1 => Throw x e1
  end.
Proof.
  unfold handsToRuntime. intro H.
  apply negb_true_iff in H.
  repeat (apply orb_false_iff in H; destruct H as [H ?]).
  unfold runAnalysis, atRuntimeReturn, onRuntimeReturn.
  unfold bind at 1 2 3 4 5. unfold gets, Log_log, modify.
  cbn [_analysisStatus set_log].
  repeat match goal with
         | Hb : Status.eqb _ _ = false |- _ => rewrite Hb; clear Hb
         end.
  cbn [orb].
  unfold bind at 1. reflexivity.
Qed.

Lemma TempFiles_deleted (id : Z) (tf : TempFiles.t) :
  TempFiles.retrieveList id
    (TempFiles.deleteList (TempFiles.retrieveList id tf) tf) = [].
Proof.
  unfold TempFiles.retrieveList, TempFiles.deleteList.
  match goal with |- map snd ?l = [] => assert (Hnil : l = []) end;
    [ | now rewrite Hnil ].
  match goal with |- ?l = [] => destruct l as [ | f rest] eqn:Hl end;
    [ reflexivity | exfalso ].
  assert (Hin : In f (f :: rest)) by now left.
  rewrite <- Hl in Hin.
  apply filter_In in Hin. destruct Hin as [Hin Hid].
  apply filter_In in Hin. destruct Hin as [Hin Hkept].
  apply negb_true_iff in Hkept.
  assert (Hex : existsb (String.eqb (snd f))
                  (map snd (filter (fun f0 => fst f0 =? id) tf)) = true).
  { apply existsb_exists. exists (snd f). split; [ | apply String.eqb_refl ].
    apply in_map. apply filter_In. split; assumption. }
  rewrite Hex in Hkept. discriminate.
Qed.

(** C4, amended. When the runtime returns from [runAnalysis] with the
    status changed, and the runtime was not told of the change or it
    returned the string null, [runAnalysis] returns with the status toInit
    and sends nothing.  The temp files of the analysis id are deleted when
    the returned string is null; when it is not, they are left as they
    are. *)
Theorem runAnalysis_changed_restarts e e1 :
  handsToRuntime e = true ->
  atRuntimeReturn e = Ret tt e1 ->
  _analysisStatus e1 = Status.changed ->
  _currentAnalysisKnowsAboutChange e1 = false
  \/ _analysisResultsString e1 = "null" ->
  let restarted := set_analysisStatus Status.toInit e1 in
  let o := runAnalysis e in
  returns o = true
  /\ _analysisStatus (state_of o) = Status.toInit
  /\ channel_out (state_of o) = channel_out e1
  /\ (_analysisResultsString e1 = "null" ->
      o = Ret tt
            (set_tempFiles
               (TempFiles.deleteList
                  (TempFiles.retrieveList (_analysisId e1) (tempFiles e1))
                  (tempFiles e1)) restarted)
      /\ TempFiles.retrieveList (_analysisId e1) (tempFiles (state_of o)) = [])
  /\ (_analysisResultsString e1 <> "null" -> o = Ret tt restarted).
Proof.
  intros Hhands Hret Hst Hwhy restarted o.
  assert (Ho : o = afterRuntimeReturned e1).
  { subst o. rewrite (runAnalysis_handsToRuntime e Hhands), Hret.
    unfold onRuntimeReturn. unfold bind at 1 2 3. unfold gets.
    rewrite Hst. cbn [Status.eqb orb]. rewrite andb_false_r.
    reflexivity. }
  clearbody o. subst o restarted.
  unfold afterRuntimeReturned, bind, gets, modify, ret.
  rewrite Hst. cbn [Status.eqb orb andb].
  destruct (String.eqb_spec (_analysisResultsString e1) "null") as [Hnull | Hnull].
  - rewrite orb_true_r. cbn [returns state_of].
    split; [ reflexivity | split; [ reflexivity | split; [ reflexivity | ] ] ].
    split.
    + intros _. split; [ reflexivity | ]. cbn. apply TempFiles_deleted.
    + intro H. contradiction.
  - destruct Hwhy as [Hknows | Hnull']; [ | contradiction ].
    rewrite Hknows. cbn [Bool.eqb orb returns state_of].
    split; [ reflexivity | split; [ reflexivity | split; [ reflexivity | ] ] ].
    split.
    + intro H. contradiction.
    + intros _. reflexivity.
Qed.

End Properties.

(** * The theorems at work, and where the engine differs *)

Import Toy.

Ltac split_all := repeat match goal with |- _ /\ _ => split end.

(** An analysis request for a new analysis, received while idle, gives
    that analysis the status toRun. *)
Lemma receiveAnalysisMessage_status_witness :
  exists e',
    receiveAnalysisMessage (analysisRequest 7 "run" "Ttest" None) idle = Ret tt e'
    /\ _analysisId e' = 7
    /\ _analysisStatus e' = Status.toRun.
Proof.
  destruct (@receiveAnalysisMessage_status quiet
              (analysisRequest 7 "run" "Ttest" None) idle
              (or_introl eq_refl))
    as [e' [Heq [_ Hnew]]].
  exists e'. split; [ exact Heq | ].
  assert (Hdiff : ~ (get (rq_id (analysisRequest 7 "run" "Ttest" None)) (-1)
                     = _analysisId idle
                     /\ _analysisStatus idle = Status.running))
    by (intros [H _]; discriminate H).
  destruct (Hnew Hdiff) as [Hid [_ [Hrun _]]].
  split; [ exact Hid | exact (Hrun eq_refl) ].
Defined.

(** The same request is captured as the snapshot. *)
Lemma receiveAnalysisMessage_snapshot_witness :
  exists e',
    receiveAnalysisMessage (analysisRequest 7 "run" "Ttest" None) idle = Ret tt e'
    /\ _analysisName (pending e') = "Ttest".
Proof.
  destruct (@receiveAnalysisMessage_snapshot quiet
              (analysisRequest 7 "run" "Ttest" None) idle
              (or_introl eq_refl))
    as [e' [Heq [Hin [Hout _]]]].
  exists e'. split; [ exact Heq | ].
  assert (Hst : _analysisStatus e' = Status.toRun).
  { rewrite (receiveAnalysisMessage_accepted
               (analysisRequest 7 "run" "Ttest" None)
               (or_introl eq_refl : acceptsAnalysis idle)) in Heq.
    injection Heq as <-. reflexivity. }
  rewrite Hin; [ reflexivity | ].
  rewrite Hst. simpl. tauto.
Defined.

(** C3, as stated, fails: analysis 1 is running with the snapshot of
    [requestA]; a request for the same id with perform run takes the
    branch of the running analysis and yields changed, and the snapshot
    is then the one of the new request, not the one of the running
    request. *)
Lemma changed_request_is_recaptured :
  let e := runningEngine quietScript 1 requestA in
  let jsonRequest := requestC in
  let e' := state_of (receiveAnalysisMessage jsonRequest e) in
  get (rq_id jsonRequest) (-1) = _analysisId e
  /\ _analysisStatus e = Status.running
  /\ _analysisStatus e' = Status.changed
  /\ _analysisName (pending e) = "A"
  /\ _analysisName (pending e') = "C"
  /\ pending e' <> pending e.
Proof.
  cbv zeta. repeat split; try reflexivity.
  intro H. apply (f_equal _analysisName) in H. vm_compute in H. discriminate H.
Qed.

(** The callback of a runtime that has not been told of the change
    returns the changed directive and sets the flag. *)
Lemma callback_directive_witness :
  exists e2,
    callback "null" (-1) notToldOfChange
    = Ret (directive_changed (_analysisOptions (pending notToldOfChange))) e2
    /\ _currentAnalysisKnowsAboutChange e2 = true.
Proof.
  destruct (@callback_directive quiet "null" (-1) false notToldOfChange
              notToldOfChange eq_refl)
    as [_ [Hchanged _]].
  destruct (Hchanged eq_refl eq_refl) as [e2 [Heq [Hknows _]]].
  exists e2. split; assumption.
Defined.

(** C2, as stated, fails: after the poll the status is changed, yet the
    callback returns the ok directive and leaves the flag cleared, because
    the runtime had been told by an earlier callback. *)
Lemma callback_of_told_runtime_is_ok :
  receiveMessages 0 toldOfChange = Ret false toldOfChange
  /\ _analysisStatus toldOfChange = Status.changed
  /\ exists e2,
       callback "null" (-1) toldOfChange = Ret directive_ok e2
       /\ _currentAnalysisKnowsAboutChange e2 = false
       /\ _analysisStatus e2 = Status.running
       /\ directive_ok
          <> directive_changed (_analysisOptions (pending toldOfChange)).
Proof.
  split; [ reflexivity | split; [ reflexivity | ] ].
  eexists. split; [ vm_compute; reflexivity | ].
  split; [ reflexivity | split; [ reflexivity | ] ].
  apply String.eqb_neq. vm_compute. reflexivity.
Qed.

(** A runtime that learns of the change only through the poll function
    and returns null: the analysis is restarted and its temp files are
    deleted. *)
Lemma runAnalysis_changed_restarts_witness :
  _analysisStatus (state_of (runAnalysis (aboutToRun "null"))) = Status.toInit
  /\ TempFiles.retrieveList 1
       (tempFiles (state_of (runAnalysis (aboutToRun "null")))) = [].
Proof.
  assert (Hhands : handsToRuntime (aboutToRun "null") = true)
    by (vm_compute; reflexivity).
  assert (Hret : atRuntimeReturn (aboutToRun "null")
                 = Ret tt (state_of (atRuntimeReturn (aboutToRun "null"))))
    by (vm_compute; reflexivity).
  assert (Hst : _analysisStatus (state_of (atRuntimeReturn (aboutToRun "null")))
                = Status.changed)
    by (vm_compute; reflexivity).
  assert (Hknows : _currentAnalysisKnowsAboutChange
                     (state_of (atRuntimeReturn (aboutToRun "null"))) = false)
    by (vm_compute; reflexivity).
  assert (Hnull : _analysisResultsString
                    (state_of (atRuntimeReturn (aboutToRun "null"))) = "null")
    by (vm_compute; reflexivity).
  assert (Hid : _analysisId (state_of (atRuntimeReturn (aboutToRun "null"))) = 1)
    by (vm_compute; reflexivity).
  destruct (runAnalysis_changed_restarts (aboutToRun "null") Hhands Hret Hst
              (or_introl Hknows))
    as [_ [Hinit [_ [Hdeleted _]]]].
  split; [ exact Hinit | ].
  rewrite <- Hid. exact (proj2 (Hdeleted Hnull)).
Defined.

(** C4, as stated, fails: the runtime returns with the status changed
    without having been told of the change, and what it returns is not
    null; the analysis is restarted, nothing is sent, but the temp file of
    the analysis is still there. *)
Lemma restart_without_null_keeps_temp_files :
  let e := aboutToRun "{}" in
  let e1 := state_of (atRuntimeReturn e) in
  let o := runAnalysis e in
  atRuntimeReturn e = Ret tt e1
  /\ _analysisStatus e1 = Status.changed
  /\ _currentAnalysisKnowsAboutChange e1 = false
  /\ _analysisStatus (state_of o) = Status.toInit
  /\ channel_out (state_of o) = channel_out e1
  /\ TempFiles.retrieveList (_analysisId e1) (tempFiles (state_of o))
     = ["resources/1/plot.png"].
Proof. cbv zeta. split_all; vm_compute; reflexivity. Qed.

(** A pause request that arrives while analysis 1 is running aborts the
    analysis and pauses the engine. *)
Lemma pause_stop_requested_witness :
  let e := received (bareRequest "pauseRequested")
             (runningEngine quietScript 1 requestA) in
  _analysisStatus (state_of (receiveMessages 0 e)) = Status.aborted
  /\ _engineState (state_of (receiveMessages 0 e)) = engineState.paused.
Proof.
  cbv zeta.
  destruct (@pause_stop_requested quiet false 0
              (bareRequest "pauseRequested") []
              (received (bareRequest "pauseRequested")
                 (runningEngine quietScript 1 requestA))
              eq_refl eq_refl)
    as [Hanalysis _].
  destruct (Hanalysis eq_refl) as [_ [Hst [Hpaused _]]].
  split; assumption.
Defined.

(** The name of a state that has no handler, sent as a request type,
    makes the dispatch throw. *)
Lemma receiveMessages_unhandled_type_witness :
  exists x e',
    receiveMessages 0 (received (bareRequest "paused") idle) = Throw x e'.
Proof.
  destruct (@receiveMessages_unhandled_type quiet 0 (bareRequest "paused") []
              (received (bareRequest "paused") idle) eq_refl)
    as [Hthrows _].
  assert (Hne : get (rq_typeRequest (bareRequest "paused")) "" <> "")
    by (apply String.eqb_neq; reflexivity).
  assert (Hnot : ~ In (get (rq_typeRequest (bareRequest "paused")) "")
                     handledRequestTypes).
  { simpl. intros H.
    repeat (destruct H as [H | H]; [ discriminate H | ]). exact H. }
  destruct (Hthrows Hne Hnot) as [x Hx].
  exists x. eexists. exact Hx.
Defined.

(** A filter request that arrives while the engine is in the state
    analysis is logged and answered. *)
Lemma not_idle_is_tolerated_witness :
  let e := runningEngine quietScript 1 requestA in
  receiveFilterMessage (filterRequest "x > 1" 4) e
  = receiveFilterMessage (filterRequest "x > 1" 4)
      (idleHavingLogged (unexpectedMessage "filter" e) e).
Proof.
  cbv zeta.
  assert (Hst : _engineState (runningEngine quietScript 1 requestA)
                <> engineState.idle)
    by (intro H; discriminate H).
  exact (proj1 (@not_idle_is_tolerated quiet (filterRequest "x > 1" 4)
                  (runningEngine quietScript 1 requestA) Hst)).
Defined.

(** C8, as stated, fails for moduleRequest: the message arrives while
    the engine is in the state analysis, it is answered, and nothing has
    been written to the log, whereas a filter message in that state is
    logged. *)
Lemma moduleRequest_is_not_logged :
  let e := runningEngine quietScript 1 requestA in
  let o := receiveModuleRequestMessage (moduleRequest "install()") e in
  _engineState e = engineState.analysis
  /\ log e = []
  /\ returns o = true
  /\ length (channel_out (state_of o)) = 1%nat
  /\ log (state_of o) = []
  /\ log (state_of (receiveFilterMessage (filterRequest "x > 1" 4) e))
     = ["Unexpected filter message, current state is not idle (analysis)"].
Proof. cbv zeta. split_all; vm_compute; reflexivity. Qed.

(** C9, as stated, fails: [requestA] is captured with the flag true and
    its analysis is handed to the runtime; during the run the callback
    receives [requestB] for the same analysis, which is captured with the
    flag false; when [runAnalysis] returns the flag is false. *)
Lemma flag_is_recaptured_during_run :
  let captured := state_of (receiveMessages 100 twoRequests) in
  let finished := state_of (runAnalysis captured) in
  _analysisStatus captured = Status.toRun
  /\ _analysisName (pending captured) = "A"
  /\ _analysisJaspResults (pending captured) = true
  /\ channel_in captured = [Some (Document requestB)]
  /\ returns (runAnalysis captured) = true
  /\ _analysisJaspResults (pending finished) = false.
Proof. cbv zeta. split_all; vm_compute; reflexivity. Qed.

(** ** The engine at work *)

(** The scenario of the spec: a run request for analysis 7 arrives while
    the engine is idle.  The engine goes to the state analysis with the
    status toRun; [runAnalysis] then runs it, sends one response with the
    status complete and leaves the engine idle with no analysis. *)
Example analysis_is_run_and_answered :
  let requested :=
    state_of (receiveMessages 100
                (received (analysisRequest 7 "run" "Ttest" None) idle)) in
  let finished := state_of (runAnalysis requested) in
  (_engineState requested, _analysisStatus requested, _analysisId requested)
  = (engineState.analysis, Status.toRun, 7)
  /\ (_engineState finished, _analysisStatus finished)
     = (engineState.idle, Status.empty)
  /\ channel_out finished
     = [""; "{typeRequest:'analysis',id:7,name:'Ttest',revision:-1,progress:-1,results:null,status:'complete',}"].
Proof. cbv zeta. split_all; vm_compute; reflexivity. Qed.

(** A filter that throws is answered with a filter error and the engine
    is idle again. *)
Example throwing_filter_is_answered :
  let o := receiveMessages 100 (received (filterRequest "stop()" 4) idle) in
  returns o = true
  /\ _engineState (state_of o) = engineState.idle
  /\ channel_out (state_of o)
     = [""; "{typeRequest:'filter',filterError:'stop() called',requestId:4,}"].
Proof. cbv zeta. split_all; vm_compute; reflexivity. Qed.

(** R code with returnLog is answered with requestId -1, whatever the
    requestId of the request. *)
Example returnLog_is_answered_with_minus_one :
  let o := receiveMessages 100
             (received (rCodeRequest "1+1" (Some 12) (Some false) (Some true))
                idle) in
  channel_out (state_of o)
  = [""; "{typeRequest:'rCode',rCodeResult:'1+1',requestId:-1,}"].
Proof. cbv zeta. vm_compute. reflexivity. Qed.

(** * Further properties *)

Section Further.

Variable X : Externals.
Implicit Types (e : Engine X) (jsonRequest : Request).

(** ** Rules for [keeps], [ensures] and [maintains] *)

Lemma keeps_ret {T A} (f : Engine X -> T) (a : A) : keeps f (@ret X A a).
Proof. intro e. reflexivity. Qed.

Lemma keeps_throw {T A} (f : Engine X -> T) (x : exn) :
  keeps f (@throw X A x).
Proof. intro e. reflexivity. Qed.

Lemma keeps_gets {T A} (f : Engine X -> T) (g : Engine X -> A) :
  keeps f (gets g).
Proof. intro e. reflexivity. Qed.

Lemma keeps_modify {T} (f : Engine X -> T) (g : Engine X -> Engine X) :
  (forall e, f (g e) = f e) -> keeps f (modify g).
Proof. intros H e. apply H. Qed.

Lemma keeps_bind {T A B} (f : Engine X -> T) (m : M X A) (k : A -> M X B) :
  keeps f m -> (forall a, keeps f (k a)) -> keeps f (bind m k).
Proof.
  intros Hm Hk e. unfold bind. specialize (Hm e).
  destruct (m e) as [a e' | x e']; cbn [state_of] in *.
  - now rewrite Hk.
  - exact Hm.
Qed.

Lemma ensures_throw {A} (Q : Engine X -> Prop) (x : exn) :
  ensures Q (@throw X A x).
Proof. intros e H. discriminate H. Qed.

Lemma ensures_bind {A B} (Q : Engine X -> Prop) (m : M X A) (k : A -> M X B) :
  (forall a, ensures Q (k a)) -> ensures Q (bind m k).
Proof.
  intros Hk e. unfold bind.
  destruct (m e) as [a e' | x e']; [ apply Hk | intro H; discriminate H ].
Qed.

Lemma maintains_bind {A B} (Q : Engine X -> Prop) (m : M X A)
    (k : A -> M X B) :
  maintains Q m -> (forall a, maintains Q (k a)) -> maintains Q (bind m k).
Proof.
  intros Hm Hk e He. unfold bind. specialize (Hm e He).
  destruct (m e) as [a e' | x e']; [ | intro H; discriminate H ].
  intro H. apply (Hk a e'); [ now apply Hm | exact H ].
Qed.

Lemma ensures_maintains {A} (Q : Engine X -> Prop) (m : M X A) :
  ensures Q m -> maintains Q m.
Proof. intros H e _. apply H. Qed.

Lemma keeps_maintains {T A} (f : Engine X -> T) (Q : Engine X -> Prop)
    (m : M X A) :
  (forall e e', f e' = f e -> Q e -> Q e') -> keeps f m -> maintains Q m.
Proof. intros Hf Hm e He _. exact (Hf e _ (Hm e) He). Qed.

Lemma keeps_call {T A} (f : Engine X -> T) (g : World X -> A * World X) :
  (forall w e, f (set_world w e) = f e) -> keeps f (call g).
Proof. intros H e. apply H. Qed.

(** One step of a proof that [f] is kept. *)
Ltac keeps_step :=
  first
    [ apply keeps_bind; [ | intro ]
    | apply keeps_ret
    | apply keeps_throw
    | apply keeps_gets
    | apply keeps_call; intros; reflexivity
    | apply keeps_modify; intro;
      repeat match goal with
             | |- context [if ?b then _ else _] => destruct b
             end; reflexivity
    | match goal with
      | |- keeps _ (if ?b then _ else _) => destruct b
      | |- keeps _ (match ?x with _ => _ end) => destruct x
      end ].

(** The functions that are made of [modify] and [bind] alone are
    unfolded to them. *)
Ltac keeps_auto :=
  unfold sendString, channel_send, Log_log, call_,
    sendAnalysisResults, parseAnalysisResults;
  cbv zeta; repeat keeps_step.

(** The handlers, unfolded to the functions they call. *)
Ltac unfold_handlers :=
  unfold receiveFilterMessage, runFilter, sendFilterResult, sendFilterError,
    receiveRCodeMessage, runRCode, runRCodeCommander, sendRCodeResult,
    sendRCodeError, receiveComputeColumnMessage, runComputeColumn,
    receiveModuleRequestMessage, pauseEngine, stopEngine, sendEnginePaused,
    sendEngineStopped, resumeEngine, sendEngineResumed, receiveLogCfg,
    receiveSettings, absorbSettings.

Lemma keeps_channel_receive {T} (f : Engine X -> T) timeout :
  (forall c e, f (set_channel_in c e) = f e) ->
  keeps f (@channel_receive X timeout).
Proof.
  intros H e. unfold channel_receive.
  destruct (channel_in e); [ reflexivity | apply H ].
Qed.

(** ** What dispatch never touches *)

(** X1. Whatever message arrives, and whether it is handled or makes the
    dispatch throw, [receiveMessages] leaves the temp files, the progress,
    the result string, the parsed results and the flag of the runtime
    having been told as they were. *)
Theorem receiveMessages_keeps_analysisData timeout e :
  analysisData (state_of (receiveMessages timeout e)) = analysisData e.
Proof.
  revert e. change (keeps (@analysisData X) (@receiveMessages X timeout)).
  unfold receiveMessages.
  apply keeps_bind; [ apply keeps_channel_receive; reflexivity | intro received ].
  unfold receiveAnalysisMessage. unfold_handlers. keeps_auto.
Qed.

(** ** The engine states the engine rests in *)

Lemma ensures_modify_set {st : engineState.t} :
  ensures (fun e => _engineState e = st) (modify (@set_engineState X st)).
Proof. intros e _. reflexivity. Qed.

Lemma ensures_set_then_keeps {B} (st : engineState.t) (k : unit -> M X B) :
  (forall a, keeps (@_engineState X) (k a)) ->
  ensures (fun e => _engineState e = st)
    (bind (modify (@set_engineState X st)) k).
Proof.
  intros Hk e _. unfold bind, modify. now rewrite Hk.
Qed.

Ltac lands_step :=
  first
    [ apply ensures_set_then_keeps; intro; solve [ keeps_auto ]
    | apply ensures_modify_set
    | apply ensures_throw
    | apply ensures_bind; intro
    | match goal with
      | |- ensures _ (if ?b then _ else _) => destruct b
      | |- ensures _ (match ?x with _ => _ end) => destruct x
      end ].

Ltac lands_auto := cbv zeta; repeat lands_step.

Lemma handlers_land_idle jsonRequest :
  ensures (fun e => _engineState e = engineState.idle)
    (@receiveFilterMessage X jsonRequest)
  /\ ensures (fun e => _engineState e = engineState.idle)
       (@receiveRCodeMessage X jsonRequest)
  /\ ensures (fun e => _engineState e = engineState.idle)
       (@receiveComputeColumnMessage X jsonRequest)
  /\ ensures (fun e => _engineState e = engineState.idle)
       (@receiveModuleRequestMessage X jsonRequest)
  /\ ensures (fun e => _engineState e = engineState.idle)
       (@resumeEngine X jsonRequest)
  /\ ensures (fun e => _engineState e = engineState.idle)
       (@receiveLogCfg X jsonRequest)
  /\ ensures (fun e => _engineState e = engineState.idle)
       (@receiveSettings X jsonRequest).
Proof.
  repeat match goal with |- _ /\ _ => split end;
    unfold_handlers; lands_auto.
Qed.

Lemma pause_stop_land :
  ensures (fun e => _engineState e = engineState.paused) (@pauseEngine X)
  /\ ensures (fun e => _engineState e = engineState.stopped) (@stopEngine X).
Proof. split; unfold_handlers; lands_auto. Qed.

Lemma images_land_idle :
  ensures (fun e => _engineState e = engineState.idle) (@saveImage X)
  /\ ensures (fun e => _engineState e = engineState.idle) (@editImage X)
  /\ ensures (fun e => _engineState e = engineState.idle) (@rewriteImages X).
Proof.
  repeat match goal with |- _ /\ _ => split end;
    unfold saveImage, editImage, rewriteImages; lands_auto.
Qed.

Lemma ensures_then_ret {A B} (Q : Engine X -> Prop) (m : M X A) (b : B) :
  ensures Q m -> ensures Q (bind m (fun _ => ret b)).
Proof.
  intros Hm e. unfold bind, ret. specialize (Hm e).
  destruct (m e) as [a e' | x e']; cbn [returns state_of] in *;
    [ exact Hm | intro H; discriminate H ].
Qed.

Lemma resting_of_state e e' :
  _engineState e' = _engineState e -> resting e -> resting e'.
Proof. unfold resting. intros ->. exact (fun H => H). Qed.

Lemma resting_in (st : engineState.t) e :
  _engineState e = st ->
  In st [engineState.idle; engineState.analysis; engineState.paused;
         engineState.stopped] ->
  resting e.
Proof. unfold resting. intros ->. exact (fun H => H). Qed.

Lemma receiveAnalysisMessage_resting jsonRequest :
  maintains (@resting X) (receiveAnalysisMessage jsonRequest).
Proof.
  intros e He Hret.
  assert (Hdec : acceptsAnalysis e \/ ~ acceptsAnalysis e).
  { unfold acceptsAnalysis. destruct (_engineState e);
      first [ left; tauto | right; intros [H | H]; discriminate ]. }
  destruct Hdec as [Hacc | Hacc].
  - rewrite (receiveAnalysisMessage_accepted jsonRequest Hacc). cbv zeta.
    cbn [state_of].
    destruct (capturesRequest (_analysisStatus (retargeted jsonRequest e))).
    + apply (@resting_in engineState.analysis); [ reflexivity | simpl; tauto ].
    + apply (resting_of_state (e := e)); [ | exact He ].
      unfold retargeted.
      destruct ((get (rq_id jsonRequest) (-1) =? _analysisId e)
                && Status.eqb (_analysisStatus e) Status.running);
        reflexivity.
  - destruct (receiveAnalysisMessage_refused jsonRequest Hacc) as [what Hthrow].
    rewrite Hthrow in Hret. discriminate Hret.
Qed.

Lemma receiveMessages_resting timeout :
  maintains (@resting X) (receiveMessages timeout).
Proof.
  intros e He Hret.
  destruct (channel_in e) as [ | [[ | jsonRequest] | ] rest] eqn:Hin;
    try (unfold receiveMessages, channel_receive, bind; rewrite Hin;
         cbn [state_of]; exact He).
  rewrite (@receiveMessages_document X timeout _ _ _ Hin) in *.
  cbv zeta in *.
  assert (Hd : resting (dispatched rest e)) by exact He.
  revert Hd Hret. generalize (dispatched rest e). clear e He Hin.
  intros e He Hret.
  destruct (String.eqb (get (rq_typeRequest jsonRequest) "") "");
    [ exact He | ].
  destruct (engineStateFromString (get (rq_typeRequest jsonRequest) ""))
    as [typeRequest | ]; [ | discriminate Hret ].
  destruct (handlers_land_idle jsonRequest)
    as [Hfilter [HrCode [Hcolumn [Hmodule [Hresume [HlogCfg Hsettings]]]]]].
  destruct pause_stop_land as [Hpause Hstop].
  destruct typeRequest; cbv iota in Hret |- *;
    lazymatch type of Hret with
    | returns (Throw _ _) = true => discriminate Hret
    | _ => idtac
    end;
    lazymatch goal with
    | |- resting (state_of (bind (receiveAnalysisMessage _) _ _)) => idtac
    | |- resting (state_of (bind (@pauseEngine _) _ _)) =>
        apply (@resting_in engineState.paused);
          [ exact (ensures_then_ret false Hpause e Hret) | simpl; tauto ]
    | |- resting (state_of (bind (@stopEngine _) _ _)) =>
        apply (@resting_in engineState.stopped);
          [ exact (ensures_then_ret false Hstop e Hret) | simpl; tauto ]
    | |- resting (state_of (bind (receiveFilterMessage _) _ _)) =>
        apply (@resting_in engineState.idle);
          [ exact (ensures_then_ret false Hfilter e Hret) | simpl; tauto ]
    | |- resting (state_of (bind (receiveRCodeMessage _) _ _)) =>
        apply (@resting_in engineState.idle);
          [ exact (ensures_then_ret false HrCode e Hret) | simpl; tauto ]
    | |- resting (state_of (bind (receiveComputeColumnMessage _) _ _)) =>
        apply (@resting_in engineState.idle);
          [ exact (ensures_then_ret false Hcolumn e Hret) | simpl; tauto ]
    | |- resting (state_of (bind (receiveModuleRequestMessage _) _ _)) =>
        apply (@resting_in engineState.idle);
          [ exact (ensures_then_ret false Hmodule e Hret) | simpl; tauto ]
    | |- resting (state_of (bind (resumeEngine _) _ _)) =>
        apply (@resting_in engineState.idle);
          [ exact (ensures_then_ret false Hresume e Hret) | simpl; tauto ]
    | |- resting (state_of (bind (receiveLogCfg _) _ _)) =>
        apply (@resting_in engineState.idle);
          [ exact (ensures_then_ret false HlogCfg e Hret) | simpl; tauto ]
    | |- resting (state_of (bind (receiveSettings _) _ _)) =>
        apply (@resting_in engineState.idle);
          [ exact (ensures_then_ret false Hsettings e Hret) | simpl; tauto ]
    end.
  apply (@maintains_bind _ _ (@resting X) (receiveAnalysisMessage jsonRequest)
           (fun _ => ret true)); try assumption.
  - apply receiveAnalysisMessage_resting.
  - intros _ e0 He0 _. exact He0.
Qed.

Lemma keeps_maintains_resting {A} (m : M X A) :
  keeps (@_engineState X) m -> maintains (@resting X) m.
Proof.
  apply keeps_maintains. intros e e' H. exact (@resting_of_state e e' H).
Qed.

Lemma ensures_idle_maintains_resting {A} (m : M X A) :
  ensures (fun e => _engineState e = engineState.idle) m ->
  maintains (@resting X) m.
Proof.
  intros H e _ Hret.
  apply (@resting_in engineState.idle); [ exact (H e Hret) | simpl; tauto ].
Qed.

Lemma callback_resting results progress :
  maintains (@resting X) (callback results progress).
Proof.
  unfold callback.
  apply maintains_bind; [ apply receiveMessages_resting | intros _ ].
  apply keeps_maintains_resting. unfold directiveAfterPoll. keeps_auto.
Qed.

Lemma PollMessagesFunctionForJaspResults_resting :
  maintains (@resting X) (@PollMessagesFunctionForJaspResults X).
Proof.
  unfold PollMessagesFunctionForJaspResults.
  apply maintains_bind; [ apply receiveMessages_resting | intros received ].
  apply keeps_maintains_resting. keeps_auto.
Qed.

Lemma runScript_resting (s : Script (World X)) :
  maintains (@resting X) (runScript s).
Proof.
  induction s as [result after | results progress k IH | msg k IH | k IH | f k IH];
    intros e He; cbn [runScript].
  - intros _.
    refine (@keeps_maintains_resting _
              (bind (call_ after) (fun _ => ret result)) _ e He eq_refl).
    keeps_auto.
  - pose proof (callback_resting results progress He) as H.
    destruct (callback results progress e) as [directive e' | x e'];
      [ | intro Hr; discriminate Hr ].
    exact (IH directive e' (H eq_refl)).
  - unfold SendFunctionForJaspresults.
    assert (H : maintains (@resting X) (@sendString X msg))
      by (apply keeps_maintains_resting; keeps_auto).
    specialize (H e He).
    destruct (sendString msg e) as [u e' | x e'];
      [ | intro Hr; discriminate Hr ].
    exact (IH e' (H eq_refl)).
  - pose proof (PollMessagesFunctionForJaspResults_resting He) as H.
    destruct (PollMessagesFunctionForJaspResults e) as [stop e' | x e'];
      [ | intro Hr; discriminate Hr ].
    exact (IH stop e' (H eq_refl)).
  - assert (H : maintains (@resting X) (@provideFileName X f)).
    { apply keeps_maintains_resting. intro e0. unfold provideFileName.
      destruct f; reflexivity. }
    specialize (H e He).
    destruct (provideFileName f e) as [path e' | x e'];
      [ | intro Hr; discriminate Hr ].
    exact (IH path e' (H eq_refl)).
Qed.

Lemma afterRuntimeReturned_resting :
  maintains (@resting X) (@afterRuntimeReturned X).
Proof.
  unfold afterRuntimeReturned.
  do 4 (apply maintains_bind; [ apply keeps_maintains_resting; keeps_auto | intro ]).
  match goal with |- maintains _ (if ?b then _ else _) => destruct b end;
    [ apply keeps_maintains_resting; keeps_auto | ].
  match goal with |- maintains _ (if ?b then _ else _) => destruct b end;
    [ apply keeps_maintains_resting; keeps_auto | ].
  apply ensures_idle_maintains_resting.
  unfold removeNonKeepFiles. lands_auto.
Qed.

Lemma runAnalysis_resting : maintains (@resting X) (@runAnalysis X).
Proof.
  destruct images_land_idle as [Hsave [Hedit Hrewrite]].
  unfold runAnalysis.
  do 5 (apply maintains_bind; [ apply keeps_maintains_resting; keeps_auto | intro ]).
  match goal with |- maintains _ (if ?b then _ else _) => destruct b end;
    [ exact (ensures_idle_maintains_resting Hsave) | ].
  match goal with |- maintains _ (if ?b then _ else _) => destruct b end;
    [ exact (ensures_idle_maintains_resting Hedit) | ].
  match goal with |- maintains _ (if ?b then _ else _) => destruct b end;
    [ exact (ensures_idle_maintains_resting Hrewrite) | ].
  match goal with |- maintains _ (if ?b then _ else _) => destruct b end;
    [ apply ensures_idle_maintains_resting; lands_auto | ].
  apply maintains_bind; [ | intros _ ].
  - unfold runtimeReturns.
    do 5 (apply maintains_bind;
          [ apply keeps_maintains_resting; keeps_auto | intro ]).
    apply maintains_bind; [ apply runScript_resting | intro ].
    apply keeps_maintains_resting; keeps_auto.
  - unfold onRuntimeReturn.
    do 2 (apply maintains_bind;
          [ apply keeps_maintains_resting; keeps_auto | intro ]).
    apply maintains_bind; [ | intros _; apply afterRuntimeReturned_resting ].
    match goal with |- maintains _ (if ?b then _ else _) => destruct b end;
      [ | apply keeps_maintains_resting; keeps_auto ].
    apply maintains_bind; [ apply receiveMessages_resting | intro ].
    apply keeps_maintains_resting; keeps_auto.
Qed.

(** X2. The engine states idle, analysis, paused and stopped are closed
    under the work of the engine: started in one of them, a dispatch, a
    callback of the runtime and a whole [runAnalysis], whatever the
    runtime does and whatever arrives meanwhile, end in one of them when
    they return. *)
Theorem resting_states_are_closed e :
  resting e ->
  (forall timeout,
      returns (receiveMessages timeout e) = true ->
      resting (state_of (receiveMessages timeout e)))
  /\ (forall results progress,
         returns (callback results progress e) = true ->
         resting (state_of (callback results progress e)))
  /\ (returns (runAnalysis e) = true -> resting (state_of (runAnalysis e))).
Proof.
  intro He. split; [ | split ].
  - intro timeout. exact (receiveMessages_resting timeout He).
  - intros results progress. exact (callback_resting results progress He).
  - exact (runAnalysis_resting He).
Qed.

(** ** What [runAnalysis] does with what the runtime returned *)

(** X3. When the runtime returns and the status is then toInit, aborted,
    error or exception, [runAnalysis] returns at once in that very state:
    it polls no message, parses and sends nothing, keeps the temp files
    and leaves the engine state as it is. *)
Theorem runAnalysis_drops_result_silently e e1 :
  handsToRuntime e = true ->
  atRuntimeReturn e = Ret tt e1 ->
  In (_analysisStatus e1)
    [Status.toInit; Status.aborted; Status.error; Status.exception] ->
  runAnalysis e = Ret tt e1.
Proof.
  intros Hhands Hret Hin.
  rewrite (runAnalysis_handsToRuntime e Hhands), Hret.
  unfold onRuntimeReturn, afterRuntimeReturned, bind, gets, ret.
  simpl in Hin. cbv beta.
  destruct Hin as [H | [H | [H | [H | []]]]]; rewrite <- H;
    cbn [Status.eqb orb andb]; rewrite andb_false_r; cbv beta;
    rewrite <- H; reflexivity.
Qed.

Lemma receiveMessages_nothing timeout e :
  channel_in e = [] -> receiveMessages timeout e = Ret false e.
Proof.
  intro H. unfold receiveMessages, channel_receive, bind. now rewrite H.
Qed.

(** X4. When the runtime returns from an analysis that does not use
    jaspResults, the status is still initing or running and no message is
    waiting, [runAnalysis] sends exactly one response, built in the state
    [answered], then leaves the engine idle with the status empty and the
    temp files pruned.  Unless the results name a status themselves, the
    response says inited after an init and complete after a run. *)
Theorem runAnalysis_answers_classic_analysis e e1 :
  handsToRuntime e = true ->
  atRuntimeReturn e = Ret tt e1 ->
  _analysisJaspResults (pending e1) = false ->
  _analysisStatus e1 = Status.initing \/ _analysisStatus e1 = Status.running ->
  channel_in e1 = [] ->
  let response := analysisResponse (answered e1) in
  runAnalysis e
  = Ret tt
      (set_tempFiles (prunedTempFiles e1)
         (set_analysisStatus Status.empty
            (set_engineState engineState.idle
               (set_channel_out (channel_out e1 ++ [sent X response])%list
                  (answered e1)))))
  /\ (JsonValue.isObject (_analysisResults (answered e1))
      && negb (JsonValue.isNull
                 (JsonValue.get (_analysisResults (answered e1)) "status" JNull))
      = false ->
      JsonValue.at_ response "status"
      = JString (match _analysisStatus e1 with
                 | Status.initing => "inited"
                 | _ => "complete"
                 end)).
Proof.
  intros Hhands Hret Hflag Hst Hin response. subst response. split.
  - rewrite (runAnalysis_handsToRuntime e Hhands), Hret.
    unfold onRuntimeReturn. unfold bind at 1 2 3. unfold gets at 1 2.
    rewrite Hflag.
    assert (Hpoll : negb false
                    && (Status.eqb (_analysisStatus e1) Status.initing
                        || Status.eqb (_analysisStatus e1) Status.running)
                    = true)
      by (destruct Hst as [-> | ->]; reflexivity).
    rewrite Hpoll. unfold bind at 1.
    rewrite (receiveMessages_nothing 0 e1 Hin). unfold ret at 1.
    unfold afterRuntimeReturned, removeNonKeepFiles, sendAnalysisResults,
      parseAnalysisResults, sendString, channel_send, bind, gets, modify, ret.
    cbv beta. rewrite Hflag. unfold answered.
    destruct Hst as [Hs | Hs]; rewrite Hs; reflexivity.
  - intro Hnone. unfold analysisResponse. rewrite Hnone.
    unfold getStatusToAnalysisStatus, answered.
    destruct Hst as [Hs | Hs]; rewrite Hs; reflexivity.
Qed.

(** X5. When the runtime returns from an analysis that uses jaspResults
    and the status asks neither for a silent drop nor for a restart,
    [runAnalysis] sends nothing: it parses the results, leaves the engine
    idle with the status empty and prunes the temp files. *)
Theorem runAnalysis_sends_nothing_for_jaspResults e e1 :
  handsToRuntime e = true ->
  atRuntimeReturn e = Ret tt e1 ->
  _analysisJaspResults (pending e1) = true ->
  ~ In (_analysisStatus e1)
      [Status.toInit; Status.aborted; Status.error; Status.exception] ->
  ~ (_analysisStatus e1 = Status.changed
     /\ (_currentAnalysisKnowsAboutChange e1 = false
         \/ _analysisResultsString e1 = "null")) ->
  runAnalysis e
  = Ret tt
      (set_tempFiles (prunedTempFiles e1)
         (set_analysisStatus Status.empty
            (set_engineState engineState.idle
               (set_analysisResults
                  (snd (Json_Reader_parse X (_analysisResultsString e1)))
                  e1)))).
Proof.
  intros Hhands Hret Hflag Hnot Hrestart.
  rewrite (runAnalysis_handsToRuntime e Hhands), Hret.
  unfold onRuntimeReturn. unfold bind at 1 2 3. unfold gets at 1 2.
  rewrite Hflag. cbn [negb andb]. unfold ret at 1.
  unfold afterRuntimeReturned, removeNonKeepFiles, sendAnalysisResults,
    parseAnalysisResults, sendString, channel_send, bind, gets, modify, ret.
  cbv beta. rewrite Hflag.
  assert (Hcond : Status.eqb (_analysisStatus e1) Status.changed
                  && (Bool.eqb (_currentAnalysisKnowsAboutChange e1) false
                      || String.eqb (_analysisResultsString e1) "null")
                  = false).
  { destruct (Status.eqb (_analysisStatus e1) Status.changed) eqn:Hc;
      [ | reflexivity ].
    apply Status_eqb_eq in Hc.
    destruct (_currentAnalysisKnowsAboutChange e1) eqn:Hk;
      [ | exfalso; apply Hrestart; split; [ exact Hc | now left ] ].
    destruct (String.eqb_spec (_analysisResultsString e1) "null") as [Hn | Hn];
      [ exfalso; apply Hrestart; split; [ exact Hc | now right ] | ].
    reflexivity. }
  rewrite Hcond.
  destruct (_analysisStatus e1) eqn:Hs;
    try (exfalso; apply Hnot; simpl; tauto); reflexivity.
Qed.

(** X6. When the runtime returns and the status is toRun, saveImg,
    editImg or rewriteImgs, that is, a request other than an init was
    captured during the run, [runAnalysis] treats what the runtime
    returned as the result: it leaves the engine idle with the status
    empty, so that the captured request is not carried out, and for an
    analysis without jaspResults it sends one response under the id of
    the captured request. *)
Theorem runAnalysis_consumes_request_captured_during_run e e1 :
  handsToRuntime e = true ->
  atRuntimeReturn e = Ret tt e1 ->
  In (_analysisStatus e1)
    [Status.toRun; Status.saveImg; Status.editImg; Status.rewriteImgs] ->
  let o := runAnalysis e in
  returns o = true
  /\ _engineState (state_of o) = engineState.idle
  /\ _analysisStatus (state_of o) = Status.empty
  /\ pending (state_of o) = pending e1
  /\ (_analysisJaspResults (pending e1) = true ->
      channel_out (state_of o) = channel_out e1)
  /\ (_analysisJaspResults (pending e1) = false ->
      exists response,
        channel_out (state_of o) = (channel_out e1 ++ [sent X response])%list
        /\ JsonValue.at_ response "id" = JInt (_analysisId e1)
        /\ JsonValue.at_ response "name" = JString (_analysisName (pending e1))).
Proof.
  intros Hhands Hret Hin o.
  assert (Hpoll : negb (_analysisJaspResults (pending e1))
                  && (Status.eqb (_analysisStatus e1) Status.initing
                      || Status.eqb (_analysisStatus e1) Status.running)
                  = false).
  { simpl in Hin.
    destruct Hin as [H | [H | [H | [H | []]]]]; rewrite <- H;
      apply andb_false_r. }
  assert (Ho : o = afterRuntimeReturned e1).
  { subst o. rewrite (runAnalysis_handsToRuntime e Hhands), Hret.
    unfold onRuntimeReturn. unfold bind at 1 2 3. unfold gets at 1 2.
    rewrite Hpoll. reflexivity. }
  clearbody o. subst o.
  unfold afterRuntimeReturned, removeNonKeepFiles, sendAnalysisResults,
    parseAnalysisResults, sendString, channel_send, bind, gets, modify, ret.
  cbv beta.
  assert (Hfirst : Status.eqb (_analysisStatus e1) Status.toInit
                   || Status.eqb (_analysisStatus e1) Status.aborted
                   || Status.eqb (_analysisStatus e1) Status.error
                   || Status.eqb (_analysisStatus e1) Status.exception = false)
    by (simpl in Hin;
        destruct Hin as [H | [H | [H | [H | []]]]]; rewrite <- H; reflexivity).
  assert (Hsecond : Status.eqb (_analysisStatus e1) Status.changed = false)
    by (simpl in Hin;
        destruct Hin as [H | [H | [H | [H | []]]]]; rewrite <- H; reflexivity).
  rewrite Hfirst, Hsecond. cbn [andb].
  destruct (_analysisJaspResults (pending e1)); cbn [negb returns state_of].
  - repeat match goal with |- _ /\ _ => split end;
      try reflexivity; intro H; discriminate H.
  - repeat match goal with |- _ /\ _ => split end;
      try reflexivity; [ intro H; discriminate H | intros _ ].
    eexists. split; [ reflexivity | split; reflexivity ].
Qed.

(** ** Image requests *)

Lemma JsonValue_lookup_assign key v ms :
  JsonValue.lookup key (JsonValue.assign key v ms) = Some v.
Proof.
  induction ms as [ | [k old] rest IH]; simpl.
  - now rewrite String.eqb_refl.
  - destruct (String.eqb k key) eqn:Hk; simpl; rewrite Hk;
      [ reflexivity | exact IH ].
Qed.

Lemma JsonValue_at_set j key v :
  JsonValue.at_ (JsonValue.set j key v) key = v.
Proof.
  unfold JsonValue.at_, JsonValue.get, JsonValue.set.
  destruct j; simpl; rewrite ?String.eqb_refl; try reflexivity.
  now rewrite JsonValue_lookup_assign.
Qed.

Lemma JsonValue_get_set j key v d :
  JsonValue.get (JsonValue.set j key v) key d = v.
Proof.
  unfold JsonValue.get, JsonValue.set.
  destruct j; simpl; rewrite ?String.eqb_refl; try reflexivity.
  now rewrite JsonValue_lookup_assign.
Qed.

(** The results of a response are the member results of the parsed
    results, or all of them when there is no such member. *)
Lemma analysisResponse_results e :
  JsonValue.at_ (analysisResponse e) "results"
  = JsonValue.get (_analysisResults e) "results" (_analysisResults e).
Proof. reflexivity. Qed.

(** X7. A saveImg, editImg or rewriteImgs request is carried out by
    [runAnalysis] at once: it sends exactly one response, under the id of
    the request and with progress -1, and leaves the engine idle with the
    status empty; the snapshot and the temp files are as before.  The
    response to rewriteImgs has the status imagesRewritten, and the
    results of the response to saveImg hold the image options of the
    request as inputOptions, when what the runtime returned for the image
    is an object or null and so is its member results. *)
Theorem runAnalysis_answers_image_request e :
  In (_analysisStatus e) [Status.saveImg; Status.editImg; Status.rewriteImgs] ->
  let o := runAnalysis e in
  returns o = true
  /\ _engineState (state_of o) = engineState.idle
  /\ _analysisStatus (state_of o) = Status.empty
  /\ pending (state_of o) = pending e
  /\ tempFiles (state_of o) = tempFiles e
  /\ exists response,
       channel_out (state_of o) = (channel_out e ++ [sent X response])%list
       /\ JsonValue.at_ response "id" = JInt (_analysisId e)
       /\ JsonValue.at_ response "progress" = JInt (-1)
       /\ (_analysisStatus e = Status.rewriteImgs ->
           JsonValue.at_ response "status" = JString "imagesRewritten")
       /\ (_analysisStatus e = Status.saveImg ->
           objectOrNull (savedImage e) = true ->
           objectOrNull (JsonValue.at_ (savedImage e) "results") = true ->
           JsonValue.at_ (JsonValue.at_ response "results") "inputOptions"
           = _imageOptions (pending e)).
Proof.
  intros Hin o. simpl in Hin.
  assert (Ho : o = (if Status.eqb (_analysisStatus e) Status.saveImg
                    then @saveImage X
                    else if Status.eqb (_analysisStatus e) Status.editImg
                    then @editImage X
                    else @rewriteImages X)
                     (set_log (log e ++ [runAnalysisLogLine e])%list e)).
  { subst o. unfold runAnalysis. unfold bind at 1 2 3 4 5.
    unfold gets, Log_log, modify. cbv beta. cbn [_analysisStatus set_log].
    destruct Hin as [H | [H | [H | []]]]; rewrite <- H; reflexivity. }
  clearbody o. subst o.
  destruct Hin as [H | [H | [H | []]]]; rewrite <- H;
    cbn [Status.eqb orb];
    unfold saveImage, editImage, rewriteImages, sendAnalysisResults,
      parseAnalysisResults, sendString, channel_send, call, call_, bind,
      gets, modify, ret;
    cbn -[analysisResponse sent onTheWire JsonValue.at_ JsonValue.set app
          string_of_Z];
    (repeat match goal with |- _ /\ _ => split end; try reflexivity);
    (eexists; split; [ reflexivity | ]);
    (repeat match goal with |- _ /\ _ => split end; try reflexivity;
     try (intro Hs; discriminate Hs)).
  intros _ _ _. rewrite analysisResponse_results.
  cbn [_analysisResults set_progress set_analysisResults set_analysisStatus].
  rewrite JsonValue_get_set. apply JsonValue_at_set.
Qed.

(** ** The poll function of the runtime *)

Lemma engineStateFromString_analysis (s : string) :
  engineStateFromString s = Some engineState.analysis -> s = "analysis".
Proof. intro H. now apply engineStateFromString_Some in H. Qed.

Lemma retargeted_reports jsonRequest e :
  (Status.eqb (_analysisStatus (retargeted jsonRequest e)) Status.changed
   || Status.eqb (_analysisStatus (retargeted jsonRequest e)) Status.aborted
   || Status.eqb (_analysisStatus (retargeted jsonRequest e)) Status.stopped)
  = (get (rq_id jsonRequest) (-1) =? _analysisId e)
    && Status.eqb (_analysisStatus e) Status.running.
Proof.
  unfold retargeted.
  destruct ((get (rq_id jsonRequest) (-1) =? _analysisId e)
            && Status.eqb (_analysisStatus e) Status.running); simpl.
  - unfold statusForRunningAnalysis.
    destruct (performType.eqb _ performType.init || _); reflexivity.
  - destruct (performTypeFromString (get (rq_perform jsonRequest) "run"));
      reflexivity.
Qed.

Lemma poll_of_not_received e e1 :
  receiveMessages 0 e = Ret false e1 ->
  PollMessagesFunctionForJaspResults e = Ret false e1.
Proof.
  intro H. unfold PollMessagesFunctionForJaspResults. unfold bind at 1.
  now rewrite H.
Qed.

Lemma poll_of_throw e x e1 :
  receiveMessages 0 e = Throw x e1 ->
  PollMessagesFunctionForJaspResults e = Throw x e1.
Proof.
  intro H. unfold PollMessagesFunctionForJaspResults. unfold bind at 1.
  now rewrite H.
Qed.

(** What the poll function answers when an analysis request has been
    accepted. *)
Lemma poll_of_accepted_request jsonRequest e e0 :
  receiveMessages 0 e
  = bind (receiveAnalysisMessage jsonRequest) (fun _ => ret true) e0 ->
  acceptsAnalysis e0 ->
  exists e',
    PollMessagesFunctionForJaspResults e
    = Ret ((get (rq_id jsonRequest) (-1) =? _analysisId e0)
           && Status.eqb (_analysisStatus e0) Status.running) e'.
Proof.
  intros Hrecv Hacc.
  unfold PollMessagesFunctionForJaspResults. unfold bind at 1.
  rewrite Hrecv. unfold bind at 1.
  rewrite (receiveAnalysisMessage_accepted jsonRequest Hacc).
  unfold ret at 1. cbv zeta.
  rewrite <- retargeted_reports.
  set (e1 := retargeted jsonRequest e0).
  assert (Hst : _engineState e1 = _engineState e0).
  { subst e1. unfold retargeted.
    destruct ((get (rq_id jsonRequest) (-1) =? _analysisId e0)
              && Status.eqb (_analysisStatus e0) Status.running);
      reflexivity. }
  assert (Hpaused : forall e2 : Engine X,
             _engineState e2 = engineState.analysis
             \/ _engineState e2 = _engineState e0 ->
             paused e2 = false).
  { intros e2 [H | H]; unfold paused; rewrite H; [ reflexivity | ].
    destruct Hacc as [-> | ->]; reflexivity. }
  unfold bind, gets, Log_log, modify, ret.
  destruct (capturesRequest (_analysisStatus e1)) eqn:Hc.
  - rewrite Hpaused by (left; reflexivity).
    cbn [_analysisStatus set_engineState set_pending].
    destruct (_analysisStatus e1); eexists; reflexivity.
  - rewrite Hpaused by (right; exact Hst).
    destruct (_analysisStatus e1); eexists; reflexivity.
Qed.

Lemma poll_of_refused_request jsonRequest e e0 :
  receiveMessages 0 e
  = bind (receiveAnalysisMessage jsonRequest) (fun _ => ret true) e0 ->
  ~ acceptsAnalysis e0 ->
  exists x e', PollMessagesFunctionForJaspResults e = Throw x e'.
Proof.
  intros Hrecv Hacc.
  destruct (receiveAnalysisMessage_refused jsonRequest Hacc) as [what Hthrow].
  eexists. eexists. apply poll_of_throw. rewrite Hrecv.
  unfold bind. rewrite Hthrow. reflexivity.
Qed.

(** X8. When [PollMessagesFunctionForJaspResults] returns, it tells the
    runtime to stop exactly when the message it took from the channel is
    an analysis request for the id of the analysis that is running.  A
    request for another analysis, a pause or stop request, or any other
    message is handled but not reported to the runtime. *)
Theorem poll_reports_request_for_running_analysis e stop e' :
  PollMessagesFunctionForJaspResults e = Ret stop e' ->
  (stop = true <->
   exists jsonRequest rest,
     channel_in e = Some (Document jsonRequest) :: rest
     /\ rq_typeRequest jsonRequest = Some "analysis"
     /\ get (rq_id jsonRequest) (-1) = _analysisId e
     /\ _analysisStatus e = Status.running).
Proof.
  intro Hpoll.
  assert (Hfalse : forall e1,
             receiveMessages 0 e = Ret false e1 -> stop = false).
  { intros e1 H. rewrite (poll_of_not_received e H) in Hpoll.
    now injection Hpoll as <- _. }
  assert (Hthrow : forall x e1, receiveMessages 0 e = Throw x e1 -> False).
  { intros x e1 H. rewrite (poll_of_throw e H) in Hpoll. discriminate Hpoll. }
  destruct (channel_in e) as [ | [[ | jsonRequest] | ] rest] eqn:Hin;
    try (assert (Hs : stop = false)
           by (eapply Hfalse; unfold receiveMessages, channel_receive, bind;
               rewrite Hin; reflexivity);
         rewrite Hs;
         split; [ intro H; discriminate H
                | intros [j [r [H _]]]; discriminate H ]).
  pose proof (@receiveMessages_document X 0 _ _ _ Hin) as Hrecv.
  cbv zeta in Hrecv.
  assert (Hother : stop = false ->
            (rq_typeRequest jsonRequest = Some "analysis" -> False) ->
            stop = true <->
            (exists (jsonRequest0 : Request) (rest0 : list (option Data)),
                Some (Document jsonRequest) :: rest
                = Some (Document jsonRequest0) :: rest0
                /\ rq_typeRequest jsonRequest0 = Some "analysis"
                /\ get (rq_id jsonRequest0) (-1) = _analysisId e
                /\ _analysisStatus e = Status.running)).
  { intros -> Hno. split; [ intro H; discriminate H | ].
    intros [j [r [H [Ht _]]]]. injection H as <- _. exfalso. exact (Hno Ht). }
  destruct (String.eqb_spec (get (rq_typeRequest jsonRequest) "") "")
    as [Hempty | Hempty].
  { apply Hother; [ exact (Hfalse _ Hrecv) | ].
    intro Ht. rewrite Ht in Hempty. discriminate Hempty. }
  destruct (engineStateFromString (get (rq_typeRequest jsonRequest) ""))
    as [typeRequest | ] eqn:Htype;
    [ | exfalso; exact (Hthrow _ _ Hrecv) ].
  assert (Hnot : typeRequest <> engineState.analysis ->
                 rq_typeRequest jsonRequest = Some "analysis" -> False).
  { intros Hne Ht. rewrite Ht in Htype. cbn [get] in Htype.
    injection Htype as <-. now apply Hne. }
  destruct typeRequest; cbv iota in Hrecv;
    lazymatch type of Hrecv with
    | _ = Throw _ _ => exfalso; exact (Hthrow _ _ Hrecv)
    | _ = bind (receiveAnalysisMessage _) _ _ => idtac
    | _ = bind ?h _ ?e0 =>
        unfold bind, ret in Hrecv; destruct (h e0) as [u e1 | x e1];
        [ apply Hother; [ exact (Hfalse _ Hrecv) | apply Hnot; discriminate ]
        | exfalso; exact (Hthrow _ _ Hrecv) ]
    end.
  assert (Ht : rq_typeRequest jsonRequest = Some "analysis").
  { apply engineStateFromString_analysis in Htype.
    destruct (rq_typeRequest jsonRequest) as [t | ]; cbn [get] in *;
      [ now subst | contradiction ]. }
  assert (Hdec : acceptsAnalysis (dispatched rest e)
                 \/ ~ acceptsAnalysis (dispatched rest e)).
  { unfold acceptsAnalysis. destruct (_engineState (dispatched rest e));
      first [ left; tauto | right; intros [H | H]; discriminate ]. }
  destruct Hdec as [Hacc | Hacc].
  - destruct (@poll_of_accepted_request jsonRequest e (dispatched rest e) Hrecv Hacc)
      as [e2 Heq].
    rewrite Heq in Hpoll. injection Hpoll as <- _.
    change (_analysisId (dispatched rest e)) with (_analysisId e).
    change (_analysisStatus (dispatched rest e)) with (_analysisStatus e).
    rewrite andb_true_iff, Z.eqb_eq, Status_eqb_eq.
    split.
    + intros [H1 H2]. exists jsonRequest, rest. tauto.
    + intros [j [r [H [_ [H1 H2]]]]]. injection H as <- _. tauto.
  - destruct (@poll_of_refused_request jsonRequest e (dispatched rest e) Hrecv Hacc)
      as [x [e2 Heq]].
    rewrite Heq in Hpoll. discriminate Hpoll.
Qed.

(** ** Pruning the temp files *)

Lemma existsb_String_eqb (x : string) (l : list string) :
  existsb (String.eqb x) l = true <-> In x l.
Proof.
  rewrite existsb_exists. split.
  - intros [y [Hin Heq]]. apply String.eqb_eq in Heq. now subst.
  - intro Hin. exists x. split; [ exact Hin | apply String.eqb_refl ].
Qed.

Lemma removeNonKeepFiles_eq (filesToKeepValue : Json) e :
  removeNonKeepFiles filesToKeepValue e
  = Ret tt
      (set_tempFiles
         (TempFiles.deleteList
            (Utils_remove (TempFiles.retrieveList (_analysisId e) (tempFiles e))
               (filesToKeep filesToKeepValue))
            (tempFiles e)) e).
Proof. reflexivity. Qed.

(** X9. [removeNonKeepFiles] always returns.  Afterwards every temp file
    still attributed to the analysis is one of the strings of the keep
    value; no file named by the keep value is deleted, nor any file whose
    name is not that of a file of the analysis.  A keep value that is
    neither an array nor a string (a missing one is null) keeps nothing:
    the analysis has no temp file left. *)
Theorem removeNonKeepFiles_keeps_what_is_listed (filesToKeepValue : Json) e :
  let o := removeNonKeepFiles filesToKeepValue e in
  let id := _analysisId e in
  returns o = true
  /\ (forall file,
        In file (TempFiles.retrieveList id (tempFiles (state_of o))) ->
        In file (filesToKeep filesToKeepValue))
  /\ (forall f,
        In f (tempFiles e) -> In (snd f) (filesToKeep filesToKeepValue) ->
        In f (tempFiles (state_of o)))
  /\ (forall f,
        In f (tempFiles e) ->
        ~ In (snd f) (TempFiles.retrieveList id (tempFiles e)) ->
        In f (tempFiles (state_of o)))
  /\ (JsonValue.isArray filesToKeepValue = false ->
      JsonValue.isString filesToKeepValue = false ->
      TempFiles.retrieveList id (tempFiles (state_of o)) = []).
Proof.
  intros o id. subst o. rewrite removeNonKeepFiles_eq.
  cbn [returns state_of tempFiles set_tempFiles]. fold id.
  set (K := filesToKeep filesToKeepValue).
  assert (Hdeleted : forall x,
             In x (Utils_remove (TempFiles.retrieveList id (tempFiles e)) K)
             <-> In x (TempFiles.retrieveList id (tempFiles e)) /\ ~ In x K).
  { intro x. unfold Utils_remove. rewrite filter_In, negb_true_iff.
    rewrite <- (existsb_String_eqb x K).
    destruct (existsb (String.eqb x) K); intuition congruence. }
  assert (Hleft : forall f,
             In f (TempFiles.deleteList
                     (Utils_remove (TempFiles.retrieveList id (tempFiles e)) K)
                     (tempFiles e))
             <-> In f (tempFiles e)
                 /\ ~ (In (snd f) (TempFiles.retrieveList id (tempFiles e))
                       /\ ~ In (snd f) K)).
  { intro f. unfold TempFiles.deleteList. rewrite filter_In, negb_true_iff.
    rewrite <- Hdeleted.
    rewrite <- (existsb_String_eqb (snd f)).
    destruct (existsb (String.eqb (snd f)) _); intuition congruence. }
  assert (Hfiles : forall file,
             In file (TempFiles.retrieveList id
                        (TempFiles.deleteList
                           (Utils_remove
                              (TempFiles.retrieveList id (tempFiles e)) K)
                           (tempFiles e))) ->
             In file K).
  { intros file Hfile. unfold TempFiles.retrieveList at 1 in Hfile.
    apply in_map_iff in Hfile. destruct Hfile as [f [Hsnd Hf]].
    apply filter_In in Hf. destruct Hf as [Hf Hid].
    apply Hleft in Hf. destruct Hf as [Hf Hkept]. subst file.
    assert (Hmine : In (snd f) (TempFiles.retrieveList id (tempFiles e))).
    { unfold TempFiles.retrieveList. apply in_map. apply filter_In.
      split; assumption. }
    destruct (existsb (String.eqb (snd f)) K) eqn:Hk.
    - now apply existsb_String_eqb.
    - exfalso. apply Hkept. split; [ exact Hmine | ].
      intro Hin. apply existsb_String_eqb in Hin. congruence. }
  split; [ reflexivity | ].
  split; [ exact Hfiles | ].
  split; [ | split ].
  - intros f Hf Hk. apply Hleft. split; [ exact Hf | tauto ].
  - intros f Hf Hother. apply Hleft. split; [ exact Hf | tauto ].
  - intros Harray Hstring.
    assert (HK : K = [])
      by (subst K; destruct filesToKeepValue; try reflexivity; discriminate).
    revert Hfiles. rewrite HK.
    match goal with |- _ -> ?l = [] => generalize l end.
    intros [ | file rest] Hnone; [ reflexivity | exfalso ].
    apply (Hnone file). now left.
Qed.

(** ** Requests that are refused *)

(** X10. An analysis request that arrives while the engine is in another
    state than idle or analysis, for one while it is paused, is a fatal
    error: the dispatch throws a runtime error, and of the engine nothing
    has changed but that the document is taken from the channel and the
    send buffer cleared. *)
Theorem analysis_request_is_refused timeout jsonRequest rest e :
  channel_in e = Some (Document jsonRequest) :: rest ->
  rq_typeRequest jsonRequest = Some "analysis" ->
  _engineState e <> engineState.idle ->
  _engineState e <> engineState.analysis ->
  exists what,
    receiveMessages timeout e = Throw (runtime_error what) (dispatched rest e).
Proof.
  intros Hin Htype Hidle Hanalysis.
  rewrite (@receiveMessages_document X timeout _ _ _ Hin). rewrite Htype.
  cbn [get]. cbv zeta. cbn [String.eqb Ascii.eqb Bool.eqb].
  change (engineStateFromString "analysis") with (Some engineState.analysis).
  cbv iota.
  assert (Hacc : ~ acceptsAnalysis (dispatched rest e))
    by (intros [H | H]; [ exact (Hidle H) | exact (Hanalysis H) ]).
  destruct (receiveAnalysisMessage_refused jsonRequest Hacc) as [what Hthrow].
  exists what. unfold bind. now rewrite Hthrow.
Qed.

(** ** The settings *)

Lemma keeps_settings_unless (typeRequest : engineState.t) jsonRequest :
  typeRequest <> engineState.settings ->
  typeRequest <> engineState.resuming ->
  keeps (@settings X)
    (match typeRequest with
     | engineState.analysis =>
         bind (receiveAnalysisMessage jsonRequest) (fun _ => ret true)
     | engineState.filter =>
         bind (receiveFilterMessage jsonRequest) (fun _ => ret false)
     | engineState.rCode =>
         bind (receiveRCodeMessage jsonRequest) (fun _ => ret false)
     | engineState.computeColumn =>
         bind (receiveComputeColumnMessage jsonRequest) (fun _ => ret false)
     | engineState.pauseRequested =>
         bind (@pauseEngine X) (fun _ => ret false)
     | engineState.resuming =>
         bind (resumeEngine jsonRequest) (fun _ => ret false)
     | engineState.moduleRequest =>
         bind (receiveModuleRequestMessage jsonRequest) (fun _ => ret false)
     | engineState.stopRequested =>
         bind (@stopEngine X) (fun _ => ret false)
     | engineState.logCfg =>
         bind (receiveLogCfg jsonRequest) (fun _ => ret false)
     | engineState.settings =>
         bind (receiveSettings jsonRequest) (fun _ => ret false)
     | _ =>
         throw (runtime_error
                  ("Engine::receiveMessages begs you to add your new engineState "
                   ++ engineStateToString typeRequest ++ " to it!"))
     end).
Proof.
  intros Hsettings Hresuming.
  destruct typeRequest; try congruence;
    unfold receiveAnalysisMessage; unfold_handlers; keeps_auto.
Qed.

Lemma absorbs_settings jsonRequest e :
  let o := absorbSettings jsonRequest e in
  returns o = true /\ settings (state_of o) = absorbed jsonRequest (settings e).
Proof. split; reflexivity. Qed.

(** X11. The settings of the engine (ppi, developer mode, image
    background, language of R) change through a settings or a resuming
    document and through nothing else that [receiveMessages] dispatches.
    Such a document is always handled: each setting that it names takes
    the value it gives, the others stay, and the engine is idle. *)
Theorem settings_change_on_request_only timeout e :
  let o := receiveMessages timeout e in
  (~ asksFor "settings" e -> ~ asksFor "resuming" e ->
   settings (state_of o) = settings e)
  /\ (forall jsonRequest rest,
         channel_in e = Some (Document jsonRequest) :: rest ->
         rq_typeRequest jsonRequest = Some "settings"
         \/ rq_typeRequest jsonRequest = Some "resuming" ->
         returns o = true
         /\ settings (state_of o) = absorbed jsonRequest (settings e)
         /\ _engineState (state_of o) = engineState.idle).
Proof.
  intro o. subst o. split.
  - intros Hsettings Hresuming.
    destruct (channel_in e) as [ | [[ | jsonRequest] | ] rest] eqn:Hin;
      try (unfold receiveMessages, channel_receive, bind; rewrite Hin;
           reflexivity).
    rewrite (@receiveMessages_document X timeout _ _ _ Hin). cbv zeta.
    destruct (String.eqb (get (rq_typeRequest jsonRequest) "") "") eqn:Hempty;
      [ reflexivity | ].
    destruct (engineStateFromString (get (rq_typeRequest jsonRequest) ""))
      as [typeRequest | ] eqn:Hfrom; [ | reflexivity ].
    apply engineStateFromString_Some in Hfrom.
    assert (Htype : rq_typeRequest jsonRequest
                    = Some (engineStateToString typeRequest)).
    { destruct (rq_typeRequest jsonRequest) as [t | ]; cbn [get] in *;
        [ now rewrite Hfrom | ].
      destruct typeRequest; discriminate Hfrom. }
    assert (Hns : typeRequest <> engineState.settings).
    { intros ->. apply Hsettings. exists jsonRequest, rest. now split. }
    assert (Hnr : typeRequest <> engineState.resuming).
    { intros ->. apply Hresuming. exists jsonRequest, rest. now split. }
    pose proof (@keeps_settings_unless typeRequest jsonRequest Hns Hnr
                  (dispatched rest e)) as Hkept.
    clear Hfrom Htype Hns Hnr. destruct typeRequest; exact Hkept.
  - intros jsonRequest rest Hin Htype.
    rewrite (@receiveMessages_document X timeout _ _ _ Hin). cbv zeta.
    destruct Htype as [Htype | Htype]; rewrite Htype; cbn [get];
      cbn [String.eqb Ascii.eqb Bool.eqb];
      [ change (engineStateFromString "settings")
          with (Some engineState.settings)
      | change (engineStateFromString "resuming")
          with (Some engineState.resuming) ];
      cbv iota; split_all; reflexivity.
Qed.

(** ** One response to a request *)

Lemma answersOnce_send (typeRequest : string) (response : Json) :
  JsonValue.get response "typeRequest" JNull = JString typeRequest ->
  answersOnce typeRequest (@sendString X (toStyledString X response)).
Proof. intros H e _. exists response. split; [ reflexivity | exact H ]. Qed.

Lemma answersOnce_before {A B} (typeRequest : string) (m : M X A)
    (k : A -> M X B) :
  keeps (@channel_out X) m -> (forall a, answersOnce typeRequest (k a)) ->
  answersOnce typeRequest (bind m k).
Proof.
  intros Hm Hk e. unfold bind. specialize (Hm e).
  destruct (m e) as [a e1 | x e1]; cbn [state_of] in Hm;
    [ | intro H; discriminate H ].
  intro Hret. destruct (Hk a e1 Hret) as [response [Hout Htype]].
  exists response. split; [ now rewrite Hout, Hm | exact Htype ].
Qed.

Lemma answersOnce_after {A B} (typeRequest : string) (m : M X A)
    (k : A -> M X B) :
  answersOnce typeRequest m -> (forall a, keeps (@channel_out X) (k a)) ->
  answersOnce typeRequest (bind m k).
Proof.
  intros Hm Hk e. unfold bind. specialize (Hm e).
  destruct (m e) as [a e1 | x e1]; cbn [state_of returns] in Hm;
    [ | intro H; discriminate H ].
  intros _. destruct (Hm eq_refl) as [response [Hout Htype]].
  exists response. split; [ now rewrite (Hk a e1), Hout | exact Htype ].
Qed.

Lemma answersOnce_throw {A} (typeRequest : string) (x : exn) :
  answersOnce typeRequest (@throw X A x).
Proof. intros e H. discriminate H. Qed.

Ltac answers_step :=
  first
    [ apply answersOnce_throw
    | apply answersOnce_send;
      repeat match goal with
             | |- context [if ?b then _ else _] => destruct b
             end; reflexivity
    | apply answersOnce_before; [ solve [ keeps_auto ] | intro ]
    | apply answersOnce_after; [ | intro; solve [ keeps_auto ] ]
    | match goal with
      | |- answersOnce _ (if ?b then _ else _) => destruct b
      | |- answersOnce _ (match ?x with _ => _ end) => destruct x
      end ].

Ltac answers_auto := cbv zeta; repeat answers_step.

Lemma handlers_answer_once jsonRequest :
  answersOnce "filter" (@receiveFilterMessage X jsonRequest)
  /\ answersOnce "rCode" (@receiveRCodeMessage X jsonRequest)
  /\ answersOnce "computeColumn" (@receiveComputeColumnMessage X jsonRequest)
  /\ answersOnce "moduleRequest" (@receiveModuleRequestMessage X jsonRequest)
  /\ answersOnce "resuming" (@resumeEngine X jsonRequest)
  /\ answersOnce "logCfg" (@receiveLogCfg X jsonRequest)
  /\ answersOnce "settings" (@receiveSettings X jsonRequest).
Proof.
  split_all;
    unfold receiveFilterMessage, runFilter, sendFilterResult, sendFilterError,
      filterErrorResponse, receiveRCodeMessage, runRCode, runRCodeCommander,
      sendRCodeResult, sendRCodeError, rCodeResultResponse, rCodeErrorResponse,
      receiveComputeColumnMessage, runComputeColumn,
      receiveModuleRequestMessage, resumeEngine, sendEngineResumed,
      receiveLogCfg, receiveSettings, stateResponse;
    answers_auto.
Qed.

Lemma pause_stop_answer_once :
  answersOnce "paused" (@pauseEngine X)
  /\ answersOnce "stopped" (@stopEngine X).
Proof.
  split; intros e Hret;
    [ exists (stateResponse engineState.paused)
    | exists (stateResponse engineState.stopped) ];
    revert Hret;
    unfold pauseEngine, stopEngine, sendEnginePaused, sendEngineStopped,
      sendString, channel_send, Log_log, call_, bind, gets, modify, ret, throw;
    cbn -[sent stateResponse app];
    destruct (_engineState e); cbn -[sent stateResponse app];
    intro Hret; try discriminate Hret; split; reflexivity.
Qed.

(** X12. Every request other than an analysis request that
    [receiveMessages] handles without throwing is answered by exactly one
    message after the one that clears the send buffer: a response object
    whose typeRequest is the type of the request, or paused and stopped
    for the requests to pause and to stop. *)
Theorem request_is_answered_once timeout (typeRequest : engineState.t)
    jsonRequest rest e :
  channel_in e = Some (Document jsonRequest) :: rest ->
  rq_typeRequest jsonRequest = Some (engineStateToString typeRequest) ->
  typeRequest <> engineState.analysis ->
  returns (receiveMessages timeout e) = true ->
  exists response,
    channel_out (state_of (receiveMessages timeout e))
    = (channel_out e ++ [onTheWire X ""; sent X response])%list
    /\ JsonValue.get response "typeRequest" JNull
       = JString (engineStateToString (responseType typeRequest)).
Proof.
  intros Hin Htype Hanalysis.
  rewrite (@receiveMessages_document X timeout _ _ _ Hin). rewrite Htype.
  cbn [get]. cbv zeta.
  destruct (handlers_answer_once jsonRequest)
    as [Hfilter [HrCode [Hcolumn [Hmodule [Hresume [HlogCfg Hsettings]]]]]].
  destruct pause_stop_answer_once as [Hpause Hstop].
  assert (Hdone : forall (m : M X unit) T,
             answersOnce T m ->
             returns (bind m (fun _ => ret false) (dispatched rest e)) = true ->
             exists response,
               channel_out
                 (state_of (bind m (fun _ => ret false) (dispatched rest e)))
               = (channel_out e ++ [onTheWire X ""; sent X response])%list
               /\ JsonValue.get response "typeRequest" JNull = JString T).
  { intros m T Hm Hret.
    assert (Hm' : answersOnce T (bind m (fun _ => ret false)))
      by (apply answersOnce_after; [ exact Hm | intro; keeps_auto ]).
    destruct (Hm' (dispatched rest e) Hret) as [response [Hout HT]].
    exists response. split; [ | exact HT ].
    rewrite Hout. unfold dispatched. cbn [channel_out set_channel_out].
    now rewrite <- app_assoc. }
  destruct typeRequest; try congruence;
    lazymatch goal with
    | |- returns (Throw _ _) = true -> _ => intro H; discriminate H
    | |- returns (Ret _ _) = true -> _ => idtac
    | _ => idtac
    end.
  all: cbn [engineStateToString responseType String.eqb Ascii.eqb Bool.eqb].
  all: lazymatch goal with
       | |- context [engineStateFromString ?s] =>
           let r := eval vm_compute in (engineStateFromString s) in
           change (engineStateFromString s) with r
       end; cbv iota.
  all: lazymatch goal with
       | |- returns (Throw _ _) = true -> _ => intro H; discriminate H
       | |- returns (bind (receiveFilterMessage _) _ _) = true -> _ =>
           exact (Hdone _ _ Hfilter)
       | |- returns (bind (receiveRCodeMessage _) _ _) = true -> _ =>
           exact (Hdone _ _ HrCode)
       | |- returns (bind (receiveComputeColumnMessage _) _ _) = true -> _ =>
           exact (Hdone _ _ Hcolumn)
       | |- returns (bind (receiveModuleRequestMessage _) _ _) = true -> _ =>
           exact (Hdone _ _ Hmodule)
       | |- returns (bind (resumeEngine _) _ _) = true -> _ =>
           exact (Hdone _ _ Hresume)
       | |- returns (bind (receiveLogCfg _) _ _) = true -> _ =>
           exact (Hdone _ _ HlogCfg)
       | |- returns (bind (receiveSettings _) _ _) = true -> _ =>
           exact (Hdone _ _ Hsettings)
       | |- returns (bind (@pauseEngine _) _ _) = true -> _ =>
           exact (Hdone _ _ Hpause)
       | |- returns (bind (@stopEngine _) _ _) = true -> _ =>
           exact (Hdone _ _ Hstop)
       end.
Qed.

(** ** The loop of [run] *)

Variable P : Process X.

Lemma initialize_lands_idle :
  ensures (fun e => _engineState e = engineState.idle) (initialize P).
Proof. unfold initialize, sendEngineResumed. lands_auto. Qed.

Lemma runTurnReceive_resting e received e1 :
  resting e \/ _engineState e = engineState.initializing ->
  runTurnReceive P e = Ret received e1 -> resting e1.
Proof.
  intros He Hturn. unfold runTurnReceive in Hturn.
  unfold bind at 1, gets in Hturn.
  assert (Hmid : forall u e0,
             (if engineState.eqb (_engineState e) engineState.initializing
              then initialize P else ret tt) e = Ret u e0 ->
             resting e0).
  { intros u e0 H0.
    destruct (engineState.eqb (_engineState e) engineState.initializing)
      eqn:Hst.
    - pose proof (initialize_lands_idle e) as Hidle. rewrite H0 in Hidle.
      apply (@resting_in engineState.idle);
        [ exact (Hidle eq_refl) | simpl; tauto ].
    - unfold ret in H0. injection H0 as _ <-.
      destruct He as [He | He]; [ exact He | ].
      rewrite He in Hst. discriminate Hst. }
  unfold bind at 1 in Hturn.
  destruct ((if engineState.eqb (_engineState e) engineState.initializing
             then initialize P else ret tt) e) as [u e0 | x e0] eqn:H0;
    [ | discriminate Hturn ].
  pose proof (@receiveMessages_resting 100 e0 (Hmid u e0 eq_refl)) as Hr.
  rewrite Hturn in Hr. exact (Hr eq_refl).
Qed.

Lemma maintains_after {A B} (Q : Engine X -> Prop) (m : M X A)
    (k : A -> M X B) e :
  (forall a e1, m e = Ret a e1 -> Q e1) ->
  (forall a, maintains Q (k a)) ->
  returns (bind m k e) = true -> Q (state_of (bind m k e)).
Proof.
  intros Hm Hk. unfold bind.
  destruct (m e) as [a e1 | x e1]; [ | intro H; discriminate H ].
  exact (Hk a e1 (Hm a e1 eq_refl)).
Qed.

Lemma runTurn_resting previousState e :
  resting e \/ _engineState e = engineState.initializing ->
  returns (runTurn P previousState e) = true ->
  resting (state_of (runTurn P previousState e)).
Proof.
  intros He. unfold runTurn.
  apply maintains_after;
    [ intros received e1; exact (runTurnReceive_resting He) | intros _ ].
  clear e He.
  change (maintains (@resting X)
            (bind (gets (@_engineState X))
               (fun st =>
                  bind
                    (match st with
                     | engineState.idle => ret tt
                     | engineState.analysis => @runAnalysis X
                     | engineState.paused | engineState.stopped => ret tt
                     | engineState.resuming =>
                         throw (runtime_error
                                  ("Enginestate " ++ engineStateToString st
                                   ++ " should NOT be set as currentState!"))
                     | _ =>
                         Log_log
                           ("Engine got stuck in engineState "
                            ++ engineStateToString st
                            ++ " which is not supposed to happen...")
                     end)
                    (fun _ =>
                       bind (call_ (freeRBridgeColumns X))
                         (fun _ =>
                            bind (gets (@_engineState X))
                              (fun st0 =>
                                 bind
                                   (if negb (engineState.eqb previousState st0)
                                    then Log_log ("current Engine state == "
                                                  ++ engineStateToString st0)
                                    else ret tt)
                                   (fun _ => ret st0))))))).
  apply maintains_bind;
    [ apply keeps_maintains_resting; keeps_auto | intro st ].
  apply maintains_bind;
    [ | intro; apply keeps_maintains_resting; keeps_auto ].
  destruct st;
    lazymatch goal with
    | |- maintains _ (@runAnalysis _) => apply runAnalysis_resting
    | _ => apply keeps_maintains_resting; keeps_auto
    end.
Qed.

Lemma runLoop_resting turns :
  forall previousState e,
    resting e \/ _engineState e = engineState.initializing ->
    returns (runLoop P turns previousState e) = true ->
    state_of (runLoop P turns previousState e) = e
    \/ resting (state_of (runLoop P turns previousState e)).
Proof.
  induction turns as [ | turns IH]; intros previousState e He;
    cbn [runLoop]; destruct (keepsRunning P e);
    try (intros _; left; reflexivity).
  pose proof (@runTurn_resting previousState e He) as Hturn.
  destruct (runTurn P previousState e) as [previousState' e' | x e'];
    [ | intro H; discriminate H ].
  intro Hret. right.
  destruct (IH previousState' e' (or_introl (Hturn eq_refl)) Hret)
    as [Hsame | Hrest]; [ | exact Hrest ].
  rewrite Hsame. exact (Hturn eq_refl).
Qed.

(** X13. Started in the state in which [main] starts the engine,
    initializing, or in one of idle, analysis, paused and stopped, the
    loop of [run] never comes to its [switch] in another state than idle,
    analysis, paused or stopped: the case that throws for resuming and the
    default case that logs the engine as stuck are not reached.  Every
    turn that returns, and the loop when it returns after any number of
    turns, leaves the engine in one of the four states, unless no turn
    was made. *)
Theorem run_never_gets_stuck e :
  resting e \/ _engineState e = engineState.initializing ->
  (forall received e1, runTurnReceive P e = Ret received e1 -> resting e1)
  /\ (forall previousState,
         returns (runTurn P previousState e) = true ->
         resting (state_of (runTurn P previousState e)))
  /\ (forall turns previousState,
         returns (runLoop P turns previousState e) = true ->
         state_of (runLoop P turns previousState e) = e
         \/ resting (state_of (runLoop P turns previousState e))).
Proof.
  intro He. split; [ | split ].
  - intros received e1. exact (runTurnReceive_resting He).
  - intro previousState. exact (runTurn_resting previousState He).
  - intros turns previousState. exact (runLoop_resting turns previousState He).
Qed.

(** X14. [initialize] always returns: the engine is idle, the one message
    sent is the resuming response from which the desktop knows that the
    engine is ready, and the analysis, its snapshot, the settings and the
    unread part of the channel are what they were. *)
Theorem initialize_reports_ready e :
  let o := initialize P e in
  returns o = true
  /\ _engineState (state_of o) = engineState.idle
  /\ channel_out (state_of o)
     = (channel_out e ++ [sent X (stateResponse engineState.resuming)])%list
  /\ channel_in (state_of o) = channel_in e
  /\ analysisAndSettings (state_of o) = analysisAndSettings e.
Proof.
  intro o. subst o. unfold initialize.
  unfold sendEngineResumed, sendString, channel_send, Log_log, call_, call,
    bind, gets, modify, ret.
  cbn -[sent stateResponse app Z.eqb andb].
  destruct (checksRBridge P && (_slaveNo e =? 0)); split_all; reflexivity.
Qed.

Lemma runLoop_stopped turns previousState e :
  _engineState e = engineState.stopped ->
  runLoop P turns previousState e = Ret true e.
Proof.
  intro Hst.
  assert (Hk : keepsRunning P e = false)
    by (unfold keepsRunning; now rewrite Hst).
  destruct turns; cbn [runLoop]; now rewrite Hk.
Qed.

Lemma stopEngine_stops e :
  _engineState e <> engineState.filter ->
  _engineState e <> engineState.computeColumn ->
  let e' := state_of (stopEngine e) in
  stopEngine e = Ret tt e'
  /\ _engineState e' = engineState.stopped
  /\ channel_in e' = channel_in e
  /\ channel_out e'
     = (channel_out e ++ [sent X (stateResponse engineState.stopped)])%list
  /\ _analysisStatus e'
     = (if engineState.eqb (_engineState e) engineState.analysis
        then Status.aborted else _analysisStatus e).
Proof.
  intros Hfilter Hcolumn.
  unfold stopEngine, sendEngineStopped, sendString, channel_send, Log_log,
    call_, bind, gets, modify, ret, throw.
  cbn -[sent stateResponse app]. unfold sent.
  destruct (_engineState e); try congruence;
    cbn -[onTheWire stateResponse app]; split_all; reflexivity.
Qed.

Lemma runTurn_stop previousState jsonRequest rest e :
  _engineState e <> engineState.initializing ->
  _engineState e <> engineState.filter ->
  _engineState e <> engineState.computeColumn ->
  channel_in e = Some (Document jsonRequest) :: rest ->
  rq_typeRequest jsonRequest = Some "stopRequested" ->
  exists e',
    runTurn P previousState e = Ret engineState.stopped e'
    /\ _engineState e' = engineState.stopped
    /\ channel_in e' = rest
    /\ channel_out e'
       = (channel_out e
          ++ [onTheWire X ""; sent X (stateResponse engineState.stopped)])%list
    /\ _analysisStatus e'
       = (if engineState.eqb (_engineState e) engineState.analysis
          then Status.aborted else _analysisStatus e).
Proof.
  intros Hinit Hfilter Hcolumn Hin Htype.
  assert (Hrecv : receiveMessages 100 e
                  = bind (@stopEngine X) (fun _ => ret false)
                      (dispatched rest e)).
  { rewrite (@receiveMessages_document X 100 _ _ _ Hin). rewrite Htype.
    reflexivity. }
  destruct (@stopEngine_stops (dispatched rest e) Hfilter Hcolumn)
    as [Hstop [Hst [Hcin [Hcout Hstatus]]]].
  revert Hstop Hst Hcin Hcout Hstatus.
  generalize (state_of (stopEngine (dispatched rest e))).
  intros e1 Hstop Hst Hcin Hcout Hstatus.
  assert (Hturn : runTurnReceive P e = Ret false e1).
  { unfold runTurnReceive. unfold bind at 1, gets.
    destruct (engineState.eqb (_engineState e) engineState.initializing)
      eqn:Hi; [ apply engineState_eqb_eq in Hi; contradiction | ].
    unfold bind at 1, ret. rewrite Hrecv. unfold bind. now rewrite Hstop. }
  unfold runTurn. unfold bind at 1. rewrite Hturn.
  unfold bind at 1, gets. rewrite Hst. cbv iota.
  unfold call_, Log_log, bind, gets, modify, ret.
  cbn [_engineState set_world set_log]. rewrite Hst.
  destruct (negb (engineState.eqb previousState engineState.stopped));
    eexists; (split; [ reflexivity | ]);
    cbn [_engineState channel_in channel_out _analysisStatus set_world set_log];
    rewrite Hst, Hcin, Hcout, Hstatus; cbn [dispatched channel_in channel_out
      _engineState _analysisStatus set_channel_in set_channel_out];
    rewrite <- app_assoc; split_all; reflexivity.
Qed.

(** X15. A stop request ends [run].  When the parent process runs, the
    engine is in no handler state and the document at the head of the
    channel asks to stop, [run] returns after that one turn however many
    turns it was given: the engine is stopped, what follows the request
    on the channel is never read, the stopped response is the last
    message sent, a running analysis is marked aborted and not run, and
    the last line of the log tells that the loop was left on request. *)
Theorem stop_request_ends_run turns jsonRequest rest e :
  keepsRunning P e = true ->
  resting e ->
  channel_in e = Some (Document jsonRequest) :: rest ->
  rq_typeRequest jsonRequest = Some "stopRequested" ->
  let o := run P (S turns) e in
  o = Ret true (state_of o)
  /\ _engineState (state_of o) = engineState.stopped
  /\ channel_in (state_of o) = rest
  /\ channel_out (state_of o)
     = (channel_out e
        ++ [onTheWire X ""; onTheWire X "";
            sent X (stateResponse engineState.stopped)])%list
  /\ _analysisStatus (state_of o)
     = (if engineState.eqb (_engineState e) engineState.analysis
        then Status.aborted else _analysisStatus e)
  /\ last (log (state_of o)) ""
     = "Engine leaving mainloop after having been asked to stop.".
Proof.
  intros Hk He Hin Htype o.
  set (e0 := set_channel_out (channel_out e ++ [onTheWire X ""])%list e).
  assert (Hrun : o = bind (runLoop P (S turns) engineState.idle)
                       (fun left =>
                          bind (gets (@_engineState X))
                            (fun st =>
                               bind
                                 (if (left : bool)
                                     && engineState.eqb st engineState.stopped
                                  then Log_log
                                         "Engine leaving mainloop after having been asked to stop."
                                  else ret tt)
                                 (fun _ => ret left))) e0)
    by reflexivity.
  assert (Hk0 : keepsRunning P e0 = true) by exact Hk.
  assert (Hstate : _engineState e0 = _engineState e) by reflexivity.
  assert (Hinit : _engineState e0 <> engineState.initializing).
  { rewrite Hstate. intro H. unfold resting in He. rewrite H in He.
    simpl in He. intuition discriminate. }
  assert (Hfilter : _engineState e0 <> engineState.filter).
  { rewrite Hstate. intro H. unfold resting in He. rewrite H in He.
    simpl in He. intuition discriminate. }
  assert (Hcolumn : _engineState e0 <> engineState.computeColumn).
  { rewrite Hstate. intro H. unfold resting in He. rewrite H in He.
    simpl in He. intuition discriminate. }
  assert (Hin0 : channel_in e0 = Some (Document jsonRequest) :: rest)
    by exact Hin.
  destruct (@runTurn_stop engineState.idle jsonRequest rest e0
              Hinit Hfilter Hcolumn Hin0 Htype)
    as [e1 [Hturn [Hst [Hcin [Hcout Hstatus]]]]].
  assert (Hloop : runLoop P (S turns) engineState.idle e0 = Ret true e1).
  { cbn [runLoop]. rewrite Hk0, Hturn. exact (@runLoop_stopped turns _ _ Hst). }
  assert (Ho : o = Ret true
                     (set_log
                        (log e1
                         ++ ["Engine leaving mainloop after having been asked to stop."])%list
                        e1)).
  { rewrite Hrun. unfold bind at 1. rewrite Hloop.
    unfold bind, gets, Log_log, modify, ret. rewrite Hst. reflexivity. }
  clearbody o. clear Hrun. subst o.
  cbn [state_of _engineState channel_in channel_out _analysisStatus log
         set_log].
  rewrite Hst, Hcin, Hcout, Hstatus, Hstate. subst e0.
  cbn [channel_out set_channel_out _analysisStatus].
  rewrite <- app_assoc. rewrite last_last.
  split_all; reflexivity.
Qed.

(** ** Writing a computed column *)

Lemma mapAt_mapAssign key value m k :
  mapAt (mapAssign key value m) k
  = if Z.eqb key k then value else mapAt m k.
Proof.
  induction m as [ | [k0 v0] m IH]; cbn [mapAssign mapAt].
  - destruct (Z.eqb_spec key k); reflexivity.
  - destruct (Z.eqb_spec k0 key) as [-> | Hne]; cbn [mapAt].
    + destruct (Z.eqb_spec key k); reflexivity.
    + rewrite IH.
      destruct (Z.eqb_spec k0 k) as [-> | Hk]; [ | reflexivity ].
      destruct (Z.eqb_spec key k); [ congruence | reflexivity ].
Qed.

Lemma length_mapAssign_fresh key value m :
  ~ In key (map fst m) ->
  length (mapAssign key value m) = S (length m).
Proof.
  induction m as [ | [k0 v0] m IH]; cbn [mapAssign map fst In length];
    [ reflexivity | ].
  intro Hfresh.
  destruct (Z.eqb_spec k0 key) as [-> | Hne]; [ tauto | ].
  cbn [length]. rewrite IH; [ reflexivity | tauto ].
Qed.

Lemma length_mapAssign_le key value m :
  (length (mapAssign key value m) <= S (length m))%nat.
Proof.
  induction m as [ | [k0 v0] m IH]; cbn [mapAssign length]; [ lia | ].
  destruct (Z.eqb k0 key); cbn [length]; lia.
Qed.

Lemma keys_mapAssign key value m k :
  In k (map fst (mapAssign key value m)) -> k = key \/ In k (map fst m).
Proof.
  induction m as [ | [k0 v0] m IH]; cbn [mapAssign map fst In].
  - intros [H | []]. now left.
  - destruct (Z.eqb_spec k0 key) as [-> | Hne]; cbn [map fst In];
      intuition.
Qed.

Lemma labelOf_None levels key :
  ~ In key (map fst levels) -> labelOf levels key = None.
Proof.
  induction levels as [ | [k label] levels IH]; cbn [labelOf map fst In];
    [ reflexivity | ].
  intro H. destruct (Z.eqb_spec k key); [ tauto | apply IH; tauto ].
Qed.

Lemma collectUniqueInts_numbers levels :
  forall uniqueInts,
    NoDup (map fst levels) ->
    (forall k, In k (map fst levels) -> ~ In k (map fst uniqueInts)) ->
    (forall key label, In (key, label) levels -> isNumber label) ->
    exists m,
      collectUniqueInts levels uniqueInts = Some m
      /\ length m = (length uniqueInts + length levels)%nat
      /\ forall k,
           mapAt m k = match labelOf levels k with
                       | Some label => integerOf label
                       | None => mapAt uniqueInts k
                       end.
Proof.
  induction levels as [ | [key label] levels IH];
    intros uniqueInts Hnodup Hfresh Hnumbers.
  - exists uniqueInts. cbn [collectUniqueInts labelOf length].
    split; [ reflexivity | split; [ lia | reflexivity ] ].
  - cbn [map fst] in Hnodup. apply NoDup_cons_iff in Hnodup.
    destruct Hnodup as [Hkey Hnodup].
    destruct (Hnumbers key label (or_introl eq_refl)) as [asInt Hstoi].
    cbn [collectUniqueInts]. rewrite Hstoi, Nat.eqb_refl.
    destruct (IH (mapAssign key asInt uniqueInts) Hnodup) as [m [Hm [Hlen Hat]]].
    + intros k Hk Hin. apply keys_mapAssign in Hin.
      destruct Hin as [-> | Hin]; [ exact (Hkey Hk) | ].
      exact (Hfresh k (or_intror Hk) Hin).
    + intros key' label' Hin. exact (Hnumbers key' label' (or_intror Hin)).
    + exists m. split; [ exact Hm | split ].
      * rewrite Hlen, length_mapAssign_fresh;
          [ cbn [length]; lia | exact (Hfresh key (or_introl eq_refl)) ].
      * intro k. rewrite Hat. cbn [labelOf].
        destruct (Z.eqb_spec key k) as [<- | Hne].
        -- rewrite (@labelOf_None levels key Hkey), mapAt_mapAssign, Z.eqb_refl.
           unfold integerOf. now rewrite Hstoi.
        -- destruct (labelOf levels k); [ reflexivity | ].
           rewrite mapAt_mapAssign.
           destruct (Z.eqb_spec key k); [ contradiction | reflexivity ].
Qed.

Lemma collectUniqueInts_length levels :
  forall uniqueInts m,
    collectUniqueInts levels uniqueInts = Some m ->
    (length m <= length uniqueInts + length levels)%nat.
Proof.
  induction levels as [ | [key label] levels IH]; intros uniqueInts m;
    cbn [collectUniqueInts length].
  - intro H. injection H as <-. lia.
  - destruct (stoi label) as [ | | asInt convertedChars];
      [ | intro H; discriminate H | ].
    + intro H. apply IH in H. lia.
    + destruct (Nat.eqb convertedChars (String.length label)); intro H;
        apply IH in H;
        [ pose proof (length_mapAssign_le key asInt uniqueInts) | ]; lia.
Qed.

Lemma collectUniqueInts_short levels :
  forall uniqueInts m,
    (exists key label,
        In (key, label) levels /\ ~ isNumber label) ->
    collectUniqueInts levels uniqueInts = Some m ->
    (length m < length uniqueInts + length levels)%nat.
Proof.
  induction levels as [ | [key label] levels IH]; intros uniqueInts m
    [key' [label' [Hin Hnot]]]; [ destruct Hin | ].
  cbn [collectUniqueInts length].
  destruct Hin as [Hhere | Hin].
  - injection Hhere as <- <-.
    destruct (stoi label) as [ | | asInt convertedChars] eqn:Hstoi;
      [ | intro H; discriminate H | ].
    + intro H. apply collectUniqueInts_length in H. lia.
    + destruct (Nat.eqb_spec convertedChars (String.length label))
        as [-> | Hne].
      * exfalso. apply Hnot. exists asInt. exact Hstoi.
      * intro H. apply collectUniqueInts_length in H. lia.
  - assert (Hex : exists key label, In (key, label) levels /\ ~ isNumber label)
      by (exists key', label'; now split).
    destruct (stoi label) as [ | | asInt convertedChars];
      [ | intro H; discriminate H | ].
    + intro H. apply (IH _ _ Hex) in H. lia.
    + destruct (Nat.eqb convertedChars (String.length label)); intro H;
        apply (IH _ _ Hex) in H;
        [ pose proof (length_mapAssign_le key asInt uniqueInts) | ]; lia.
Qed.

Lemma collectUniqueInts_in_range levels :
  forall uniqueInts,
    (forall key label, In (key, label) levels ->
                       stoi label <> stoi_out_of_range) ->
    exists m, collectUniqueInts levels uniqueInts = Some m.
Proof.
  induction levels as [ | [key label] levels IH]; intros uniqueInts Hrange;
    cbn [collectUniqueInts]; [ now exists uniqueInts | ].
  assert (Hrest : forall key label, In (key, label) levels ->
                                    stoi label <> stoi_out_of_range)
    by (intros k l Hin; exact (Hrange k l (or_intror Hin))).
  pose proof (Hrange key label (or_introl eq_refl)) as Hhere.
  destruct (stoi label) as [ | | asInt convertedChars];
    [ | congruence | ]; [ exact (IH _ Hrest) | ].
  destruct (Nat.eqb convertedChars (String.length label)); exact (IH _ Hrest).
Qed.

Lemma collectUniqueInts_out_of_range levels :
  forall uniqueInts,
    (exists key label,
        In (key, label) levels /\ stoi label = stoi_out_of_range) ->
    collectUniqueInts levels uniqueInts = None.
Proof.
  induction levels as [ | [key label] levels IH]; intros uniqueInts
    [key' [label' [Hin Hout]]]; [ destruct Hin | ].
  cbn [collectUniqueInts].
  destruct Hin as [Hhere | Hin].
  - injection Hhere as <- <-. now rewrite Hout.
  - assert (Hex : exists key label,
               In (key, label) levels /\ stoi label = stoi_out_of_range)
      by (exists key', label'; now split).
    destruct (stoi label) as [ | | asInt convertedChars];
      [ | reflexivity | ]; [ exact (IH _ Hex) | ].
    destruct (Nat.eqb convertedChars (String.length label)); exact (IH _ Hex).
Qed.

(** X16. When the label of every level is a number, the column is
    written without levels and with recoded data: each value other than
    the missing value [INT_MIN] is replaced by the number of its label,
    and by 0 when no level has that value; the vector of the caller is
    left recoded as well.  What is returned is what the overwrite of the
    column returns. *)
Theorem setColumnData_recodes_numeric_labels (isOrdinal : bool)
    (columnName : string) (data : list Z) (levels : list (Z * string)) e :
  NoDup (map fst levels) ->
  (forall key label, In (key, label) levels -> isNumber label) ->
  let data' := map (recoded levels) data in
  let written :=
    (if isOrdinal then overwriteDataWithOrdinal P columnName data'
     else overwriteDataWithNominal P columnName data') (world e) in
  setColumnDataAsNominalOrOrdinal P isOrdinal columnName data levels e
  = Ret (fst written, data') (set_world (snd written) e).
Proof.
  intros Hnodup Hnumbers data' written.
  destruct (@collectUniqueInts_numbers levels [] Hnodup
              (fun k _ H => H) Hnumbers) as [m [Hm [Hlen Hat]]].
  unfold setColumnDataAsNominalOrOrdinal. rewrite Hm.
  cbn [length Nat.add] in Hlen. rewrite Hlen, Nat.eqb_refl.
  assert (Hdata : replaceByUniqueInts m data = data').
  { subst data'. unfold replaceByUniqueInts. apply map_ext. intro dat.
    unfold recoded. destruct (Z.eqb dat INT_MIN); cbn [negb];
      [ reflexivity | ].
    rewrite Hat. destruct (labelOf levels dat); reflexivity. }
  rewrite Hdata. subst written. destruct isOrdinal; reflexivity.
Qed.

(** X17. When the label of some level is not a number, and none is out
    of the range of [int], the column is written with the data as they
    were given and with the levels; the vector of the caller is not
    changed. *)
Theorem setColumnData_keeps_other_labels (isOrdinal : bool)
    (columnName : string) (data : list Z) (levels : list (Z * string)) e :
  (forall key label, In (key, label) levels ->
                     stoi label <> stoi_out_of_range) ->
  (exists key label, In (key, label) levels /\ ~ isNumber label) ->
  let written :=
    (if isOrdinal then overwriteDataWithOrdinalLevels P columnName data levels
     else overwriteDataWithNominalLevels P columnName data levels) (world e) in
  setColumnDataAsNominalOrOrdinal P isOrdinal columnName data levels e
  = Ret (fst written, data) (set_world (snd written) e).
Proof.
  intros Hrange Hother written.
  destruct (@collectUniqueInts_in_range levels [] Hrange) as [m Hm].
  pose proof (@collectUniqueInts_short levels [] m Hother Hm) as Hshort.
  cbn [length Nat.add] in Hshort.
  unfold setColumnDataAsNominalOrOrdinal. rewrite Hm.
  destruct (Nat.eqb_spec (length m) (length levels)) as [Heq | _]; [ lia | ].
  subst written. destruct isOrdinal; reflexivity.
Qed.

(** X18. A label that [std::stoi] finds out of the range of [int] makes
    [setColumnDataAsNominalOrOrdinal] throw, whatever the other labels
    are: nothing is written to the dataset and the engine is as it
    was. *)
Theorem setColumnData_throws_out_of_range (isOrdinal : bool)
    (columnName : string) (data : list Z) (levels : list (Z * string)) e :
  (exists key label,
      In (key, label) levels /\ stoi label = stoi_out_of_range) ->
  setColumnDataAsNominalOrOrdinal P isOrdinal columnName data levels e
  = Throw (out_of_range "stoi") e.
Proof.
  intro Hout. unfold setColumnDataAsNominalOrOrdinal.
  now rewrite (@collectUniqueInts_out_of_range levels [] Hout).
Qed.

End Further.

(** * The further theorems at work *)

Lemma resting_states_are_closed_witness :
  resting (state_of (receiveMessages 0 (received requestA idle))).
Proof.
  assert (Hrest : resting (received requestA idle)) by (left; reflexivity).
  assert (Hret : returns (receiveMessages 0 (received requestA idle)) = true)
    by (vm_compute; reflexivity).
  exact (proj1 (resting_states_are_closed Hrest) 0 Hret).
Defined.

Lemma runAnalysis_drops_result_silently_witness :
  _analysisStatus (state_of (runAnalysis pausedDuringRun)) = Status.aborted
  /\ channel_out (state_of (runAnalysis pausedDuringRun))
     = channel_out (state_of (atRuntimeReturn pausedDuringRun)).
Proof.
  assert (Hhands : handsToRuntime pausedDuringRun = true)
    by (vm_compute; reflexivity).
  assert (Hret : atRuntimeReturn pausedDuringRun
                 = Ret tt (state_of (atRuntimeReturn pausedDuringRun)))
    by (vm_compute; reflexivity).
  assert (Hst : _analysisStatus (state_of (atRuntimeReturn pausedDuringRun))
                = Status.aborted)
    by (vm_compute; reflexivity).
  assert (Hin : In (_analysisStatus (state_of (atRuntimeReturn pausedDuringRun)))
                  [Status.toInit; Status.aborted; Status.error;
                   Status.exception])
    by (rewrite Hst; right; left; reflexivity).
  rewrite (runAnalysis_drops_result_silently pausedDuringRun Hhands Hret Hin).
  split; vm_compute; reflexivity.
Defined.

Lemma runAnalysis_answers_classic_analysis_witness :
  _engineState (state_of (runAnalysis classicToRun)) = engineState.idle
  /\ _analysisStatus (state_of (runAnalysis classicToRun)) = Status.empty.
Proof.
  assert (Hhands : handsToRuntime classicToRun = true)
    by (vm_compute; reflexivity).
  assert (Hret : atRuntimeReturn classicToRun
                 = Ret tt (state_of (atRuntimeReturn classicToRun)))
    by (vm_compute; reflexivity).
  assert (Hflag : _analysisJaspResults
                    (pending (state_of (atRuntimeReturn classicToRun))) = false)
    by (vm_compute; reflexivity).
  assert (Hst : _analysisStatus (state_of (atRuntimeReturn classicToRun))
                = Status.running)
    by (vm_compute; reflexivity).
  assert (Hin : channel_in (state_of (atRuntimeReturn classicToRun)) = [])
    by (vm_compute; reflexivity).
  destruct (runAnalysis_answers_classic_analysis classicToRun Hhands Hret
              Hflag (or_intror Hst) Hin)
    as [Hrun _].
  rewrite Hrun. split; vm_compute; reflexivity.
Defined.

Lemma runAnalysis_sends_nothing_for_jaspResults_witness :
  channel_out (state_of (runAnalysis jaspResultsToRun))
  = channel_out (state_of (atRuntimeReturn jaspResultsToRun)).
Proof.
  assert (Hhands : handsToRuntime jaspResultsToRun = true)
    by (vm_compute; reflexivity).
  assert (Hret : atRuntimeReturn jaspResultsToRun
                 = Ret tt (state_of (atRuntimeReturn jaspResultsToRun)))
    by (vm_compute; reflexivity).
  assert (Hflag : _analysisJaspResults
                    (pending (state_of (atRuntimeReturn jaspResultsToRun)))
                  = true)
    by (vm_compute; reflexivity).
  assert (Hst : _analysisStatus (state_of (atRuntimeReturn jaspResultsToRun))
                = Status.running)
    by (vm_compute; reflexivity).
  assert (Hkept : ~ In (_analysisStatus
                          (state_of (atRuntimeReturn jaspResultsToRun)))
                      [Status.toInit; Status.aborted; Status.error;
                       Status.exception])
    by (rewrite Hst; simpl; intuition discriminate).
  assert (Hsame : ~ (_analysisStatus
                       (state_of (atRuntimeReturn jaspResultsToRun))
                     = Status.changed
                     /\ (_currentAnalysisKnowsAboutChange
                           (state_of (atRuntimeReturn jaspResultsToRun)) = false
                         \/ _analysisResultsString
                              (state_of (atRuntimeReturn jaspResultsToRun))
                            = "null")))
    by (rewrite Hst; intros [H _]; discriminate H).
  rewrite (runAnalysis_sends_nothing_for_jaspResults jaspResultsToRun Hhands
             Hret Hflag Hkept Hsame).
  vm_compute. reflexivity.
Defined.

Lemma runAnalysis_consumes_request_captured_during_run_witness :
  _engineState (state_of (runAnalysis overtaken)) = engineState.idle
  /\ _analysisStatus (state_of (runAnalysis overtaken)) = Status.empty
  /\ _analysisName (pending (state_of (runAnalysis overtaken))) = "D".
Proof.
  assert (Hhands : handsToRuntime overtaken = true)
    by (vm_compute; reflexivity).
  assert (Hret : atRuntimeReturn overtaken
                 = Ret tt (state_of (atRuntimeReturn overtaken)))
    by (vm_compute; reflexivity).
  assert (Hst : _analysisStatus (state_of (atRuntimeReturn overtaken))
                = Status.toRun)
    by (vm_compute; reflexivity).
  assert (Hname : _analysisName (pending (state_of (atRuntimeReturn overtaken)))
                  = "D")
    by (vm_compute; reflexivity).
  assert (Hin : In (_analysisStatus (state_of (atRuntimeReturn overtaken)))
                  [Status.toRun; Status.saveImg; Status.editImg;
                   Status.rewriteImgs])
    by (rewrite Hst; left; reflexivity).
  destruct (runAnalysis_consumes_request_captured_during_run overtaken
              Hhands Hret Hin)
    as [_ [Hidle [Hempty [Hpending _]]]].
  split; [ exact Hidle | split; [ exact Hempty | ] ].
  rewrite Hpending. exact Hname.
Defined.

Lemma runAnalysis_answers_image_request_witness :
  _engineState (state_of (runAnalysis imageToSave)) = engineState.idle
  /\ _analysisStatus (state_of (runAnalysis imageToSave)) = Status.empty.
Proof.
  assert (Hin : In (_analysisStatus imageToSave)
                  [Status.saveImg; Status.editImg; Status.rewriteImgs])
    by (left; reflexivity).
  destruct (runAnalysis_answers_image_request imageToSave Hin)
    as [_ [Hidle [Hempty _]]].
  split; assumption.
Defined.

Lemma poll_reports_request_for_running_analysis_witness :
  exists jsonRequest rest,
    channel_in (received requestB (runningEngine quietScript 1 requestA))
    = Some (Document jsonRequest) :: rest
    /\ rq_typeRequest jsonRequest = Some "analysis"
    /\ get (rq_id jsonRequest) (-1)
       = _analysisId (received requestB (runningEngine quietScript 1 requestA))
    /\ _analysisStatus (received requestB (runningEngine quietScript 1 requestA))
       = Status.running.
Proof.
  assert (Hpoll : PollMessagesFunctionForJaspResults
                    (received requestB (runningEngine quietScript 1 requestA))
                  = Ret true
                      (state_of
                         (PollMessagesFunctionForJaspResults
                            (received requestB
                               (runningEngine quietScript 1 requestA)))))
    by (vm_compute; reflexivity).
  exact (proj1 (poll_reports_request_for_running_analysis _ Hpoll) eq_refl).
Defined.

Lemma analysis_request_is_refused_witness :
  exists what,
    receiveMessages 0
      (received requestA (set_engineState engineState.paused idle))
    = Throw (runtime_error what)
        (dispatched [] (received requestA
                          (set_engineState engineState.paused idle))).
Proof.
  assert (Hidle : _engineState
                    (received requestA (set_engineState engineState.paused idle))
                  <> engineState.idle)
    by (intro H; discriminate H).
  assert (Hanalysis : _engineState
                        (received requestA
                           (set_engineState engineState.paused idle))
                      <> engineState.analysis)
    by (intro H; discriminate H).
  exact (@analysis_request_is_refused quiet 0 requestA []
           (received requestA (set_engineState engineState.paused idle))
           eq_refl eq_refl Hidle Hanalysis).
Defined.

Lemma request_is_answered_once_witness :
  exists response,
    channel_out
      (state_of (receiveMessages 0 (received (filterRequest "x" 3) idle)))
    = (channel_out (received (filterRequest "x" 3) idle)
       ++ [onTheWire quiet ""; sent quiet response])%list
    /\ JsonValue.get response "typeRequest" JNull = JString "filter".
Proof.
  assert (Hnot : engineState.filter <> engineState.analysis)
    by (intro H; discriminate H).
  assert (Hret : returns (receiveMessages 0 (received (filterRequest "x" 3) idle))
                 = true)
    by (vm_compute; reflexivity).
  exact (@request_is_answered_once quiet 0 engineState.filter
           (filterRequest "x" 3) [] (received (filterRequest "x" 3) idle)
           eq_refl eq_refl Hnot Hret).
Defined.

Lemma run_never_gets_stuck_witness :
  resting
    (state_of (runTurn ToyProcess.quiet engineState.idle ToyProcess.starting)).
Proof.
  assert (Hstart : resting ToyProcess.starting
                   \/ _engineState ToyProcess.starting
                      = engineState.initializing)
    by (right; reflexivity).
  assert (Hret : returns (runTurn ToyProcess.quiet engineState.idle
                            ToyProcess.starting) = true)
    by (vm_compute; reflexivity).
  exact (proj1 (proj2 (run_never_gets_stuck ToyProcess.quiet Hstart))
           engineState.idle Hret).
Defined.

Lemma stop_request_ends_run_witness :
  _engineState
    (state_of
       (run ToyProcess.quiet 5
          (received (bareRequest "stopRequested")
             (runningEngine quietScript 1 requestA))))
  = engineState.stopped
  /\ _analysisStatus
       (state_of
          (run ToyProcess.quiet 5
             (received (bareRequest "stopRequested")
                (runningEngine quietScript 1 requestA))))
     = Status.aborted.
Proof.
  assert (Hk : keepsRunning ToyProcess.quiet
                 (received (bareRequest "stopRequested")
                    (runningEngine quietScript 1 requestA)) = true)
    by (vm_compute; reflexivity).
  assert (Hrest : resting (received (bareRequest "stopRequested")
                             (runningEngine quietScript 1 requestA)))
    by (right; left; reflexivity).
  destruct (@stop_request_ends_run quiet ToyProcess.quiet 4
              (bareRequest "stopRequested") []
              (received (bareRequest "stopRequested")
                 (runningEngine quietScript 1 requestA))
              Hk Hrest eq_refl eq_refl)
    as [_ [Hstopped [_ [_ [Hstatus _]]]]].
  split; [ exact Hstopped | exact Hstatus ].
Defined.

Lemma setColumnData_recodes_numeric_labels_witness :
  setColumnDataAsNominalOrOrdinal ToyProcess.quiet true "column"
    [1; 2; INT_MIN; 5] [(1, "3"); (2, "-7")] idle
  = Ret (true, [3; -7; INT_MIN; 0]) idle.
Proof.
  assert (Hnodup : NoDup (map fst [(1, "3"); (2, "-7")])).
  { repeat constructor; simpl; intuition discriminate. }
  assert (Hnumbers : forall key label,
             In (key, label) [(1, "3"); (2, "-7")] -> isNumber label).
  { intros key label [H | [H | []]]; injection H as _ <-;
      eexists; vm_compute; reflexivity. }
  rewrite (@setColumnData_recodes_numeric_labels quiet ToyProcess.quiet true
             "column" [1; 2; INT_MIN; 5] [(1, "3"); (2, "-7")] idle
             Hnodup Hnumbers).
  vm_compute. reflexivity.
Defined.

Lemma setColumnData_keeps_other_labels_witness :
  setColumnDataAsNominalOrOrdinal ToyProcess.quiet false "column"
    [1; 2; INT_MIN; 5] [(1, "3"); (2, "2.5")] idle
  = Ret (true, [1; 2; INT_MIN; 5]) idle.
Proof.
  assert (Hrange : forall key label,
             In (key, label) [(1, "3"); (2, "2.5")] ->
             stoi label <> stoi_out_of_range).
  { intros key label [H | [H | []]]; injection H as _ <-;
      vm_compute; intro Hout; discriminate Hout. }
  assert (Hother : exists key label,
             In (key, label) [(1, "3"); (2, "2.5")] /\ ~ isNumber label).
  { exists 2, "2.5". split; [ right; left; reflexivity | ].
    intros [asInt Hstoi]. vm_compute in Hstoi. discriminate Hstoi. }
  rewrite (@setColumnData_keeps_other_labels quiet ToyProcess.quiet false
             "column" [1; 2; INT_MIN; 5] [(1, "3"); (2, "2.5")] idle
             Hrange Hother).
  vm_compute. reflexivity.
Defined.

Lemma setColumnData_throws_out_of_range_witness :
  setColumnDataAsNominalOrOrdinal ToyProcess.quiet true "column"
    [1; 2] [(1, "3"); (2, "99999999999")] idle
  = Throw (out_of_range "stoi") idle.
Proof.
  assert (Hout : exists key label,
             In (key, label) [(1, "3"); (2, "99999999999")]
             /\ stoi label = stoi_out_of_range).
  { exists 2, "99999999999". split; [ right; left; reflexivity | ].
    vm_compute. reflexivity. }
  exact (@setColumnData_throws_out_of_range quiet ToyProcess.quiet true
           "column" [1; 2] [(1, "3"); (2, "99999999999")] idle Hout).
Defined.

